(** * Clinker planning engine: objective, constraints, solver orchestration,
      result parsing and analytics, embedded from the Python sources.

    Numbers that the Python code holds in [float] are modelled by exact
    rationals [Q]; equalities between computed quantities are therefore
    stated with [==] (the "approximately equal" of the floating code).
    Dictionaries are [gmap]s, Pyomo index sets are lists in iteration
    order, and a solved model is a model together with the value the solver
    loaded for every variable. *)

From Stdlib Require Import QArith Qabs Qround Lqa ZArith Ascii String List Bool.
From stdpp Require Import gmap strings list fin_maps.

Open Scope Q_scope.

(** ** Python built-ins used by the sources *)

Module Py.

(** [sum(xs)]: a left fold that starts from [0]. *)
Definition sum (xs : list Q) : Q := fold_left Qplus xs 0.

(** [abs(x) > tol], [x < 0], [x != 0] as boolean tests on rationals. *)
Definition gt (x y : Q) : bool := negb (Qle_bool x y).
Definition lt (x y : Q) : bool := negb (Qle_bool y x).
Definition ge (x y : Q) : bool := Qle_bool y x.
Definition ne (x y : Q) : bool := negb (Qeq_bool x y).

(** [max(a, b)]: the first argument unless the second is strictly larger. *)
Definition max (a b : Q) : Q := if gt b a then b else a.

(** [round(x)] on a float: nearest integer, ties to the even one. *)
Definition round (x : Q) : Z :=
  let f := Qfloor x in
  let d := x - inject_Z f in
  if lt d (1#2) then f
  else if gt d (1#2) then (f + 1)%Z
  else if Z.even f then f else (f + 1)%Z.

(** ASCII view of [str.strip()] and [str.lower()]. *)
Definition is_space (c : ascii) : bool :=
  let n := nat_of_ascii c in
  ((9 <=? n)%nat && (n <=? 13)%nat) || ((28 <=? n)%nat && (n <=? 32)%nat).

Fixpoint lstrip (s : string) : string :=
  match s with
  | EmptyString => EmptyString
  | String c s' => if is_space c then lstrip s' else s
  end.

Fixpoint rstrip (s : string) : string :=
  match s with
  | EmptyString => EmptyString
  | String c s' =>
      match rstrip s' with
      | EmptyString => if is_space c then EmptyString else String c EmptyString
      | r => String c r
      end
  end.

Definition strip (s : string) : string := rstrip (lstrip s).

Definition lower_ascii (c : ascii) : ascii :=
  let n := nat_of_ascii c in
  if ((65 <=? n)%nat && (n <=? 90)%nat) then ascii_of_nat (n + 32) else c.

Fixpoint lower (s : string) : string :=
  match s with
  | EmptyString => EmptyString
  | String c s' => String (lower_ascii c) (lower s')
  end.

(** Truthiness of a string: [if s] holds for the non-empty ones. *)
Definition truthy (s : string) : bool :=
  match s with EmptyString => false | _ => true end.

(** [d.get(k, default)]. *)
Definition get `{Countable K} {V} (d : gmap K V) (k : K) (default : V) : V :=
  match d !! k with Some v => v | None => default end.

(** [x in xs] on a list of strings. *)
Definition mem (x : string) (xs : list string) : bool :=
  existsb (String.eqb x) xs.

End Py.

(** ** The Pyomo model built by [build_model] *)

Definition plant := string.
Definition period := string.
Definition route := (string * string * string)%type.

Module Pyomo.

(** The per-key limits dictionary [{'lower': .., 'upper': ..}]; a missing key
    and a [None] value are both [None]. *)
Record Limits := { lower : option Q; upper : option Q }.

(** Sets and parameters of the model.  [TransportCodeLimitSet] and
    [TransportCodeLimits] are attributes that exist only for datasets that
    carry aggregate limits ([hasattr] is [Some]). *)
Record Model := {
  P : list plant;
  T : list period;
  R : list route;
  CL : list plant;
  Inv0 : plant -> Q;
  Safety : plant -> Q;
  MaxInv : plant -> Q;
  HoldCost : plant -> Q;
  ProdCap : plant -> Q;
  ProdCost : plant -> Q;
  Demand : plant -> period -> Q;
  RouteCost : route -> Q;
  RouteCap : route -> Q;
  RouteSBQ : route -> Q;
  RouteEnabled : route -> bool;
  TransportCodeLimitSet : option (list (string * string * string));
  TransportCodeLimits : option (gmap (string * string * string) Limits);
}.

(** Values of the decision variables after a solve.  [DemandSlack] and
    [DemandPenalty] are the components added by [add_feasible_constraints]. *)
Record Values := {
  Prod : plant -> period -> Q;
  Ship : route -> period -> Q;
  Trips : route -> period -> Q;
  Use : route -> period -> Q;
  Inv : plant -> period -> Q;
  DemandSlack : plant -> period -> Q;
}.

(** A constraint expression evaluated at the variable values: the two sides
    of [lhs <= rhs], [lhs >= rhs] or [lhs == rhs]. *)
Inductive Constr :=
| CLe (lhs rhs : Q)
| CGe (lhs rhs : Q)
| CEq (lhs rhs : Q).

Definition holds (c : Constr) : Prop :=
  match c with
  | CLe a b => a <= b
  | CGe a b => b <= a
  | CEq a b => a == b
  end.

Definition holdsb (c : Constr) : bool :=
  match c with
  | CLe a b => Qle_bool a b
  | CGe a b => Qle_bool b a
  | CEq a b => Qeq_bool a b
  end.

(** A rule returns a constraint or [Constraint.Skip] ([None]); a skipped
    constraint restricts nothing. *)
Definition rule_holds (c : option Constr) : Prop :=
  match c with Some c => holds c | None => True end.

(** [bound * factor] on the constant side of a bound constraint. *)
Definition scale_bound (factor : Q) (c : Constr) : Constr :=
  match c with
  | CLe a b => CLe a (b * factor)
  | CGe a b => CGe a (b * factor)
  | CEq a b => CEq a (b * factor)
  end.

End Pyomo.

Import Pyomo.

(** ** objective.py *)

Module Objective.

Definition production_cost (m : Model) (v : Values) : Q :=
  Py.sum (map (fun '(p, t) => Prod v p t * ProdCost m p) (list_prod (P m) (T m))).

Definition transport_cost (m : Model) (v : Values) : Q :=
  Py.sum (map (fun '(r, t) => Trips v r t * RouteCost m r) (list_prod (R m) (T m))).

Definition holding_cost (m : Model) (v : Values) : Q :=
  Py.sum (map (fun '(p, t) => Inv v p t * HoldCost m p) (list_prod (P m) (T m))).

(** Value of the [TotalCost] objective at the variable values. *)
Definition total_cost_rule (m : Model) (v : Values) : Q :=
  production_cost m v + transport_cost m v + holding_cost m v.

End Objective.

(** ** feasible_objective.py *)

Module FeasibleObjective.

(** [model.DemandPenalty = pyo.Param(initialize=10000.0)]. *)
Definition DemandPenalty : Q := 10000.

Definition production_cost (m : Model) (v : Values) : Q :=
  Py.sum (map (fun '(p, t) => ProdCost m p * Prod v p t) (list_prod (P m) (T m))).

Definition transport_cost (m : Model) (v : Values) : Q :=
  Py.sum (map (fun '(r, t) => RouteCost m r * Ship v r t) (list_prod (R m) (T m))).

Definition holding_cost (m : Model) (v : Values) : Q :=
  Py.sum (map (fun '(p, t) => HoldCost m p * Inv v p t) (list_prod (P m) (T m))).

Definition demand_penalty (m : Model) (v : Values) : Q :=
  Py.sum (map (fun '(p, t) => DemandPenalty * DemandSlack v p t) (list_prod (P m) (T m))).

Definition total_cost (m : Model) (v : Values) : Q :=
  production_cost m v + transport_cost m v + holding_cost m v + demand_penalty m v.

End FeasibleObjective.

(** ** constraints.py: the bound families of the exact model *)

Module Constraints.

Definition safety_stock_rule (m : Model) (v : Values) (p : plant) (t : period)
  : option Constr :=
  Some (CGe (Inv v p t) (Safety m p)).

Definition max_inventory_rule (m : Model) (v : Values) (p : plant) (t : period)
  : option Constr :=
  Some (CLe (Inv v p t) (MaxInv m p)).

Definition trip_capacity_rule (m : Model) (v : Values) (r : route) (t : period)
  : option Constr :=
  Some (CLe (Ship v r t) (Trips v r t * RouteCap m r)).

Definition sbq_rule (m : Model) (v : Values) (r : route) (t : period)
  : option Constr :=
  Some (CGe (Ship v r t) (Trips v r t * RouteSBQ m r)).

(** [sum(m.Ship[ii, jj, k, t] for (ii, jj, kk) in m.R if ii == i and kk == k)]. *)
Definition total_shipped (m : Model) (v : Values) (i k : string) (t : period) : Q :=
  Py.sum (map (fun '(ii, jj, kk) => Ship v (ii, jj, k) t)
              (filter (fun '(ii, jj, kk) => ii = i ∧ kk = k) (R m))).

Definition transport_code_limit_lower_rule
    (limits_of : gmap (string * string * string) Limits)
    (m : Model) (v : Values) (key : string * string * string) : option Constr :=
  let '(i, k, t) := key in
  match limits_of !! key with
  | None => None
  | Some limits =>
      match lower limits with
      | None => None
      | Some lo => Some (CGe (total_shipped m v i k t) lo)
      end
  end.

Definition transport_code_limit_upper_rule
    (limits_of : gmap (string * string * string) Limits)
    (m : Model) (v : Values) (key : string * string * string) : option Constr :=
  let '(i, k, t) := key in
  match limits_of !! key with
  | None => None
  | Some limits =>
      match upper limits with
      | None => None
      | Some up => Some (CLe (total_shipped m v i k t) up)
      end
  end.

(** The indexed constraint components, one rule instance per index. *)
Definition SafetyStock (m : Model) (v : Values) : list (option Constr) :=
  map (fun '(p, t) => safety_stock_rule m v p t) (list_prod (P m) (T m)).

Definition MaxInventory (m : Model) (v : Values) : list (option Constr) :=
  map (fun '(p, t) => max_inventory_rule m v p t) (list_prod (P m) (T m)).

Definition SBQ (m : Model) (v : Values) : list (option Constr) :=
  map (fun '(r, t) => sbq_rule m v r t) (list_prod (R m) (T m)).

Definition TransportCodeLimitLower (m : Model) (v : Values) : list (option Constr) :=
  match TransportCodeLimits m, TransportCodeLimitSet m with
  | Some limits_of, Some keys => map (transport_code_limit_lower_rule limits_of m v) keys
  | _, _ => []
  end.

Definition TransportCodeLimitUpper (m : Model) (v : Values) : list (option Constr) :=
  match TransportCodeLimits m, TransportCodeLimitSet m with
  | Some limits_of, Some keys => map (transport_code_limit_upper_rule limits_of m v) keys
  | _, _ => []
  end.

End Constraints.

(** ** feasible_constraints.py: the same families, relaxed *)

Module FeasibleConstraints.

Definition safety_stock_rule (m : Model) (v : Values) (p : plant) (t : period)
  : option Constr :=
  Some (CGe (Inv v p t) (Safety m p * 0.8)).

Definition max_inventory_rule (m : Model) (v : Values) (p : plant) (t : period)
  : option Constr :=
  Some (CLe (Inv v p t) (MaxInv m p * 1.2)).

Definition trip_capacity_rule (m : Model) (v : Values) (r : route) (t : period)
  : option Constr :=
  Some (CLe (Ship v r t) (Trips v r t * RouteCap m r)).

Definition sbq_rule (m : Model) (v : Values) (r : route) (t : period)
  : option Constr :=
  if Py.gt (RouteSBQ m r) 0
  then Some (CGe (Ship v r t) (Trips v r t * RouteSBQ m r * 0.5))
  else None.

Definition total_shipped := Constraints.total_shipped.

Definition transport_code_limit_lower_rule
    (limits_of : gmap (string * string * string) Limits)
    (m : Model) (v : Values) (key : string * string * string) : option Constr :=
  let '(i, k, t) := key in
  match limits_of !! key with
  | None => None
  | Some limits =>
      match lower limits with
      | None => None
      | Some lo => Some (CGe (total_shipped m v i k t) (lo * 0.8))
      end
  end.

Definition transport_code_limit_upper_rule
    (limits_of : gmap (string * string * string) Limits)
    (m : Model) (v : Values) (key : string * string * string) : option Constr :=
  let '(i, k, t) := key in
  match limits_of !! key with
  | None => None
  | Some limits =>
      match upper limits with
      | None => None
      | Some up => Some (CLe (total_shipped m v i k t) (up * 1.2))
      end
  end.

Definition SafetyStock (m : Model) (v : Values) : list (option Constr) :=
  map (fun '(p, t) => safety_stock_rule m v p t) (list_prod (P m) (T m)).

Definition MaxInventory (m : Model) (v : Values) : list (option Constr) :=
  map (fun '(p, t) => max_inventory_rule m v p t) (list_prod (P m) (T m)).

Definition SBQ (m : Model) (v : Values) : list (option Constr) :=
  map (fun '(r, t) => sbq_rule m v r t) (list_prod (R m) (T m)).

Definition TransportCodeLimitLower (m : Model) (v : Values) : list (option Constr) :=
  match TransportCodeLimits m, TransportCodeLimitSet m with
  | Some limits_of, Some keys => map (transport_code_limit_lower_rule limits_of m v) keys
  | _, _ => []
  end.

Definition TransportCodeLimitUpper (m : Model) (v : Values) : list (option Constr) :=
  match TransportCodeLimits m, TransportCodeLimitSet m with
  | Some limits_of, Some keys => map (transport_code_limit_upper_rule limits_of m v) keys
  | _, _ => []
  end.

End FeasibleConstraints.

(** ** optimization/result_parser.py *)

Module ResultParser.

Record ProdRow := {
  pr_plant_id : plant; pr_plant : string; pr_month : period; pr_production : Q }.

Record ShipRow := {
  sr_from_id : plant; sr_from : string; sr_to_id : plant; sr_to : string;
  sr_mode : string; sr_month : period; sr_shipment : Q; sr_trips : Z }.

Record InvRow := {
  ir_plant_id : plant; ir_plant : string; ir_month : period; ir_inventory : Q }.

Record CostBreakdown := { production : Q; transport : Q; holding : Q }.

Record OptimizationResults := {
  production_df : list ProdRow;
  transport_df : list ShipRow;
  inventory_df : list InvRow;
  cost_breakdown : CostBreakdown;
  objective_value : Q;
}.

(** [_safe_value]: every variable and parameter of a solved model has a
    value, so reading it never takes the fallback branch. *)
Definition _safe_value (x : Q) : Q := x.

Definition prod_rows (m : Model) (v : Values) (plant_names : gmap string string)
  : list ProdRow :=
  flat_map (fun '(p, t) =>
    let qty := _safe_value (Prod v p t) in
    if Py.ne qty 0
    then [ {| pr_plant_id := p; pr_plant := Py.get plant_names p p;
              pr_month := t; pr_production := qty |} ]
    else []) (list_prod (P m) (T m)).

Definition ship_rows (m : Model) (v : Values) (plant_names : gmap string string)
  : list ShipRow :=
  flat_map (fun '((i, j, k), t) =>
    let ship_qty := _safe_value (Ship v (i, j, k) t) in
    let trips := _safe_value (Trips v (i, j, k) t) in
    if Py.ne ship_qty 0 || Py.ne trips 0
    then [ {| sr_from_id := i; sr_from := Py.get plant_names i i;
              sr_to_id := j; sr_to := Py.get plant_names j j;
              sr_mode := k; sr_month := t;
              sr_shipment := ship_qty; sr_trips := Py.round trips |} ]
    else []) (list_prod (R m) (T m)).

Definition inv_rows (m : Model) (v : Values) (plant_names : gmap string string)
  : list InvRow :=
  map (fun '(p, t) =>
    let inv := _safe_value (Inv v p t) in
    {| ir_plant_id := p; ir_plant := Py.get plant_names p p;
       ir_month := t; ir_inventory := inv |}) (list_prod (P m) (T m)).

Definition prod_cost (m : Model) (v : Values) : Q :=
  Py.sum (map (fun '(p, t) => _safe_value (Prod v p t) * _safe_value (ProdCost m p))
              (list_prod (P m) (T m))).

Definition trans_cost (m : Model) (v : Values) : Q :=
  Py.sum (map (fun '(r, t) => _safe_value (Trips v r t) * _safe_value (RouteCost m r))
              (list_prod (R m) (T m))).

Definition hold_cost (m : Model) (v : Values) : Q :=
  Py.sum (map (fun '(p, t) => _safe_value (Inv v p t) * _safe_value (HoldCost m p))
              (list_prod (P m) (T m))).

(** [parse_results] reads the objective value from [model.TotalCost], the
    objective component the builder attached to the model: [TotalCost] is
    that component as a function of the model and the solved values,
    [Objective.total_cost_rule] after [add_objective] and
    [FeasibleObjective.total_cost] after [add_feasible_objective].  The
    breakdown is recomputed from the variables and has the three keys
    production, transport and holding, whichever objective is attached. *)
Definition parse_results (TotalCost : Model -> Values -> Q)
    (m : Model) (v : Values) (plant_names : gmap string string)
  : OptimizationResults :=
  let obj := _safe_value (TotalCost m v) in
  {| production_df := prod_rows m v plant_names;
     transport_df := ship_rows m v plant_names;
     inventory_df := inv_rows m v plant_names;
     cost_breakdown := {| production := prod_cost m v;
                          transport := trans_cost m v;
                          holding := hold_cost m v |};
     objective_value := obj |}.

End ResultParser.

(** ** Fallible code: [raise ValueError(..)] as an error result *)

Inductive result (E A : Type) : Type :=
| Ok (a : A)
| Err (e : E).
Arguments Ok {E A} a.
Arguments Err {E A} e.

#[global] Instance result_ret {E} : MRet (result E) := fun A a => Ok a.

#[global] Instance result_bind {E} : MBind (result E) := fun A B f x =>
  match x with
  | Ok a => f a
  | Err e => Err e
  end.

(** A [for] loop whose body may raise, threading the loop state. *)
Fixpoint for_each {E A S} (xs : list A) (body : S -> A -> result E S) (st : S)
  : result E S :=
  match xs with
  | [] => Ok st
  | x :: xs' => st' ← body st x; for_each xs' body st'
  end.

Definition is_ok {E A} (x : result E A) : bool :=
  match x with Ok _ => true | Err _ => false end.

(** ** optimization/data_loader.py *)

Module DataLoader.

(** A numeric field of a stored document: the key may be missing, hold
    [None], hold a number, or hold something [float()] rejects. *)
Inductive field :=
| Absent
| Null
| Num (q : Q)
| NotNumber.

(** [doc.get(key, default)]. *)
Definition get_or (f : field) (default : Q) : field :=
  match f with Absent => Num default | _ => f end.

(** [doc.get(key) is None]. *)
Definition is_none (f : field) : bool :=
  match f with Absent | Null => true | _ => false end.

Record PlantDoc := {
  plant__id : string;
  plant_name : option string;
  plant_plant_type : option string;
  plant_storage_capacity : field;
  plant_initial_inventory : field;
  plant_safety_stock : field;
  plant_production_capacity : field;
  plant_production_cost : field;
}.

Record PolicyDoc := {
  pol_plant_id : string;
  pol_safety_stock : field;
  pol_max_inventory : field;
  pol_holding_cost_per_month : field;
}.

Record DemandDoc := {
  dem_plant_id : string;
  dem_month : option string;
  dem_demand_type : option string;
  dem_demand_quantity : field;
}.

Record RouteDoc := {
  rt_from_plant_id : string;
  rt_to_plant_id : string;
  rt_transport_mode : option string;
  rt_cost_per_trip : field;
  rt_capacity_per_trip : field;
  rt_sbq : field;
  rt_is_enabled : option bool;
}.

(** What the master-data collaborators return at assembly time. *)
Record MasterData := {
  db_plants : list PlantDoc;      (* cached_get_all_plants(include_inactive=False) *)
  db_policies : list PolicyDoc;   (* get_all_policies() *)
  db_demands : list DemandDoc;    (* get_all_demands() *)
  db_routes : list RouteDoc;      (* cached_get_all_routes(include_disabled=True) *)
}.

Inductive ValidationError :=
| MustBeNumber (field_name : string)
| NoMonths
| NoPlants
| MissingProductionCapacity (plant_name : option string)
| MissingProductionCost (plant_name : option string)
| NegativeDemand
| NoRoutes
| NegativeTransport
| SBQExceedsCapacity (from_name to_name : option string) (mode : string)
| DemandTooHigh (month : string) (total_demand total_initial total_prod_cap : Q)
| InitialAboveMax (plant_name : option string)
| NoInboundRoute (plant_name : option string) (month : string).

Record OptimizationData := {
  months : list string;
  plant_ids : list string;
  plant_names : gmap string string;
  plant_type : gmap string string;
  clinker_plants : list string;
  storage_capacity : gmap string Q;
  initial_inventory : gmap string Q;
  safety_stock : gmap string Q;
  max_inventory : gmap string Q;
  holding_cost : gmap string Q;
  production_capacity : gmap string Q;
  production_cost : gmap string Q;
  demand : gmap (string * string) Q;
  routes : list route;
  transport_cost_per_trip : gmap route Q;
  transport_capacity_per_trip : gmap route Q;
  transport_sbq : gmap route Q;
  route_enabled : gmap route bool;
}.

Definition _to_float (value : field) (field_name : string)
  : result ValidationError Q :=
  match value with
  | Num q => Ok q
  | _ => Err (MustBeNumber field_name)
  end.

(** [x or ""] on an optional string. *)
Definition or_empty (s : option string) : string :=
  match s with Some s => s | None => EmptyString end.

(** A dict comprehension [{k(x): v(x) for x in xs}]: later entries win. *)
Definition dict_of `{Countable K} {V} (kvs : list (K * V)) : gmap K V :=
  fold_left (fun d kv => <[kv.1 := kv.2]> d) kvs ∅.

(** A dict comprehension whose values may raise. *)
Definition dict_of_floats (plants : list PlantDoc) (value : PlantDoc -> field)
    (field_name : string) : result ValidationError (gmap string Q) :=
  for_each plants
    (fun d p => q ← _to_float (value p) field_name; Ok (<[plant__id p := q]> d)) ∅.

(** The three inventory tables filled by the loop over plants. *)
Record InvTables := {
  it_safety_stock : gmap string Q;
  it_max_inventory : gmap string Q;
  it_holding_cost : gmap string Q;
}.

Definition inventory_step (policy_by_plant_id : gmap string PolicyDoc)
    (storage_capacity : gmap string Q) (st : InvTables) (p : PlantDoc)
  : result ValidationError InvTables :=
  let pid := plant__id p in
  match policy_by_plant_id !! pid with
  | None =>
      ss ← _to_float (get_or (plant_safety_stock p) 0) "Safety stock";
      Ok {| it_safety_stock := <[pid := ss]> (it_safety_stock st);
            it_max_inventory := <[pid := Py.get storage_capacity pid 0]> (it_max_inventory st);
            it_holding_cost := <[pid := 0]> (it_holding_cost st) |}
  | Some pol =>
      ss ← _to_float (get_or (pol_safety_stock pol) 0) "Safety stock";
      mx ← _to_float (get_or (pol_max_inventory pol) 0) "Max inventory";
      hc ← _to_float (get_or (pol_holding_cost_per_month pol) 0) "Holding cost";
      Ok {| it_safety_stock := <[pid := ss]> (it_safety_stock st);
            it_max_inventory := <[pid := mx]> (it_max_inventory st);
            it_holding_cost := <[pid := hc]> (it_holding_cost st) |}
  end.

Definition production_step (plant_type : gmap string string)
    (plant_names : gmap string string)
    (st : gmap string Q * gmap string Q) (p : PlantDoc)
  : result ValidationError (gmap string Q * gmap string Q) :=
  let pid := plant__id p in
  if decide (plant_type !! pid = Some "Clinker Plant"%string) then
    if is_none (plant_production_capacity p)
    then Err (MissingProductionCapacity (plant_names !! pid))
    else if is_none (plant_production_cost p)
    then Err (MissingProductionCost (plant_names !! pid))
    else
      cap ← _to_float (plant_production_capacity p) "Production capacity";
      cost ← _to_float (plant_production_cost p) "Production cost";
      Ok (<[pid := cap]> st.1, <[pid := cost]> st.2)
  else Ok st.

Definition demand_step (months plant_ids : list string) (demand_type_filter : string)
    (demand : gmap (string * string) Q) (d : DemandDoc)
  : result ValidationError (gmap (string * string) Q) :=
  if negb (String.eqb (or_empty (dem_demand_type d)) demand_type_filter) then Ok demand
  else
    let month := Py.strip (or_empty (dem_month d)) in
    if negb (Py.mem month months) then Ok demand
    else
      let plant_id_str := dem_plant_id d in
      if negb (Py.mem plant_id_str plant_ids) then Ok demand
      else
        qty ← _to_float (get_or (dem_demand_quantity d) 0) "Demand quantity";
        if Py.lt qty 0 then Err NegativeDemand
        else Ok (<[(plant_id_str, month) := Py.get demand (plant_id_str, month) 0 + qty]> demand).

(** The route list and the four route dictionaries filled by the loop over
    route records. *)
Record RouteTables := {
  rt_routes : list route;
  rt_cost : gmap route Q;
  rt_cap : gmap route Q;
  rt_sbq_of : gmap route Q;
  rt_enabled : gmap route bool;
}.

Definition empty_route_tables : RouteTables :=
  {| rt_routes := []; rt_cost := ∅; rt_cap := ∅; rt_sbq_of := ∅; rt_enabled := ∅ |}.

Definition route_step (plant_ids : list string) (plant_names : gmap string string)
    (st : RouteTables) (r : RouteDoc) : result ValidationError RouteTables :=
  let from_id := rt_from_plant_id r in
  let to_id := rt_to_plant_id r in
  let mode := Py.strip (or_empty (rt_transport_mode r)) in
  if negb (Py.mem from_id plant_ids) || negb (Py.mem to_id plant_ids) then Ok st
  else
    let key := (from_id, to_id, mode) in
    cost ← _to_float (get_or (rt_cost_per_trip r) 0) "Cost per trip";
    cap ← _to_float (get_or (rt_capacity_per_trip r) 0) "Capacity per trip";
    sbq ← _to_float (get_or (rt_sbq r) 0) "SBQ";
    let enabled := match rt_is_enabled r with Some b => b | None => true end in
    if Py.lt cap 0 || Py.lt cost 0 || Py.lt sbq 0 then Err NegativeTransport
    else if Py.gt sbq cap
    then Err (SBQExceedsCapacity (plant_names !! from_id) (plant_names !! to_id) mode)
    else Ok {| rt_routes := rt_routes st ++ [key];
               rt_cost := <[key := cost]> (rt_cost st);
               rt_cap := <[key := cap]> (rt_cap st);
               rt_sbq_of := <[key := sbq]> (rt_sbq_of st);
               rt_enabled := <[key := enabled]> (rt_enabled st) |}.

Definition load_routes (plant_ids : list string) (plant_names : gmap string string)
    (all_routes : list RouteDoc) : result ValidationError RouteTables :=
  for_each all_routes (route_step plant_ids plant_names) empty_route_tables.

(** Feasibility check 1, one month. *)
Definition check_month (plant_ids clinker_plants : list string)
    (demand : gmap (string * string) Q)
    (initial_inventory production_capacity : gmap string Q)
    (_ : unit) (m : string) : result ValidationError unit :=
  let total_demand := Py.sum (map (fun pid => Py.get demand (pid, m) 0) plant_ids) in
  let total_initial := Py.sum (map (fun pid => Py.get initial_inventory pid 0) plant_ids) in
  let total_prod_cap := Py.sum (map (fun pid => Py.get production_capacity pid 0) clinker_plants) in
  if Py.gt total_demand (total_initial + total_prod_cap)
  then Err (DemandTooHigh m total_demand total_initial total_prod_cap)
  else Ok tt.

(** Feasibility check 2, one plant. *)
Definition check_storage (plant_names : gmap string string)
    (initial_inventory max_inventory : gmap string Q)
    (_ : unit) (pid : string) : result ValidationError unit :=
  if Py.gt (Py.get initial_inventory pid 0) (Py.get max_inventory pid 0)
  then Err (InitialAboveMax (plant_names !! pid))
  else Ok tt.

(** Feasibility check 3: the [has_inflow] table and one (plant, month). *)
Definition has_inflow_of (plant_ids : list string) (routes : list route)
    (route_enabled : gmap route bool) : gmap string bool :=
  fold_left (fun h '(i, j, mode) =>
               if Py.get route_enabled (i, j, mode) false then <[j := true]> h else h)
            routes (dict_of (map (fun pid => (pid, false)) plant_ids)).

Definition check_inflow (plant_names : gmap string string)
    (clinker_plants : list string) (demand : gmap (string * string) Q)
    (has_inflow : gmap string bool)
    (_ : unit) (pm : string * string) : result ValidationError unit :=
  let '(pid, m) := pm in
  if Py.gt (Py.get demand (pid, m) 0) 0
     && negb (Py.mem pid clinker_plants)
     && negb (Py.get has_inflow pid false)
  then Err (NoInboundRoute (plant_names !! pid) m)
  else Ok tt.

(** Everything [assemble_optimization_data] does after the route loop. *)
Definition finish (months plant_ids : list string)
    (plant_names plant_type : gmap string string) (clinker_plants : list string)
    (storage_capacity initial_inventory : gmap string Q) (inv : InvTables)
    (production_capacity production_cost : gmap string Q)
    (demand : gmap (string * string) Q) (rt : RouteTables)
  : result ValidationError OptimizationData :=
  _ ← for_each months
         (check_month plant_ids clinker_plants demand initial_inventory production_capacity) tt;
  _ ← for_each plant_ids
         (check_storage plant_names initial_inventory (it_max_inventory inv)) tt;
  let has_inflow := has_inflow_of plant_ids (rt_routes rt) (rt_enabled rt) in
  _ ← for_each (list_prod plant_ids months)
         (check_inflow plant_names clinker_plants demand has_inflow) tt;
  Ok {| months := months;
        plant_ids := plant_ids;
        plant_names := plant_names;
        plant_type := plant_type;
        clinker_plants := clinker_plants;
        storage_capacity := storage_capacity;
        initial_inventory := initial_inventory;
        safety_stock := it_safety_stock inv;
        max_inventory := it_max_inventory inv;
        holding_cost := it_holding_cost inv;
        production_capacity := production_capacity;
        production_cost := production_cost;
        demand := demand;
        routes := rt_routes rt;
        transport_cost_per_trip := rt_cost rt;
        transport_capacity_per_trip := rt_cap rt;
        transport_sbq := rt_sbq_of rt;
        route_enabled := rt_enabled rt |}.

Definition assemble_optimization_data (db : MasterData)
    (selected_months : list string) (demand_type_filter : string)
  : result ValidationError OptimizationData :=
  let months := map Py.strip (filter (fun m => Py.truthy (Py.strip m)) selected_months) in
  if decide (months = []) then Err NoMonths else
  let plants := db_plants db in
  if decide (plants = []) then Err NoPlants else
  let plant_ids := map plant__id plants in
  let plant_names := dict_of (map (fun p => (plant__id p, or_empty (plant_name p))) plants) in
  let plant_type := dict_of (map (fun p => (plant__id p, or_empty (plant_plant_type p))) plants) in
  let clinker_plants :=
    filter (fun pid => plant_type !! pid = Some "Clinker Plant"%string) plant_ids in
  storage_capacity ←
    dict_of_floats plants (fun p => get_or (plant_storage_capacity p) 0) "Storage capacity";
  initial_inventory ←
    dict_of_floats plants (fun p => get_or (plant_initial_inventory p) 0) "Initial inventory";
  let policy_by_plant_id := dict_of (map (fun pol => (pol_plant_id pol, pol)) (db_policies db)) in
  inv ← for_each plants (inventory_step policy_by_plant_id storage_capacity)
           {| it_safety_stock := ∅; it_max_inventory := ∅; it_holding_cost := ∅ |};
  let zeros := dict_of (map (fun pid => (pid, 0)) plant_ids) in
  '(production_capacity, production_cost) ←
    for_each plants (production_step plant_type plant_names) (zeros, zeros);
  let demand0 := dict_of (map (fun k => (k, 0)) (list_prod plant_ids months)) in
  demand ← for_each (db_demands db) (demand_step months plant_ids demand_type_filter) demand0;
  let all_routes := db_routes db in
  if decide (all_routes = []) then Err NoRoutes else
  rt ← load_routes plant_ids plant_names all_routes;
  finish months plant_ids plant_names plant_type clinker_plants
         storage_capacity initial_inventory inv production_capacity production_cost
         demand rt.

End DataLoader.

(** ** uncertainty/scenario_generator.py *)

Module ScenarioGenerator.

Import DataLoader.

Record DemandScenario := {
  name : string;
  probability : Q;
  demand_multiplier : Q;
}.

Record ScenarioDemandData := {
  scenario_names : list string;
  sd_probability : gmap string Q;
  sd_demand : gmap (string * string * string) Q;
}.

Inductive ScenarioError :=
| NoScenarios
| NamesNotUnique
| NegativeProbability
| ProbabilitiesNotOne
| NegativeMultiplier.

(** [len(set(names))]. *)
Definition distinct_count (names : list string) : nat :=
  size (list_to_set names : gset string).

(** [sum(prob.values())]. *)
Definition dict_total (prob : gmap string Q) : Q :=
  Py.sum (map snd (map_to_list prob)).

Definition prob_step (prob : gmap string Q) (s : DemandScenario)
  : result ScenarioError (gmap string Q) :=
  let p := probability s in
  if Py.lt p 0 then Err NegativeProbability
  else Ok (<[name s := p]> prob).

Definition demand_step (base_data : OptimizationData)
    (demand : gmap (string * string * string) Q) (s : DemandScenario)
  : result ScenarioError (gmap (string * string * string) Q) :=
  let mult := demand_multiplier s in
  if Py.lt mult 0 then Err NegativeMultiplier
  else Ok (fold_left
             (fun d '(p, t) =>
                let base := Py.get (DataLoader.demand base_data) (p, t) 0 in
                <[(name s, p, t) := base * mult]> d)
             (list_prod (plant_ids base_data) (months base_data)) demand).

Definition generate_demand_scenarios (base_data : OptimizationData)
    (scenarios : list DemandScenario) : result ScenarioError ScenarioDemandData :=
  if decide (scenarios = []) then Err NoScenarios else
  let names :=
    map (fun s => Py.strip (name s))
        (filter (fun s => Py.truthy (Py.strip (name s))) scenarios) in
  if negb (length names =? distinct_count names)%nat then Err NamesNotUnique else
  prob ← for_each scenarios prob_step ∅;
  let total_p := dict_total prob in
  if Py.gt (Qabs (total_p - 1)) (1 # 1000000) then Err ProbabilitiesNotOne else
  demand ← for_each scenarios (demand_step base_data) ∅;
  Ok {| scenario_names := names; sd_probability := prob; sd_demand := demand |}.

End ScenarioGenerator.

(** ** uncertainty/stochastic_model.py *)

Module StochasticModel.

Import DataLoader ScenarioGenerator.

Inductive Domain := NonNegativeReals | NonNegativeIntegers | Binary.

(** The index sets a variable family is declared over. *)
Inductive IndexSet := SetP | SetT | SetR | SetS.

Record VarDecl := {
  var_name : string;
  var_index : list IndexSet;
  var_within : Domain;
}.

Record SModel := {
  P : list plant;
  T : list period;
  R : list route;
  CL : list plant;
  S : list string;
  SafetyStock : plant -> Q;
  MaxInv : plant -> Q;
  HoldCost : plant -> Q;
  ProdCap : plant -> Q;
  ProdCost : plant -> Q;
  CostPerTrip : route -> Q;
  CapPerTrip : route -> Q;
  SBQ : route -> Q;
  Demand : string -> plant -> period -> Q;
  Prob : string -> Q;
  vars : list VarDecl;
}.

(** Values of the variables: the shared decisions and the per-scenario
    inventory. *)
Record SValues := {
  Prod : plant -> period -> Q;
  Ship : route -> period -> Q;
  Trips : route -> period -> Q;
  UseMode : route -> period -> Q;
  Inv : string -> plant -> period -> Q;
}.

(** The [pyo.Var] declarations, in source order. *)
Definition declared_vars : list VarDecl :=
  [ {| var_name := "Prod"; var_index := [SetP; SetT]; var_within := NonNegativeReals |};
    {| var_name := "Ship"; var_index := [SetR; SetT]; var_within := NonNegativeReals |};
    {| var_name := "Trips"; var_index := [SetR; SetT]; var_within := NonNegativeIntegers |};
    {| var_name := "UseMode"; var_index := [SetR; SetT]; var_within := Binary |};
    {| var_name := "Inv"; var_index := [SetS; SetP; SetT]; var_within := NonNegativeReals |} ].

(** Sets and parameters are initialised from the validated dataset, whose
    dictionaries hold every key of the index set they are read at. *)
Definition build_stochastic_model (data : OptimizationData) (scen : ScenarioDemandData)
  : SModel :=
  {| P := plant_ids data;
     T := months data;
     R := routes data;
     CL := clinker_plants data;
     S := scenario_names scen;
     SafetyStock := fun p => Py.get (safety_stock data) p 0;
     MaxInv := fun p => Py.get (max_inventory data) p 0;
     HoldCost := fun p => Py.get (holding_cost data) p 0;
     ProdCap := fun p => Py.get (production_capacity data) p 0;
     ProdCost := fun p => Py.get (production_cost data) p 0;
     CostPerTrip := fun r => Py.get (transport_cost_per_trip data) r 0;
     CapPerTrip := fun r => Py.get (transport_capacity_per_trip data) r 0;
     SBQ := fun r => Py.get (transport_sbq data) r 0;
     Demand := fun s p t => Py.get (sd_demand scen) (s, p, t) 0;
     Prob := fun s => Py.get (sd_probability scen) s 0;
     vars := declared_vars |}.

Definition find_var (m : SModel) (x : string) : option VarDecl :=
  find (fun d => String.eqb (var_name d) x) (vars m).

Definition prod_cost (m : SModel) (v : SValues) : Q :=
  Py.sum (map (fun '(p, t) => ProdCost m p * Prod v p t) (list_prod (P m) (T m))).

Definition trans_cost (m : SModel) (v : SValues) : Q :=
  Py.sum (map (fun '(r, t) => CostPerTrip m r * Trips v r t) (list_prod (R m) (T m))).

Definition hold_cost (m : SModel) (v : SValues) : Q :=
  Py.sum (map (fun '(s, (p, t)) => Prob m s * HoldCost m p * Inv v s p t)
              (list_prod (S m) (list_prod (P m) (T m)))).

(** Value of the [Objective] component at the variable values. *)
Definition expected_cost_obj (m : SModel) (v : SValues) : Q :=
  prod_cost m v + trans_cost m v + hold_cost m v.

End StochasticModel.

(** ** uncertainty/result_parser.py *)

Module UncertaintyResultParser.

Import StochasticModel.

Record InvRow := {
  ir_scenario : string; ir_plant_id : plant; ir_plant : string;
  ir_month : period; ir_inventory : Q }.

Definition _safe_value (x : Q) : Q := x.

Definition prod_rows (m : SModel) (v : SValues) (plant_names : gmap string string)
  : list ResultParser.ProdRow :=
  flat_map (fun '(p, t) =>
    let qty := _safe_value (Prod v p t) in
    if Py.ne qty 0
    then [ {| ResultParser.pr_plant_id := p;
              ResultParser.pr_plant := Py.get plant_names p p;
              ResultParser.pr_month := t;
              ResultParser.pr_production := qty |} ]
    else []) (list_prod (P m) (T m)).

Definition ship_rows (m : SModel) (v : SValues) (plant_names : gmap string string)
  : list ResultParser.ShipRow :=
  flat_map (fun '((i, j, k), t) =>
    let ship_qty := _safe_value (Ship v (i, j, k) t) in
    let trips := _safe_value (Trips v (i, j, k) t) in
    if Py.ne ship_qty 0 || Py.ne trips 0
    then [ {| ResultParser.sr_from_id := i;
              ResultParser.sr_from := Py.get plant_names i i;
              ResultParser.sr_to_id := j;
              ResultParser.sr_to := Py.get plant_names j j;
              ResultParser.sr_mode := k;
              ResultParser.sr_month := t;
              ResultParser.sr_shipment := ship_qty;
              ResultParser.sr_trips := Py.round trips |} ]
    else []) (list_prod (R m) (T m)).

Definition inv_rows (m : SModel) (v : SValues) (plant_names : gmap string string)
  : list InvRow :=
  map (fun '(s, (p, t)) =>
    let inv := _safe_value (Inv v s p t) in
    {| ir_scenario := s; ir_plant_id := p; ir_plant := Py.get plant_names p p;
       ir_month := t; ir_inventory := inv |})
    (list_prod (S m) (list_prod (P m) (T m))).

Definition cost_prod (m : SModel) (v : SValues) : Q :=
  Py.sum (map (fun '(p, t) => _safe_value (Prod v p t) * _safe_value (ProdCost m p))
              (list_prod (P m) (T m))).

Definition cost_trans (m : SModel) (v : SValues) : Q :=
  Py.sum (map (fun '(r, t) => _safe_value (Trips v r t) * _safe_value (CostPerTrip m r))
              (list_prod (R m) (T m))).

(** The model has a [Prob] component, so the expected-holding branch runs. *)
Definition cost_hold (m : SModel) (v : SValues) : Q :=
  Py.sum (map (fun '(s, (p, t)) =>
                 _safe_value (Prob m s) * _safe_value (HoldCost m p) * _safe_value (Inv v s p t))
              (list_prod (S m) (list_prod (P m) (T m)))).

Record UncertaintyResults := {
  production_df : list ResultParser.ProdRow;
  transport_df : list ResultParser.ShipRow;
  inventory_df : list InvRow;
  cost_breakdown : ResultParser.CostBreakdown;
  objective_value : Q;
  scenario_probabilities : gmap string Q;
}.

Definition parse_uncertainty_results (m : SModel) (v : SValues)
    (plant_names : gmap string string) : UncertaintyResults :=
  {| production_df := prod_rows m v plant_names;
     transport_df := ship_rows m v plant_names;
     inventory_df := inv_rows m v plant_names;
     cost_breakdown := {| ResultParser.production := cost_prod m v;
                          ResultParser.transport := cost_trans m v;
                          ResultParser.holding := cost_hold m v |};
     objective_value := _safe_value (expected_cost_obj m v);
     scenario_probabilities :=
       DataLoader.dict_of (map (fun s => (s, _safe_value (Prob m s))) (S m)) |}.

End UncertaintyResultParser.

(** ** optimization/solver.py *)

Module Solver.

Record SolverConfig := {
  solver_name : option string;
  time_limit_seconds : Z;
  mip_gap : Q;
}.

Record SolveOutcome := {
  ok : bool;
  message : string;
  termination_condition : string;
  solver_status : string;
  solver_used : option string;
  runtime_seconds : option Q;
  solver_log_path : option string;
}.

(** What the orchestrator does to the outside world, in order: it asks the
    solver factory for a backend, logs a substitution, runs a backend. *)
Inductive event :=
| Factory (backend : string)
| Warning (msg : string)
| Solve (backend : string).

(** The machine the orchestrator runs on: which backends are installed, what
    a run of a backend reports ([None] when the run raises, otherwise the
    solver status and termination condition), the measured runtime and the
    log file of a backend when solver logs are enabled. *)
Record Env := {
  available : string -> bool;
  run : string -> option (string * string);
  runtime : Q;
  log_path_of : string -> option string;
}.

Definition valid_solvers : list string := ["gurobi"; "cbc"; "highs"; "scip"]%string.

Definition fallback_chain (requested_solver : string) : list string :=
  if String.eqb requested_solver "gurobi" then ["cbc"; "highs"; "scip"]%string
  else if String.eqb requested_solver "cbc" then ["highs"; "scip"]%string
  else if String.eqb requested_solver "highs" then ["scip"]%string
  else [].

Definition fallback_warning (solver_name alt : string) : string :=
  ("Solver '" ++ solver_name ++ "' not available; falling back to " ++ alt ++ ".")%string.

(** The [for alt in fallback_chain] loop: the backend it stops at and the
    events it produced. *)
Fixpoint walk (env : Env) (solver_name : string) (chain : list string)
  : string * list event :=
  match chain with
  | [] => (solver_name, [])
  | alt :: rest =>
      let evs := [Warning (fallback_warning solver_name alt); Factory alt] in
      if available env alt then (alt, evs)
      else let '(last, evs') := walk env alt rest in (last, evs ++ evs')
  end.

Definition invalid_outcome : SolveOutcome :=
  {| ok := false; message := "Invalid solver selected.";
     termination_condition := "invalid"; solver_status := "invalid";
     solver_used := None; runtime_seconds := None; solver_log_path := None |}.

Definition not_available_outcome : SolveOutcome :=
  {| ok := false;
     message := "No solver is available on this machine. Install an open-source solver: SCIP via 'pip install pyscipopt', HiGHS via 'pip install highspy', or configure Gurobi/CBC and try again.";
     termination_condition := "not_available"; solver_status := "not_available";
     solver_used := None; runtime_seconds := None; solver_log_path := None |}.

(** The run of the selected backend and the reading of its verdict. *)
Definition run_selected (env : Env) (solver_name : string) : SolveOutcome :=
  match run env solver_name with
  | None =>
      {| ok := false;
         message := "Solver failed to run. Please try again or change solver settings.";
         termination_condition := "error"; solver_status := "error";
         solver_used := Some solver_name;
         runtime_seconds := None; solver_log_path := None |}
  | Some (status, term) =>
      let is_ok := Py.mem (Py.lower term) ["optimal"; "feasible"]%string in
      if String.eqb (Py.lower term) "infeasible" then
        {| ok := false;
           message := "Model is infeasible (no plan satisfies all constraints). Check inputs and constraints.";
           termination_condition := term; solver_status := status;
           solver_used := Some solver_name;
           runtime_seconds := Some (runtime env);
           solver_log_path := log_path_of env solver_name |}
      else if negb is_ok then
        {| ok := false;
           message := ("Solver finished with status=" ++ status ++ ", termination=" ++ term ++ ".")%string;
           termination_condition := term; solver_status := status;
           solver_used := Some solver_name;
           runtime_seconds := Some (runtime env);
           solver_log_path := log_path_of env solver_name |}
      else
        {| ok := true;
           message := "Optimization solved successfully.";
           termination_condition := term; solver_status := status;
           solver_used := Some solver_name;
           runtime_seconds := Some (runtime env);
           solver_log_path := log_path_of env solver_name |}
  end.

(** [(config.solver_name or "").strip().lower()]. *)
Definition requested_solver (config : SolverConfig) : string :=
  Py.lower (Py.strip (match solver_name config with Some s => s | None => EmptyString end)).

Definition solve_model (env : Env) (config : SolverConfig)
  : SolveOutcome * list event :=
  let requested_solver := requested_solver config in
  if negb (Py.mem requested_solver valid_solvers) then (invalid_outcome, [])
  else
    let chain := fallback_chain requested_solver in
    if available env requested_solver
    then (run_selected env requested_solver,
          [Factory requested_solver; Solve requested_solver])
    else
      let '(last, evs) := walk env requested_solver chain in
      if negb (available env last)
      then (not_available_outcome, Factory requested_solver :: evs)
      else (run_selected env last, Factory requested_solver :: evs ++ [Solve last]).

End Solver.

(** ** analytics/analytics_service.py: the resilience block *)

Module Analytics.

(** [df[col].mean()] on a non-empty column. *)
Definition mean (col : list Q) : Q :=
  Py.sum col / inject_Z (Z.of_nat (length col)).

(** [_avg_headroom]: a utilization table is read through its
    [utilization_percent] column; an empty table has no headroom. *)
Definition _avg_headroom (df : list Q) : option Q * option Q :=
  match df with
  | [] => (None, None)
  | _ =>
      let avg_util := mean df in
      let headroom := Py.max 0 (100 - avg_util) in
      (Some avg_util, Some headroom)
  end.

Definition resilience_components (service_level : Q)
    (prod_headroom storage_headroom trans_headroom : option Q) : list (option Q) :=
  [Some service_level; prod_headroom; storage_headroom; trans_headroom].

Definition component_values (components : list (option Q)) : list Q :=
  omap id components.

Definition resilience_score (components : list (option Q)) : Q :=
  let vals := component_values components in
  match vals with
  | [] => 0
  | _ => Py.sum vals / inject_Z (Z.of_nat (length vals))
  end.

Definition classification (resilience_score : Q) : string :=
  if Py.ge resilience_score 80 then "Resilient"
  else if Py.ge resilience_score 60 then "Balanced"
  else "At Risk".

(** The score and its class as [compute_and_store_analytics] derives them
    from the service level and the three utilization tables. *)
Definition resilience (service_level : Q)
    (production_utilization_df storage_utilization_df transport_utilization_df : list Q)
  : Q * string :=
  let prod_headroom := (_avg_headroom production_utilization_df).2 in
  let storage_headroom := (_avg_headroom storage_utilization_df).2 in
  let trans_headroom := (_avg_headroom transport_utilization_df).2 in
  let score :=
    resilience_score
      (resilience_components service_level prod_headroom storage_headroom trans_headroom) in
  (score, classification score).

End Analytics.

(** ** Vocabulary of the statements and the example inputs *)

(** The shipped-quantity transport term and the total slack, the two sums the
    repair objective is compared through. *)
Definition shipment_cost (m : Model) (v : Values) : Q :=
  Py.sum (map (fun '(r, t) => Ship v r t * RouteCost m r) (list_prod (Pyomo.R m) (Pyomo.T m))).

Definition total_slack (m : Model) (v : Values) : Q :=
  Py.sum (map (fun '(p, t) => DemandSlack v p t) (list_prod (Pyomo.P m) (Pyomo.T m))).

(** One producing plant, one storage plant and one road lane between them:
    unit production cost 10, cost per trip 20, no holding cost. *)
Definition lane : route := ("A", "B", "road")%string.

Definition model1 : Model :=
  {| Pyomo.P := ["A"; "B"]%string; Pyomo.T := ["1"%string]; Pyomo.R := [lane];
     Pyomo.CL := ["A"%string];
     Inv0 := fun _ => 0; Safety := fun _ => 0; Pyomo.MaxInv := fun _ => 1000;
     Pyomo.HoldCost := fun _ => 0;
     Pyomo.ProdCap := fun _ => 100;
     Pyomo.ProdCost := fun p => if String.eqb p "A" then 10 else 0;
     Pyomo.Demand := fun p _ => if String.eqb p "B" then 80 else 0;
     RouteCost := fun _ => 20; RouteCap := fun _ => 50; RouteSBQ := fun _ => 10;
     RouteEnabled := fun _ => true;
     TransportCodeLimitSet := None; TransportCodeLimits := None |}.

(** 80 units produced at A and shipped to B in two trips, no slack. *)
Definition values1 : Values :=
  {| Pyomo.Prod := fun p _ => if String.eqb p "A" then 80 else 0;
     Pyomo.Ship := fun _ _ => 80; Pyomo.Trips := fun _ _ => 2;
     Use := fun _ _ => 1; Pyomo.Inv := fun _ _ => 0;
     DemandSlack := fun _ _ => 0 |}.

(** A one-plant, one-period model whose only production value is [x]. *)
Definition tiny_model : Model :=
  {| Pyomo.P := ["A"%string]; Pyomo.T := ["1"%string]; Pyomo.R := [];
     Pyomo.CL := ["A"%string];
     Inv0 := fun _ => 0; Safety := fun _ => 0; Pyomo.MaxInv := fun _ => 0;
     Pyomo.HoldCost := fun _ => 0; Pyomo.ProdCap := fun _ => 0;
     Pyomo.ProdCost := fun _ => 0; Pyomo.Demand := fun _ _ => 0;
     RouteCost := fun _ => 0; RouteCap := fun _ => 0; RouteSBQ := fun _ => 0;
     RouteEnabled := fun _ => true;
     TransportCodeLimitSet := None; TransportCodeLimits := None |}.

Definition tiny_values (x : Q) : Values :=
  {| Pyomo.Prod := fun _ _ => x; Pyomo.Ship := fun _ _ => 0;
     Pyomo.Trips := fun _ _ => 0; Use := fun _ _ => 0;
     Pyomo.Inv := fun _ _ => 0; DemandSlack := fun _ _ => 0 |}.

(** The production and transport rows the parser builds for an index. *)
Definition prod_row_of (v : Values) (plant_names : gmap string string)
    (p : plant) (t : period) : ResultParser.ProdRow :=
  {| ResultParser.pr_plant_id := p;
     ResultParser.pr_plant := Py.get plant_names p p;
     ResultParser.pr_month := t;
     ResultParser.pr_production := Pyomo.Prod v p t |}.

Definition ship_row_of (v : Values) (plant_names : gmap string string)
    (r : route) (t : period) : ResultParser.ShipRow :=
  let '(i, j, k) := r in
  {| ResultParser.sr_from_id := i;
     ResultParser.sr_from := Py.get plant_names i i;
     ResultParser.sr_to_id := j;
     ResultParser.sr_to := Py.get plant_names j j;
     ResultParser.sr_mode := k;
     ResultParser.sr_month := t;
     ResultParser.sr_shipment := Pyomo.Ship v (i, j, k) t;
     ResultParser.sr_trips := Py.round (Pyomo.Trips v (i, j, k) t) |}.

(** A bound family relaxed by a factor: every rule instance keeps its
    left-hand side and has its bound multiplied by the factor. *)
Definition relaxed_by (factor : Q) (c : option Constr) : option Constr :=
  scale_bound factor <$> c.

(** One trip on the lane carrying 6 units, against a minimum batch of 10. *)
Definition values_sbq : Values :=
  {| Pyomo.Prod := fun _ _ => 0; Pyomo.Ship := fun _ _ => 6;
     Pyomo.Trips := fun _ _ => 1; Use := fun _ _ => 1;
     Pyomo.Inv := fun _ _ => 0; DemandSlack := fun _ _ => 0 |}.

(** The backends the orchestrator asked the factory for, and the backends it
    ran, in order. *)
Definition factory_calls (evs : list Solver.event) : list string :=
  omap (fun e => match e with Solver.Factory b => Some b | _ => None end) evs.

Definition solve_calls (evs : list Solver.event) : list string :=
  omap (fun e => match e with Solver.Solve b => Some b | _ => None end) evs.

(** The candidates of a request in preference order, and the part of a
    candidate list that is tried: everything up to the first available one. *)
Definition candidates (requested : string) : list string :=
  requested :: Solver.fallback_chain requested.

Fixpoint tried (avail : string -> bool) (l : list string) : list string :=
  match l with
  | [] => []
  | x :: l' => if avail x then [x] else x :: tried avail l'
  end.

(** A machine with only HiGHS installed, a machine with no solver at all. *)
Definition env_highs_only : Solver.Env :=
  {| Solver.available := fun b => String.eqb b "highs";
     Solver.run := fun _ => Some ("ok", "optimal")%string;
     Solver.runtime := 1;
     Solver.log_path_of := fun _ => None |}.

Definition env_no_solver : Solver.Env :=
  {| Solver.available := fun _ => false;
     Solver.run := fun _ => None;
     Solver.runtime := 0;
     Solver.log_path_of := fun _ => None |}.

Definition config_of (backend : string) : Solver.SolverConfig :=
  {| Solver.solver_name := Some backend;
     Solver.time_limit_seconds := 60%Z;
     Solver.mip_gap := 0.01 |}.

(** The expected-cost objective as the specification words it: production
    cost plus the probability-weighted sum over scenarios of transport,
    holding and penalty cost, for a per-unit [penalty] on a slack value per
    (scenario, plant, period). *)
Definition scenario_holding (m : StochasticModel.SModel) (v : StochasticModel.SValues)
    (s : string) : Q :=
  Py.sum (map (fun '(p, t) => StochasticModel.HoldCost m p * StochasticModel.Inv v s p t)
              (list_prod (StochasticModel.P m) (StochasticModel.T m))).

Definition scenario_penalty (m : StochasticModel.SModel) (penalty : Q)
    (slack : string -> plant -> period -> Q) (s : string) : Q :=
  Py.sum (map (fun '(p, t) => penalty * slack s p t)
              (list_prod (StochasticModel.P m) (StochasticModel.T m))).

Definition spec_expected_cost (m : StochasticModel.SModel) (v : StochasticModel.SValues)
    (penalty : Q) (slack : string -> plant -> period -> Q) : Q :=
  StochasticModel.prod_cost m v
  + Py.sum (map (fun s => StochasticModel.Prob m s
                          * (StochasticModel.trans_cost m v
                             + scenario_holding m v s
                             + scenario_penalty m penalty slack s))
                (StochasticModel.S m)).

Definition var_decl (x : string) (idx : list StochasticModel.IndexSet)
    (dom : StochasticModel.Domain) : StochasticModel.VarDecl :=
  {| StochasticModel.var_name := x;
     StochasticModel.var_index := idx;
     StochasticModel.var_within := dom |}.

(** The two-plant dataset of [model1], with baseline demand 100 at B and a
    unit holding cost, and the Low/Normal/High scenario set. *)
Definition data1 : DataLoader.OptimizationData :=
  {| DataLoader.months := ["1"%string];
     DataLoader.plant_ids := ["A"; "B"]%string;
     DataLoader.plant_names := <["A"%string := "Kiln"%string]> (<["B"%string := "Mill"%string]> ∅);
     DataLoader.plant_type :=
       <["A"%string := "Clinker Plant"%string]> (<["B"%string := "Grinding Unit"%string]> ∅);
     DataLoader.clinker_plants := ["A"%string];
     DataLoader.storage_capacity := <["A"%string := 1000]> (<["B"%string := 1000]> ∅);
     DataLoader.initial_inventory := <["A"%string := 0]> (<["B"%string := 50]> ∅);
     DataLoader.safety_stock := <["A"%string := 0]> (<["B"%string := 0]> ∅);
     DataLoader.max_inventory := <["A"%string := 1000]> (<["B"%string := 1000]> ∅);
     DataLoader.holding_cost := <["A"%string := 1]> (<["B"%string := 1]> ∅);
     DataLoader.production_capacity := <["A"%string := 100]> (<["B"%string := 0]> ∅);
     DataLoader.production_cost := <["A"%string := 10]> (<["B"%string := 0]> ∅);
     DataLoader.demand := <[("A", "1")%string := 0]> (<[("B", "1")%string := 100]> ∅);
     DataLoader.routes := [lane];
     DataLoader.transport_cost_per_trip := <[lane := 20]> ∅;
     DataLoader.transport_capacity_per_trip := <[lane := 50]> ∅;
     DataLoader.transport_sbq := <[lane := 10]> ∅;
     DataLoader.route_enabled := <[lane := true]> ∅ |}.

Definition scen1 : ScenarioGenerator.ScenarioDemandData :=
  {| ScenarioGenerator.scenario_names := ["Low"; "Normal"; "High"]%string;
     ScenarioGenerator.sd_probability :=
       <["Low"%string := 0.2]> (<["Normal"%string := 0.6]> (<["High"%string := 0.2]> ∅));
     ScenarioGenerator.sd_demand :=
       <[("Low", "B", "1")%string := 90]>
         (<[("Normal", "B", "1")%string := 100]>
            (<[("High", "B", "1")%string := 110]> ∅)) |}.

Definition smodel1 : StochasticModel.SModel :=
  StochasticModel.build_stochastic_model data1 scen1.

(** 100 units produced and shipped in two trips; B ends with 60, 50 or 40. *)
Definition svalues1 : StochasticModel.SValues :=
  {| StochasticModel.Prod := fun p _ => if String.eqb p "A" then 100 else 0;
     StochasticModel.Ship := fun _ _ => 100;
     StochasticModel.Trips := fun _ _ => 2;
     StochasticModel.UseMode := fun _ _ => 1;
     StochasticModel.Inv := fun s p _ =>
       if String.eqb p "A" then 0
       else if String.eqb s "Low" then 60
       else if String.eqb s "Normal" then 50 else 40 |}.

(** A route record is an orphan when its origin or its destination is not
    among the active plants. *)
Definition orphan (plant_ids : list string) (r : DataLoader.RouteDoc) : Prop :=
  Py.mem (DataLoader.rt_from_plant_id r) plant_ids = false
  \/ Py.mem (DataLoader.rt_to_plant_id r) plant_ids = false.

Definition with_routes (db : DataLoader.MasterData) (rs : list DataLoader.RouteDoc)
  : DataLoader.MasterData :=
  {| DataLoader.db_plants := DataLoader.db_plants db;
     DataLoader.db_policies := DataLoader.db_policies db;
     DataLoader.db_demands := DataLoader.db_demands db;
     DataLoader.db_routes := rs |}.

(** Master data for the two plants and the lane of [model1], demand 80 at the
    storage plant, and a route record from a plant that is not active whose
    cost is negative and whose SBQ exceeds its capacity. *)
Definition kiln : DataLoader.PlantDoc :=
  {| DataLoader.plant__id := "A"; DataLoader.plant_name := Some "Kiln"%string;
     DataLoader.plant_plant_type := Some "Clinker Plant"%string;
     DataLoader.plant_storage_capacity := DataLoader.Num 1000;
     DataLoader.plant_initial_inventory := DataLoader.Num 0;
     DataLoader.plant_safety_stock := DataLoader.Num 0;
     DataLoader.plant_production_capacity := DataLoader.Num 100;
     DataLoader.plant_production_cost := DataLoader.Num 10 |}.

Definition mill : DataLoader.PlantDoc :=
  {| DataLoader.plant__id := "B"; DataLoader.plant_name := Some "Mill"%string;
     DataLoader.plant_plant_type := Some "Grinding Unit"%string;
     DataLoader.plant_storage_capacity := DataLoader.Num 1000;
     DataLoader.plant_initial_inventory := DataLoader.Num 0;
     DataLoader.plant_safety_stock := DataLoader.Absent;
     DataLoader.plant_production_capacity := DataLoader.Absent;
     DataLoader.plant_production_cost := DataLoader.Absent |}.

Definition lane_doc : DataLoader.RouteDoc :=
  {| DataLoader.rt_from_plant_id := "A"; DataLoader.rt_to_plant_id := "B";
     DataLoader.rt_transport_mode := Some "road"%string;
     DataLoader.rt_cost_per_trip := DataLoader.Num 20;
     DataLoader.rt_capacity_per_trip := DataLoader.Num 50;
     DataLoader.rt_sbq := DataLoader.Num 10;
     DataLoader.rt_is_enabled := Some true |}.

Definition orphan_doc : DataLoader.RouteDoc :=
  {| DataLoader.rt_from_plant_id := "X"; DataLoader.rt_to_plant_id := "B";
     DataLoader.rt_transport_mode := Some "rail"%string;
     DataLoader.rt_cost_per_trip := DataLoader.Num (-5);
     DataLoader.rt_capacity_per_trip := DataLoader.Num 10;
     DataLoader.rt_sbq := DataLoader.Num 99;
     DataLoader.rt_is_enabled := Some true |}.

Definition db1 : DataLoader.MasterData :=
  {| DataLoader.db_plants := [kiln; mill];
     DataLoader.db_policies := [];
     DataLoader.db_demands :=
       [ {| DataLoader.dem_plant_id := "B"; DataLoader.dem_month := Some "1"%string;
            DataLoader.dem_demand_type := Some "Fixed"%string;
            DataLoader.dem_demand_quantity := DataLoader.Num 80 |} ];
     DataLoader.db_routes := [orphan_doc; lane_doc] |}.

(** Two scenarios that share the empty name, with probabilities 1/2 and 1. *)
Definition blank_scenarios : list ScenarioGenerator.DemandScenario :=
  [ {| ScenarioGenerator.name := ""; ScenarioGenerator.probability := 0.5;
       ScenarioGenerator.demand_multiplier := 0.9 |};
    {| ScenarioGenerator.name := ""; ScenarioGenerator.probability := 1;
       ScenarioGenerator.demand_multiplier := 1.1 |} ].

(** The two loops of the generator as plain folds, the demand it assigns to
    a (scenario, plant, period), and the scenario sets it is specified on:
    names that are stripped and not blank, and the acceptance condition. *)
Definition set_probability (d : gmap string Q) (s : ScenarioGenerator.DemandScenario)
  : gmap string Q :=
  <[ScenarioGenerator.name s := ScenarioGenerator.probability s]> d.

Definition fill_demand (base : DataLoader.OptimizationData)
    (d : gmap (string * string * string) Q) (s : ScenarioGenerator.DemandScenario)
  : gmap (string * string * string) Q :=
  fold_left
    (fun d '(p, t) =>
       <[(ScenarioGenerator.name s, p, t) :=
           Py.get (DataLoader.demand base) (p, t) 0 * ScenarioGenerator.demand_multiplier s]> d)
    (list_prod (DataLoader.plant_ids base) (DataLoader.months base)) d.

Definition scenario_demand (base : DataLoader.OptimizationData)
    (s : ScenarioGenerator.DemandScenario) (p t : string) : Q :=
  Py.get (DataLoader.demand base) (p, t) 0 * ScenarioGenerator.demand_multiplier s.

Definition well_named (l : list ScenarioGenerator.DemandScenario) : Prop :=
  Forall (fun s => Py.strip (ScenarioGenerator.name s) = ScenarioGenerator.name s
                   /\ ScenarioGenerator.name s <> EmptyString) l.

Definition acceptable (l : list ScenarioGenerator.DemandScenario) : Prop :=
  NoDup (map ScenarioGenerator.name l)
  /\ Forall (fun s => 0 <= ScenarioGenerator.probability s) l
  /\ Forall (fun s => 0 <= ScenarioGenerator.demand_multiplier s) l
  /\ Qabs (Py.sum (map ScenarioGenerator.probability l) - 1) <= 1 # 1000000.

(** The Low / Normal / High scenario set of the default settings. *)
Definition three_scenarios : list ScenarioGenerator.DemandScenario :=
  [ {| ScenarioGenerator.name := "Low"; ScenarioGenerator.probability := 0.2;
       ScenarioGenerator.demand_multiplier := 0.9 |};
    {| ScenarioGenerator.name := "Normal"; ScenarioGenerator.probability := 0.6;
       ScenarioGenerator.demand_multiplier := 1 |};
    {| ScenarioGenerator.name := "High"; ScenarioGenerator.probability := 0.2;
       ScenarioGenerator.demand_multiplier := 1.1 |} ].

(** ** Vocabulary for the assembled dataset *)

(** The values [assemble_optimization_data] derives from its arguments
    before it reads any numeric field. *)
Definition months_of (selected_months : list string) : list string :=
  map Py.strip (filter (fun m => Py.truthy (Py.strip m)) selected_months).

Definition ids_of (db : DataLoader.MasterData) : list string :=
  map DataLoader.plant__id (DataLoader.db_plants db).

Definition names_of (db : DataLoader.MasterData) : gmap string string :=
  DataLoader.dict_of
    (map (fun p => (DataLoader.plant__id p, DataLoader.or_empty (DataLoader.plant_name p)))
         (DataLoader.db_plants db)).

Definition types_of (db : DataLoader.MasterData) : gmap string string :=
  DataLoader.dict_of
    (map (fun p => (DataLoader.plant__id p,
                    DataLoader.or_empty (DataLoader.plant_plant_type p)))
         (DataLoader.db_plants db)).

Definition clinker_of (db : DataLoader.MasterData) : list string :=
  filter (fun pid => types_of db !! pid = Some "Clinker Plant"%string) (ids_of db).

(** A demand record counts for (plant, month) under a demand-type filter, and
    the quantity it then adds. *)
Definition counts_for (demand_type_filter : string) (p m : string)
    (d : DataLoader.DemandDoc) : Prop :=
  DataLoader.or_empty (DataLoader.dem_demand_type d) = demand_type_filter
  /\ Py.strip (DataLoader.or_empty (DataLoader.dem_month d)) = m
  /\ DataLoader.dem_plant_id d = p.

Definition quantity_of (d : DataLoader.DemandDoc) : Q :=
  match DataLoader.get_or (DataLoader.dem_demand_quantity d) 0 with
  | DataLoader.Num q => q
  | _ => 0
  end.

#[global] Instance counts_for_dec (demand_type_filter p m : string)
    (d : DataLoader.DemandDoc) : Decision (counts_for demand_type_filter p m d) :=
  (_ : Decision (_ = _ /\ _ = _ /\ _ = _)).

(** What the route loop keeps true of every key it has appended. *)
Definition valid_route (ids : list string) (st : DataLoader.RouteTables) (key : route)
  : Prop :=
  key.1.1 ∈ ids /\ key.1.2 ∈ ids
  /\ exists cost cap sbq,
      DataLoader.rt_cost st !! key = Some cost
      /\ DataLoader.rt_cap st !! key = Some cap
      /\ DataLoader.rt_sbq_of st !! key = Some sbq
      /\ is_Some (DataLoader.rt_enabled st !! key)
      /\ 0 <= cost /\ 0 <= cap /\ 0 <= sbq /\ sbq <= cap.

(** ** model.py: the previous-period map and the variable domains *)

Module ModelBuilder.

(** The [for idx, t in enumerate(months)] loop: the first month maps to
    [None], every later one to the month before it. *)
Fixpoint prev_map_from (prev : option period) (months : list period)
    (prev_map : gmap period (option period)) : gmap period (option period) :=
  match months with
  | [] => prev_map
  | t :: rest => prev_map_from (Some t) rest (<[t := prev]> prev_map)
  end.

Definition prev_map (months : list period) : gmap period (option period) :=
  prev_map_from None months ∅.

(** The [pyo.Var] domains: non-negative reals for [Prod], [Ship] and [Inv],
    non-negative integers for [Trips], binary for [Use]. *)
Definition is_integer (x : Q) : Prop := inject_Z (Qfloor x) == x.

Definition in_domains (m : Model) (v : Values) : Prop :=
  (forall p t, p ∈ Pyomo.P m -> t ∈ Pyomo.T m -> 0 <= Pyomo.Prod v p t /\ 0 <= Pyomo.Inv v p t)
  /\ (forall r t, r ∈ Pyomo.R m -> t ∈ Pyomo.T m ->
        0 <= Pyomo.Ship v r t
        /\ 0 <= Pyomo.Trips v r t /\ is_integer (Pyomo.Trips v r t)
        /\ (Use v r t == 0 \/ Use v r t == 1)).

End ModelBuilder.

(** ** constraints.py: balance, enablement and mode rules *)

Module FlowConstraints.

Definition big_m_trips : Q := 10000.

Definition production_capacity_rule (m : Model) (v : Values) (p : plant) (t : period)
  : option Constr :=
  Some (CLe (Pyomo.Prod v p t) (Pyomo.ProdCap m p)).

(** [sum(m.Ship[i, p, k, t] for (i, j, k) in m.R if j == p)] and
    [sum(m.Ship[p, j, k, t] for (i, j, k) in m.R if i == p)]. *)
Definition inflow (m : Model) (v : Values) (p : plant) (t : period) : Q :=
  Py.sum (map (fun '(i, j, k) => Pyomo.Ship v (i, p, k) t)
              (filter (fun '(i, j, k) => j = p) (Pyomo.R m))).

Definition outflow (m : Model) (v : Values) (p : plant) (t : period) : Q :=
  Py.sum (map (fun '(i, j, k) => Pyomo.Ship v (p, j, k) t)
              (filter (fun '(i, j, k) => i = p) (Pyomo.R m))).

(** [m.PREV_T[t]]; the rule is instantiated for periods of [m.T] only, all
    of them keys of the map. *)
Definition prev_of (PREV_T : gmap period (option period)) (t : period) : option period :=
  match PREV_T !! t with Some prev_t => prev_t | None => None end.

Definition inventory_balance_rule (PREV_T : gmap period (option period))
    (m : Model) (v : Values) (p : plant) (t : period) : option Constr :=
  let prev_t := prev_of PREV_T t in
  let inflow := inflow m v p t in
  let outflow := outflow m v p t in
  let prod := Pyomo.Prod v p t in
  match prev_t with
  | None =>
      Some (CEq (Pyomo.Inv v p t) (Inv0 m p + prod + inflow - outflow - Pyomo.Demand m p t))
  | Some prev_t =>
      Some (CEq (Pyomo.Inv v p t)
                (Pyomo.Inv v p prev_t + prod + inflow - outflow - Pyomo.Demand m p t))
  end.

Definition route_enabled_ship_rule (m : Model) (v : Values) (r : route) (t : period)
  : option Constr :=
  if RouteEnabled m r then None else Some (CEq (Pyomo.Ship v r t) 0).

Definition route_enabled_trips_rule (m : Model) (v : Values) (r : route) (t : period)
  : option Constr :=
  if RouteEnabled m r then None else Some (CEq (Pyomo.Trips v r t) 0).

Definition route_enabled_use_rule (m : Model) (v : Values) (r : route) (t : period)
  : option Constr :=
  if RouteEnabled m r then None else Some (CEq (Use v r t) 0).

Definition link_use_trips_rule (m : Model) (v : Values) (r : route) (t : period)
  : option Constr :=
  Some (CLe (Pyomo.Trips v r t) (big_m_trips * Use v r t)).

(** [[k for (ii, jj, k) in m.R if ii == i and jj == j]]. *)
Definition modes_of (m : Model) (i j : string) : list string :=
  map (fun '(ii, jj, k) => k) (filter (fun '(ii, jj, k) => ii = i /\ jj = j) (Pyomo.R m)).

Definition one_mode_rule (m : Model) (v : Values) (i j : string) (t : period)
  : option Constr :=
  let modes := modes_of m i j in
  match modes with
  | [] => None
  | _ => Some (CLe (Py.sum (map (fun k => Use v (i, j, k) t) modes)) 1)
  end.

End FlowConstraints.

(** ** feasible_constraints.py: the balance with slack *)

Module FeasibleFlow.

Definition inventory_balance_rule (PREV_T : gmap period (option period))
    (m : Model) (v : Values) (p : plant) (t : period) : option Constr :=
  let prev_t := FlowConstraints.prev_of PREV_T t in
  let inflow := FlowConstraints.inflow m v p t in
  let outflow := FlowConstraints.outflow m v p t in
  let prod := Pyomo.Prod v p t in
  match prev_t with
  | None =>
      Some (CEq (Pyomo.Inv v p t)
                (Inv0 m p + prod + inflow - outflow - Pyomo.Demand m p t + DemandSlack v p t))
  | Some prev_t =>
      Some (CEq (Pyomo.Inv v p t)
                (Pyomo.Inv v p prev_t + prod + inflow - outflow - Pyomo.Demand m p t
                 + DemandSlack v p t))
  end.

End FeasibleFlow.

(** The opening stock of a period: the initial inventory in the first
    period, the closing stock of the previous period afterwards. *)
Definition opening_stock (PREV_T : gmap period (option period))
    (m : Model) (v : Values) (p : plant) (t : period) : Q :=
  match FlowConstraints.prev_of PREV_T t with
  | None => Inv0 m p
  | Some prev_t => Pyomo.Inv v p prev_t
  end.

(** Net receipts of a plant in a period under the repair balance. *)
Definition net_receipts (m : Model) (v : Values) (p : plant) (t : period) : Q :=
  Pyomo.Prod v p t + FlowConstraints.inflow m v p t - FlowConstraints.outflow m v p t
  - Pyomo.Demand m p t + DemandSlack v p t.

(** The substitutions the orchestrator logged, in order. *)
Definition warning_calls (evs : list Solver.event) : list string :=
  omap (fun e => match e with Solver.Warning msg => Some msg | _ => None end) evs.

(** The warnings a sequence of factory calls calls for: one per step from a
    backend to the next. *)
Fixpoint substitutions (backends : list string) : list string :=
  match backends with
  | a :: (b :: _) as rest => Solver.fallback_warning a b :: substitutions rest
  | _ => []
  end.

(** ** analytics/utilization_analysis.py: the transport block *)

Module Utilization.

Record TransUtilRow := {
  tu_from : string; tu_to : string; tu_from_id : string; tu_to_id : string;
  tu_mode : string; tu_month : string;
  tu_shipment : Q; tu_trips : Q; tu_cap_per_trip : Q;
  tu_trip_capacity_used : Q; tu_utilization_percent : Q }.

(** One utilization row per stored transport row: shipped quantity over the
    capacity of the trips made, as a percentage, and 0 when that capacity is
    not positive. *)
Definition transport_utilization_rows (trans_rows : list ResultParser.ShipRow)
    (plant_names : gmap string string) (route_capacity_per_trip : gmap route Q)
  : list TransUtilRow :=
  map (fun r =>
    let i := ResultParser.sr_from_id r in
    let j := ResultParser.sr_to_id r in
    let mode := ResultParser.sr_mode r in
    let month := ResultParser.sr_month r in
    let shipped := ResultParser.sr_shipment r in
    let trips := inject_Z (ResultParser.sr_trips r) in
    let cap_trip := Py.get route_capacity_per_trip (i, j, mode) 0 in
    let denom := trips * cap_trip in
    let util := if Py.gt denom 0 then shipped / denom * 100 else 0 in
    {| tu_from := Py.get plant_names i i; tu_to := Py.get plant_names j j;
       tu_from_id := i; tu_to_id := j; tu_mode := mode; tu_month := month;
       tu_shipment := shipped; tu_trips := trips; tu_cap_per_trip := cap_trip;
       tu_trip_capacity_used := denom; tu_utilization_percent := util |}) trans_rows.

End Utilization.

(** ** uncertainty/uncertainty_service.py *)

Module UncertaintyService.

Import DataLoader.

(** A stored scenario: any of its three fields may be missing or malformed. *)
Record ScenarioDoc := {
  sc_name : option string;
  sc_probability : field;
  sc_demand_multiplier : field;
}.

(** The settings document as far as the optimizer reads it. *)
Record Settings := {
  is_enabled : bool;
  scenarios : list ScenarioDoc;
}.

(** [float(x)] under [try / except]. *)
Definition to_float (x : field) : option Q :=
  match x with Num q => Some q | _ => None end.

(** The loop body of [_validate_settings]: an early [return False, msg] is
    an error; the state is the names seen and the running probability. *)
Definition validate_step (st : list string * Q) (s : ScenarioDoc)
  : result string (list string * Q) :=
  let '(names, total_p) := st in
  let name := Py.strip (or_empty (sc_name s)) in
  if negb (Py.truthy name) then Err "Scenario name is required."%string
  else
    match to_float (sc_probability s) with
    | None => Err ("Probability for " ++ name ++ " must be a number.")%string
    | Some p =>
        if Py.lt p 0 then Err ("Probability for " ++ name ++ " cannot be negative.")%string
        else
          match to_float (sc_demand_multiplier s) with
          | None => Err ("Demand multiplier for " ++ name ++ " must be a number.")%string
          | Some mult =>
              if Py.lt mult 0
              then Err ("Demand multiplier for " ++ name ++ " cannot be negative.")%string
              else Ok (names ++ [name], total_p + p)
          end
    end.

Definition _validate_settings (scenarios : list ScenarioDoc) : bool * string :=
  match scenarios with
  | [] => (false, "At least one scenario is required."%string)
  | _ =>
      match for_each scenarios validate_step ([], 0) with
      | Err msg => (false, msg)
      | Ok (names, total_p) =>
          if negb (ScenarioGenerator.distinct_count names =? length names)%nat
          then (false, "Scenario names must be unique."%string)
          else if Py.gt (Qabs (total_p - 1)) (1 # 1000000)
          then (false, "Scenario probabilities must sum to 1."%string)
          else (true, EmptyString)
      end
  end.

(** The normalised scenario handed to the optimizer; the two [float()] calls
    are on fields the validation has just converted. *)
Definition normalize (s : ScenarioDoc) : ScenarioGenerator.DemandScenario :=
  {| ScenarioGenerator.name := Py.strip (or_empty (sc_name s));
     ScenarioGenerator.probability :=
       match to_float (sc_probability s) with Some p => p | None => 0 end;
     ScenarioGenerator.demand_multiplier :=
       match to_float (sc_demand_multiplier s) with Some x => x | None => 0 end |}.

Definition get_scenarios_for_optimization (settings : Settings)
  : bool * string * bool * list ScenarioGenerator.DemandScenario :=
  let '(ok, msg) := _validate_settings (scenarios settings) in
  if negb ok then (false, msg, is_enabled settings, [])
  else (true, EmptyString, is_enabled settings, map normalize (scenarios settings)).

End UncertaintyService.

(** The default settings document. *)
Definition default_settings : UncertaintyService.Settings :=
  {| UncertaintyService.is_enabled := false;
     UncertaintyService.scenarios :=
       [ {| UncertaintyService.sc_name := Some "Low"%string;
            UncertaintyService.sc_probability := DataLoader.Num 0.2;
            UncertaintyService.sc_demand_multiplier := DataLoader.Num 0.9 |};
         {| UncertaintyService.sc_name := Some "Normal"%string;
            UncertaintyService.sc_probability := DataLoader.Num 0.6;
            UncertaintyService.sc_demand_multiplier := DataLoader.Num 1 |};
         {| UncertaintyService.sc_name := Some "High"%string;
            UncertaintyService.sc_probability := DataLoader.Num 0.2;
            UncertaintyService.sc_demand_multiplier := DataLoader.Num 1.1 |} ] |}.

(** A stored scenario the validator lets through: a name that is not blank
    once stripped, and a probability and a multiplier that are numbers and
    not negative. *)
Definition well_formed_doc (s : UncertaintyService.ScenarioDoc) : Prop :=
  Py.strip (DataLoader.or_empty (UncertaintyService.sc_name s)) <> EmptyString
  /\ (exists p, UncertaintyService.sc_probability s = DataLoader.Num p /\ 0 <= p)
  /\ (exists x, UncertaintyService.sc_demand_multiplier s = DataLoader.Num x /\ 0 <= x).

(** ** stochastic_model.py: the inventory balance per scenario *)

Module StochasticFlow.

Import StochasticModel.

(** [t_list.index(t)]: the position of the first occurrence. *)
Fixpoint index (t : period) (t_list : list period) : option nat :=
  match t_list with
  | [] => None
  | x :: rest => if String.eqb x t then Some 0%nat else Datatypes.S <$> index t rest
  end.

Definition inbound (m : SModel) (v : SValues) (p : plant) (t : period) : Q :=
  Py.sum (map (fun '(i, j, mode) => Ship v (i, p, mode) t)
              (filter (fun '(i, j, mode) => j = p) (R m))).

Definition outbound (m : SModel) (v : SValues) (p : plant) (t : period) : Q :=
  Py.sum (map (fun '(i, j, mode) => Ship v (p, j, mode) t)
              (filter (fun '(i, j, mode) => i = p) (R m))).

(** [inv_balance_rule], given the [InitialInv] parameter of the model.  The
    rule is instantiated for periods of [m.T] only, where [index] finds the
    period and [idx - 1] is a position of the list. *)
Definition inv_balance_rule (InitialInv : plant -> Q) (m : SModel) (v : SValues)
    (s : string) (p : plant) (t : period) : option Constr :=
  let t_list := T m in
  match index t t_list with
  | None => None
  | Some idx =>
      let prev_inv :=
        if (idx =? 0)%nat then Some (InitialInv p)
        else (fun t0 => Inv v s p t0) <$> t_list !! (idx - 1)%nat in
      match prev_inv with
      | None => None
      | Some prev_inv =>
          Some (CEq (Inv v s p t)
                    (prev_inv + Prod v p t + inbound m v p t - outbound m v p t
                     - Demand m s p t))
      end
  end.

End StochasticFlow.

(** ** simple_feasible_model.py and simple_result_parser.py *)

Module SimpleFeasible.

(** [SimpleFeasibleData] of simple_feasible_loader.py. *)
Record SimpleFeasibleData := {
  months : list string;
  plant_ids : list string;
  plant_names : gmap string string;
  clinker_plants : list string;
  production_capacity : gmap string Q;
  production_cost : gmap string Q;
  demand : gmap (string * string) Q;
  initial_inventory : gmap string Q;
  routes : list route;
  transport_cost_per_trip : gmap route Q;
  transport_capacity_per_trip : gmap route Q;
  transport_sbq : gmap route Q;
  route_enabled : gmap route bool;
}.

Record SimpleModel := {
  P : list plant;
  T : list period;
  CL : list plant;
  R : list route;
  ProdCap : plant -> Q;
  ProdCost : plant -> Q;
  Demand : plant -> period -> Q;
  Inv0 : plant -> Q;
  HoldCost : plant -> Q;
  RouteCost : route -> Q;
  RouteCap : route -> Q;
  DemandPenalty : Q;
}.

(** Values of the variables [Prod], [Ship], [Inv], [DemandSlack], [Trips]. *)
Record SimpleValues := {
  Prod : plant -> period -> Q;
  Ship : route -> period -> Q;
  Inv : plant -> period -> Q;
  DemandSlack : plant -> period -> Q;
  Trips : route -> period -> Q;
}.

(** The parameters are read at plants and routes of the model only, where
    the defaulted dictionaries have every key; the route dictionaries of the
    loader hold every route. *)
Definition build_simple_feasible_model (data : SimpleFeasibleData) : SimpleModel :=
  {| P := plant_ids data;
     T := months data;
     CL := clinker_plants data;
     R := routes data;
     ProdCap := fun p => Py.get (production_capacity data) p 0;
     ProdCost := fun p => Py.get (production_cost data) p 1800;
     Demand := fun p t => Py.get (demand data) (p, t) 0;
     Inv0 := fun p => Py.get (initial_inventory data) p 0;
     HoldCost := fun _ => 50;
     RouteCost := fun r => Py.get (transport_cost_per_trip data) r 0;
     RouteCap := fun r => Py.get (transport_capacity_per_trip data) r 0;
     DemandPenalty := 10000 |}.

Definition production_capacity_rule (m : SimpleModel) (v : SimpleValues)
    (p : plant) (t : period) : option Constr :=
  Some (CLe (Prod v p t) (ProdCap m p)).

Definition inflow (m : SimpleModel) (v : SimpleValues) (p : plant) (t : period) : Q :=
  Py.sum (map (fun '(i, j, k) => Ship v (i, p, k) t)
              (filter (fun '(i, j, k) => j = p) (R m))).

Definition outflow (m : SimpleModel) (v : SimpleValues) (p : plant) (t : period) : Q :=
  Py.sum (map (fun '(i, j, k) => Ship v (p, j, k) t)
              (filter (fun '(i, j, k) => i = p) (R m))).

(** Every period starts from the initial inventory. *)
Definition inventory_balance_rule (m : SimpleModel) (v : SimpleValues)
    (p : plant) (t : period) : option Constr :=
  Some (CEq (Inv v p t)
            (Inv0 m p + Prod v p t + inflow m v p t - outflow m v p t - Demand m p t
             + DemandSlack v p t)).

Definition transport_capacity_rule (m : SimpleModel) (v : SimpleValues)
    (r : route) (t : period) : option Constr :=
  Some (CLe (Ship v r t) (RouteCap m r * 100)).

Definition link_trips_to_shipments_rule (m : SimpleModel) (v : SimpleValues)
    (r : route) (t : period) : option Constr :=
  Some (CGe (Trips v r t) (Ship v r t / Py.max (RouteCap m r) 1)).

(** The constraints of the model, component by component. *)
Definition constraints (m : SimpleModel) (v : SimpleValues) : list (option Constr) :=
  map (fun '(p, t) => production_capacity_rule m v p t) (list_prod (CL m) (T m))
  ++ map (fun '(p, t) => inventory_balance_rule m v p t) (list_prod (P m) (T m))
  ++ map (fun '(r, t) => transport_capacity_rule m v r t) (list_prod (R m) (T m))
  ++ map (fun '(r, t) => link_trips_to_shipments_rule m v r t) (list_prod (R m) (T m)).

(** Value of the [TotalCost] objective: production, transport on shipped
    quantities and the penalty on slack; no holding term. *)
Definition total_cost_rule (m : SimpleModel) (v : SimpleValues) : Q :=
  let prod_cost :=
    Py.sum (map (fun '(p, t) => ProdCost m p * Prod v p t) (list_prod (P m) (T m))) in
  let trans_cost :=
    Py.sum (map (fun '(r, t) => RouteCost m r * Ship v r t) (list_prod (R m) (T m))) in
  let demand_penalty :=
    Py.sum (map (fun '(p, t) => DemandPenalty m * DemandSlack v p t)
                (list_prod (P m) (T m))) in
  prod_cost + trans_cost + demand_penalty.

(** simple_result_parser.py *)

Record SimpleCostBreakdown := {
  production : Q; transport : Q; holding : Q; demand_penalty : Q }.

Record SimpleOptimizationResults := {
  production_df : list ResultParser.ProdRow;
  transport_df : list ResultParser.ShipRow;
  inventory_df : list ResultParser.InvRow;
  cost_breakdown : SimpleCostBreakdown;
  objective_value : Q;
}.

Definition _safe_value (x : Q) : Q := x.

Definition prod_rows (m : SimpleModel) (v : SimpleValues) (names : gmap string string)
  : list ResultParser.ProdRow :=
  flat_map (fun '(p, t) =>
    let qty := _safe_value (Prod v p t) in
    if Py.ne qty 0
    then [ {| ResultParser.pr_plant_id := p; ResultParser.pr_plant := Py.get names p p;
              ResultParser.pr_month := t; ResultParser.pr_production := qty |} ]
    else []) (list_prod (P m) (T m)).

Definition ship_rows (m : SimpleModel) (v : SimpleValues) (names : gmap string string)
  : list ResultParser.ShipRow :=
  flat_map (fun '((i, j, k), t) =>
    let ship_qty := _safe_value (Ship v (i, j, k) t) in
    let trips := _safe_value (Trips v (i, j, k) t) in
    if Py.ne ship_qty 0
    then [ {| ResultParser.sr_from_id := i; ResultParser.sr_from := Py.get names i i;
              ResultParser.sr_to_id := j; ResultParser.sr_to := Py.get names j j;
              ResultParser.sr_mode := k; ResultParser.sr_month := t;
              ResultParser.sr_shipment := ship_qty;
              ResultParser.sr_trips := if Py.gt trips 0 then Py.round trips else 0%Z |} ]
    else []) (list_prod (R m) (T m)).

Definition inv_rows (m : SimpleModel) (v : SimpleValues) (names : gmap string string)
  : list ResultParser.InvRow :=
  map (fun '(p, t) =>
    let inv := _safe_value (Inv v p t) in
    {| ResultParser.ir_plant_id := p; ResultParser.ir_plant := Py.get names p p;
       ResultParser.ir_month := t; ResultParser.ir_inventory := inv |})
    (list_prod (P m) (T m)).

(** [parse_simple_results]; [TotalCost] is the objective component of the
    model, [total_cost_rule] for a model built by
    [build_simple_feasible_model]. *)
Definition parse_simple_results (TotalCost : SimpleModel -> SimpleValues -> Q)
    (m : SimpleModel) (v : SimpleValues) (names : gmap string string)
  : SimpleOptimizationResults :=
  let prod_cost :=
    Py.sum (map (fun '(p, t) => _safe_value (Prod v p t) * _safe_value (ProdCost m p))
                (list_prod (P m) (T m))) in
  let trans_cost :=
    Py.sum (map (fun '(r, t) => _safe_value (RouteCost m r) * _safe_value (Ship v r t))
                (list_prod (R m) (T m))) in
  let hold_cost :=
    Py.sum (map (fun '(p, t) => _safe_value (Inv v p t) * _safe_value (HoldCost m p))
                (list_prod (P m) (T m))) in
  let demand_penalty :=
    Py.sum (map (fun '(p, t) => _safe_value (DemandPenalty m)
                                * _safe_value (DemandSlack v p t))
                (list_prod (P m) (T m))) in
  let obj := _safe_value (TotalCost m v) in
  {| production_df := prod_rows m v names;
     transport_df := ship_rows m v names;
     inventory_df := inv_rows m v names;
     cost_breakdown := {| production := prod_cost; transport := trans_cost;
                          holding := hold_cost; demand_penalty := demand_penalty |};
     objective_value := obj |}.

End SimpleFeasible.

(** ** Example inputs for the flow and assembly statements *)

(** The lane of [model1] served by a second mode, rail, that the plan leaves
    unselected: all 80 units travel by road in two trips. *)
Definition rail_lane : route := ("A", "B", "rail")%string.

Definition model_two_modes : Model :=
  {| Pyomo.P := ["A"; "B"]%string; Pyomo.T := ["1"%string]; Pyomo.R := [lane; rail_lane];
     Pyomo.CL := ["A"%string];
     Inv0 := fun _ => 0; Safety := fun _ => 0; Pyomo.MaxInv := fun _ => 1000;
     Pyomo.HoldCost := fun _ => 0;
     Pyomo.ProdCap := fun _ => 100;
     Pyomo.ProdCost := fun p => if String.eqb p "A" then 10 else 0;
     Pyomo.Demand := fun p _ => if String.eqb p "B" then 80 else 0;
     RouteCost := fun _ => 20; RouteCap := fun _ => 50; RouteSBQ := fun _ => 10;
     RouteEnabled := fun _ => true;
     TransportCodeLimitSet := None; TransportCodeLimits := None |}.

Definition values_two_modes : Values :=
  {| Pyomo.Prod := fun p _ => if String.eqb p "A" then 80 else 0;
     Pyomo.Ship := fun r _ => if String.eqb r.2 "road" then 80 else 0;
     Pyomo.Trips := fun r _ => if String.eqb r.2 "road" then 2 else 0;
     Use := fun r _ => if String.eqb r.2 "road" then 1 else 0;
     Pyomo.Inv := fun _ _ => 0;
     DemandSlack := fun _ _ => 0 |}.

(** The dataset assembled from [db1] for month 1 and fixed demand. *)
Definition assembled1 : DataLoader.OptimizationData :=
  match DataLoader.assemble_optimization_data db1 ["1"%string] "Fixed" with
  | Ok data => data
  | Err _ => data1
  end.

(** The scenario data generated from [data1] for the default scenario set. *)
Definition generated1 : ScenarioGenerator.ScenarioDemandData :=
  match ScenarioGenerator.generate_demand_scenarios data1 three_scenarios with
  | Ok scen => scen
  | Err _ => scen1
  end.

(** One plant that starts with 10 units in stock and has nothing to make or
    to ship, and the plan that leaves the stock where it is. *)
Definition simple_data1 : SimpleFeasible.SimpleFeasibleData :=
  {| SimpleFeasible.months := ["1"%string];
     SimpleFeasible.plant_ids := ["A"%string];
     SimpleFeasible.plant_names := <["A"%string := "A"%string]> ∅;
     SimpleFeasible.clinker_plants := [];
     SimpleFeasible.production_capacity := ∅;
     SimpleFeasible.production_cost := ∅;
     SimpleFeasible.demand := ∅;
     SimpleFeasible.initial_inventory := <["A"%string := 10]> ∅;
     SimpleFeasible.routes := [];
     SimpleFeasible.transport_cost_per_trip := ∅;
     SimpleFeasible.transport_capacity_per_trip := ∅;
     SimpleFeasible.transport_sbq := ∅;
     SimpleFeasible.route_enabled := ∅ |}.

Definition simple_values1 : SimpleFeasible.SimpleValues :=
  {| SimpleFeasible.Prod := fun _ _ => 0;
     SimpleFeasible.Ship := fun _ _ => 0;
     SimpleFeasible.Inv := fun _ _ => 10;
     SimpleFeasible.DemandSlack := fun _ _ => 0;
     SimpleFeasible.Trips := fun _ _ => 0 |}.

(** The plan of [model1] continued over a second period: 100 units shipped
    against a demand of 80, then 50 against a demand of 60. *)
Definition model_two_periods : Model :=
  {| Pyomo.P := ["A"; "B"]%string; Pyomo.T := ["1"; "2"]%string; Pyomo.R := [lane];
     Pyomo.CL := ["A"%string];
     Inv0 := fun _ => 0; Safety := fun _ => 0; Pyomo.MaxInv := fun _ => 1000;
     Pyomo.HoldCost := fun _ => 0;
     Pyomo.ProdCap := fun _ => 100;
     Pyomo.ProdCost := fun p => if String.eqb p "A" then 10 else 0;
     Pyomo.Demand := fun p t =>
       if String.eqb p "B" then (if String.eqb t "1" then 80 else 60) else 0;
     RouteCost := fun _ => 20; RouteCap := fun _ => 50; RouteSBQ := fun _ => 10;
     RouteEnabled := fun _ => true;
     TransportCodeLimitSet := None; TransportCodeLimits := None |}.

Definition values_two_periods : Values :=
  {| Pyomo.Prod := fun p t =>
       if String.eqb p "A" then (if String.eqb t "1" then 100 else 50) else 0;
     Pyomo.Ship := fun _ t => if String.eqb t "1" then 100 else 50;
     Pyomo.Trips := fun _ t => if String.eqb t "1" then 2 else 1;
     Use := fun _ _ => 1;
     Pyomo.Inv := fun p t =>
       if String.eqb p "B" then (if String.eqb t "1" then 20 else 10) else 0;
     DemandSlack := fun _ _ => 0 |}.

(** ** Sums *)

Section Sums.

Lemma fold_left_Qplus_acc (l : list Q) (a : Q) :
  fold_left Qplus l a == a + fold_left Qplus l 0.
Proof.
  revert a. induction l as [|x l IH]; intros a; simpl.
  - ring.
  - rewrite IH. rewrite (IH (0 + x)). ring.
Qed.

Lemma sum_nil : Py.sum [] == 0.
Proof. reflexivity. Qed.

Lemma sum_cons (x : Q) (l : list Q) : Py.sum (x :: l) == x + Py.sum l.
Proof.
  unfold Py.sum. simpl. rewrite fold_left_Qplus_acc. ring.
Qed.

Lemma sum_app (l1 l2 : list Q) : Py.sum (l1 ++ l2) == Py.sum l1 + Py.sum l2.
Proof.
  induction l1 as [|x l1 IH]; simpl.
  - rewrite sum_nil. ring.
  - rewrite !sum_cons, IH. ring.
Qed.

Lemma sum_map_ext {A} (f g : A -> Q) (l : list A) :
  (forall x, In x l -> f x == g x) ->
  Py.sum (map f l) == Py.sum (map g l).
Proof.
  induction l as [|x l IH]; intros H; simpl.
  - reflexivity.
  - rewrite !sum_cons. rewrite (H x) by (left; reflexivity).
    rewrite IH; [reflexivity|]. intros y Hy. apply H. right. exact Hy.
Qed.

Lemma sum_map_scale {A} (c : Q) (f : A -> Q) (l : list A) :
  Py.sum (map (fun x => c * f x) l) == c * Py.sum (map f l).
Proof.
  induction l as [|x l IH]; simpl.
  - rewrite sum_nil. ring.
  - rewrite !sum_cons, IH. ring.
Qed.

Lemma sum_zero {A} (f : A -> Q) (l : list A) :
  (forall x, In x l -> f x == 0) -> Py.sum (map f l) == 0.
Proof.
  induction l as [|x l IH]; intros H; simpl.
  - reflexivity.
  - rewrite sum_cons, (H x) by (left; reflexivity).
    rewrite IH; [ring|]. intros y Hy. apply H. right. exact Hy.
Qed.

End Sums.

(** ** The objectives *)

Section Objectives.

Variables (m : Model) (v : Values).

Lemma production_cost_same :
  FeasibleObjective.production_cost m v == Objective.production_cost m v.
Proof.
  apply sum_map_ext. intros [p t] _. ring.
Qed.

Lemma holding_cost_same :
  FeasibleObjective.holding_cost m v == Objective.holding_cost m v.
Proof.
  apply sum_map_ext. intros [p t] _. ring.
Qed.

Lemma transport_cost_ships :
  FeasibleObjective.transport_cost m v == shipment_cost m v.
Proof.
  apply sum_map_ext. intros [r t] _. ring.
Qed.

Lemma demand_penalty_total :
  FeasibleObjective.demand_penalty m v
  == FeasibleObjective.DemandPenalty * total_slack m v.
Proof.
  unfold FeasibleObjective.demand_penalty, total_slack.
  rewrite <- sum_map_scale. apply sum_map_ext. intros [p t] _. reflexivity.
Qed.

End Objectives.

(** C1 (as amended): the repair objective is the deterministic objective with
    its transport term taken on shipped quantities (cost per trip times
    [Ship]) instead of trip counts, plus the penalty 10000 times the sum of
    all [DemandSlack] values. *)
Theorem feasible_objective_decomposition (m : Model) (v : Values) :
  FeasibleObjective.total_cost m v
  == Objective.production_cost m v + shipment_cost m v + Objective.holding_cost m v
     + 10000 * total_slack m v
  /\ FeasibleObjective.total_cost m v
     == Objective.total_cost_rule m v - Objective.transport_cost m v
        + shipment_cost m v + 10000 * total_slack m v.
Proof.
  assert (H : FeasibleObjective.total_cost m v
              == Objective.production_cost m v + shipment_cost m v
                 + Objective.holding_cost m v + 10000 * total_slack m v).
  { unfold FeasibleObjective.total_cost.
    rewrite production_cost_same, holding_cost_same, transport_cost_ships,
      demand_penalty_total.
    reflexivity. }
  split; [exact H|].
  rewrite H. unfold Objective.total_cost_rule. ring.
Qed.

(** C1 (as stated) fails: with 80 units shipped in two trips at 20 per trip
    the deterministic objective plus penalty is 840, the repair objective
    2400. *)
Lemma feasible_objective_not_deterministic_plus_penalty :
  ~ FeasibleObjective.total_cost model1 values1
    == Objective.total_cost_rule model1 values1
       + FeasibleObjective.DemandPenalty * total_slack model1 values1.
Proof.
  vm_compute. discriminate.
Qed.

(** ** The result parsers *)

Section Parsers.

Variables (m : Model) (v : Values) (plant_names : gmap string string).

Lemma ne_true_iff (x y : Q) : Py.ne x y = true <-> ~ x == y.
Proof.
  unfold Py.ne. rewrite negb_true_iff, <- not_true_iff_false, Qeq_bool_iff.
  reflexivity.
Qed.

Lemma in_prod_rows (row : ResultParser.ProdRow) :
  In row (ResultParser.prod_rows m v plant_names) <->
  exists p t, In (p, t) (list_prod (Pyomo.P m) (Pyomo.T m))
              /\ ~ Pyomo.Prod v p t == 0
              /\ row = prod_row_of v plant_names p t.
Proof.
  unfold ResultParser.prod_rows. rewrite in_flat_map. split.
  - intros [[p t] [Hin Hrow]]. unfold ResultParser._safe_value in Hrow.
    destruct (Py.ne (Pyomo.Prod v p t) 0) eqn:Hne; simpl in Hrow.
    + destruct Hrow as [<-|[]]. exists p, t.
      split; [exact Hin|]. split; [apply ne_true_iff; exact Hne | reflexivity].
    + destruct Hrow.
  - intros (p & t & Hin & Hnz & ->). exists (p, t). split; [exact Hin|].
    unfold ResultParser._safe_value. apply ne_true_iff in Hnz. rewrite Hnz.
    left. reflexivity.
Qed.

Lemma in_ship_rows (row : ResultParser.ShipRow) :
  In row (ResultParser.ship_rows m v plant_names) <->
  exists r t, In (r, t) (list_prod (Pyomo.R m) (Pyomo.T m))
              /\ (~ Pyomo.Ship v r t == 0 \/ ~ Pyomo.Trips v r t == 0)
              /\ row = ship_row_of v plant_names r t.
Proof.
  unfold ResultParser.ship_rows. rewrite in_flat_map. split.
  - intros [[[[i j] k] t] [Hin Hrow]]. unfold ResultParser._safe_value in Hrow.
    destruct (Py.ne (Pyomo.Ship v (i, j, k) t) 0 || Py.ne (Pyomo.Trips v (i, j, k) t) 0)
      eqn:Hne; simpl in Hrow.
    + destruct Hrow as [<-|[]]. exists (i, j, k), t.
      split; [exact Hin|]. split; [|reflexivity].
      apply orb_true_iff in Hne. rewrite !ne_true_iff in Hne. exact Hne.
    + destruct Hrow.
  - intros ([[i j] k] & t & Hin & Hnz & ->). exists ((i, j, k), t).
    split; [exact Hin|]. unfold ResultParser._safe_value.
    rewrite <- !ne_true_iff, <- orb_true_iff in Hnz. rewrite Hnz.
    left. reflexivity.
Qed.

End Parsers.

(** C8 (as amended): a production row appears for a (plant, period) exactly
    when the solved production is not zero, and a transport row for a
    (route, period) exactly when the solved shipment or the solved trip count
    is not zero; the test is against zero itself, with no tolerance. *)
Theorem rows_are_the_nonzero_assignments
    (TotalCost : Model -> Values -> Q)
    (m : Model) (v : Values) (plant_names : gmap string string) :
  (forall row,
      In row (ResultParser.production_df
                (ResultParser.parse_results TotalCost m v plant_names)) <->
      exists p t, In (p, t) (list_prod (Pyomo.P m) (Pyomo.T m))
                  /\ ~ Pyomo.Prod v p t == 0
                  /\ row = prod_row_of v plant_names p t)
  /\ (forall row,
      In row (ResultParser.transport_df
                (ResultParser.parse_results TotalCost m v plant_names)) <->
      exists r t, In (r, t) (list_prod (Pyomo.R m) (Pyomo.T m))
                  /\ (~ Pyomo.Ship v r t == 0 \/ ~ Pyomo.Trips v r t == 0)
                  /\ row = ship_row_of v plant_names r t).
Proof.
  split; intros row; simpl.
  - apply in_prod_rows.
  - apply in_ship_rows.
Qed.

(** C8 (as stated) fails: whatever positive epsilon is chosen, a solved
    production of half that epsilon still yields a production row. *)
Lemma no_epsilon_in_row_filter :
  ~ exists eps : Q,
      0 < eps /\
      forall (m : Model) (v : Values) (plant_names : gmap string string) row,
        In row (ResultParser.production_df
                  (ResultParser.parse_results Objective.total_cost_rule m v plant_names)) ->
        eps < Qabs (ResultParser.pr_production row).
Proof.
  intros [eps [Hpos Hall]].
  specialize (Hall tiny_model (tiny_values (eps / 2)) ∅
                   (prod_row_of (tiny_values (eps / 2)) ∅ "A" "1")).
  assert (Hin : In (prod_row_of (tiny_values (eps / 2)) ∅ "A" "1")
                   (ResultParser.production_df
                      (ResultParser.parse_results Objective.total_cost_rule
                         tiny_model (tiny_values (eps / 2)) ∅))).
  { simpl. apply in_prod_rows. exists "A"%string, "1"%string.
    split; [left; reflexivity|]. split; [|reflexivity].
    simpl. intros H0. assert (eps == 0) by (rewrite <- (Qmult_div_r eps 2), H0 by discriminate; ring).
    lra. }
  specialize (Hall Hin).
  change (eps < Qabs (eps / 2)) in Hall.
  assert (Hhalf : eps / 2 == eps * (1 # 2)) by field.
  assert (Habs : Qabs (eps / 2) == eps / 2).
  { apply Qabs_pos. rewrite Hhalf. lra. }
  rewrite Habs, Hhalf in Hall. lra.
Qed.



(** X13: the production component can be audited from the emitted rows
    alone: production times unit cost over the production rows is the
    production cost of the breakdown, the omitted rows being the zero ones. *)
Lemma production_cost_from_rows
    (m : Model) (v : Values) (plant_names : gmap string string) :
  Py.sum (map (fun row => ResultParser.pr_production row
                          * Pyomo.ProdCost m (ResultParser.pr_plant_id row))
              (ResultParser.prod_rows m v plant_names))
  == ResultParser.prod_cost m v.
Proof.
  unfold ResultParser.prod_rows, ResultParser.prod_cost, ResultParser._safe_value.
  induction (list_prod (Pyomo.P m) (Pyomo.T m)) as [|[p t] l IH]; simpl.
  - reflexivity.
  - rewrite map_app, sum_app, sum_cons, IH.
    destruct (Py.ne (Pyomo.Prod v p t) 0) eqn:Hne; simpl.
    + rewrite sum_cons, sum_nil. ring.
    + unfold Py.ne in Hne. apply negb_false_iff, Qeq_bool_iff in Hne.
      rewrite sum_nil, Hne. ring.
Qed.

(** C10: the inventory table has one row per (plant, period) of the model,
    in index order and carrying the solved level whatever its value, so it
    has plants times periods rows; for uncertainty runs one row per
    (scenario, plant, period), scenarios times plants times periods rows. *)
Theorem inventory_rows_are_dense
    (TotalCost : Model -> Values -> Q) (m : Model) (v : Values)
    (sm : StochasticModel.SModel) (sv : StochasticModel.SValues)
    (plant_names : gmap string string) :
  let rows := ResultParser.inventory_df
                (ResultParser.parse_results TotalCost m v plant_names) in
  let urows := UncertaintyResultParser.inventory_df
                 (UncertaintyResultParser.parse_uncertainty_results sm sv plant_names) in
  map (fun row => (ResultParser.ir_plant_id row, ResultParser.ir_month row,
                   ResultParser.ir_inventory row)) rows
    = map (fun '(p, t) => (p, t, Pyomo.Inv v p t)) (list_prod (Pyomo.P m) (Pyomo.T m))
  /\ length rows = (length (Pyomo.P m) * length (Pyomo.T m))%nat
  /\ map (fun row => (UncertaintyResultParser.ir_scenario row,
                      UncertaintyResultParser.ir_plant_id row,
                      UncertaintyResultParser.ir_month row,
                      UncertaintyResultParser.ir_inventory row)) urows
     = map (fun '(s, (p, t)) => (s, p, t, StochasticModel.Inv sv s p t))
           (list_prod (StochasticModel.S sm)
                      (list_prod (StochasticModel.P sm) (StochasticModel.T sm)))
  /\ length urows
     = (length (StochasticModel.S sm)
        * (length (StochasticModel.P sm) * length (StochasticModel.T sm)))%nat.
Proof.
  simpl. unfold ResultParser.inv_rows, UncertaintyResultParser.inv_rows.
  repeat split.
  - rewrite map_map. apply map_ext. intros [p t]. reflexivity.
  - rewrite length_map, length_prod. reflexivity.
  - rewrite map_map. apply map_ext. intros [s [p t]]. reflexivity.
  - rewrite length_map, !length_prod. reflexivity.
Qed.

(** A plan whose inventory is zero everywhere still has its two inventory
    rows, while its storage plant has no production row. *)
Example zero_inventory_rows_kept :
  map ResultParser.ir_inventory (ResultParser.inv_rows model1 values1 ∅) = [0; 0]
  /\ map ResultParser.pr_plant_id (ResultParser.prod_rows model1 values1 ∅) = ["A"%string].
Proof. split; reflexivity. Qed.

(** ** The relaxed constraint families *)

(** C2 (as amended): the safety-stock lower bound and the aggregate lower
    transport limit are scaled by 0.8, the max-inventory upper bound and the
    aggregate upper transport limit by 1.2, and the minimum-batch lower bound
    by 0.5, the minimum-batch rule being skipped for a route whose SBQ is not
    positive. *)
Theorem relaxation_factors (m : Model) (v : Values) (r : route) (t : period) :
  FeasibleConstraints.SafetyStock m v
    = map (relaxed_by 0.8) (Constraints.SafetyStock m v)
  /\ FeasibleConstraints.MaxInventory m v
     = map (relaxed_by 1.2) (Constraints.MaxInventory m v)
  /\ FeasibleConstraints.TransportCodeLimitLower m v
     = map (relaxed_by 0.8) (Constraints.TransportCodeLimitLower m v)
  /\ FeasibleConstraints.TransportCodeLimitUpper m v
     = map (relaxed_by 1.2) (Constraints.TransportCodeLimitUpper m v)
  /\ FeasibleConstraints.sbq_rule m v r t
     = (if Py.gt (RouteSBQ m r) 0
        then relaxed_by 0.5 (Constraints.sbq_rule m v r t)
        else None).
Proof.
  split; [|split; [|split; [|split]]].
  - unfold FeasibleConstraints.SafetyStock, Constraints.SafetyStock.
    rewrite map_map. apply map_ext. intros [p t']. reflexivity.
  - unfold FeasibleConstraints.MaxInventory, Constraints.MaxInventory.
    rewrite map_map. apply map_ext. intros [p t']. reflexivity.
  - unfold FeasibleConstraints.TransportCodeLimitLower,
      Constraints.TransportCodeLimitLower.
    destruct (TransportCodeLimits m) as [limits_of|]; [|reflexivity].
    destruct (TransportCodeLimitSet m) as [keys|]; [|reflexivity].
    rewrite map_map. apply map_ext. intros [[i k] t'].
    unfold FeasibleConstraints.transport_code_limit_lower_rule,
      Constraints.transport_code_limit_lower_rule.
    destruct (limits_of !! (i, k, t')) as [limits|]; [|reflexivity].
    destruct (lower limits); reflexivity.
  - unfold FeasibleConstraints.TransportCodeLimitUpper,
      Constraints.TransportCodeLimitUpper.
    destruct (TransportCodeLimits m) as [limits_of|]; [|reflexivity].
    destruct (TransportCodeLimitSet m) as [keys|]; [|reflexivity].
    rewrite map_map. apply map_ext. intros [[i k] t'].
    unfold FeasibleConstraints.transport_code_limit_upper_rule,
      Constraints.transport_code_limit_upper_rule.
    destruct (limits_of !! (i, k, t')) as [limits|]; [|reflexivity].
    destruct (upper limits); reflexivity.
  - unfold FeasibleConstraints.sbq_rule.
    destruct (Py.gt (RouteSBQ m r) 0); reflexivity.
Qed.

(** C2 (as stated) fails on the minimum-batch family: one trip carrying 6
    units against an SBQ of 10 satisfies the relaxed rule (bound 5) and
    violates the bound scaled by 0.8 (bound 8). *)
Lemma sbq_not_relaxed_by_20_percent :
  rule_holds (FeasibleConstraints.sbq_rule model1 values_sbq lane "1")
  /\ ~ rule_holds (relaxed_by 0.8 (Constraints.sbq_rule model1 values_sbq lane "1")).
Proof.
  split.
  - vm_compute. discriminate.
  - vm_compute. intros H. apply H. reflexivity.
Qed.

(** X10: each relaxed rule admits every plan the exact rule admits, as long
    as the bound it scales is not negative. *)
Lemma relaxed_rules_admit_exact_plans
    (m : Model) (v : Values) (p : plant) (r : route) (t : period) :
  0 <= Safety m p -> 0 <= Pyomo.MaxInv m p ->
  0 <= Pyomo.Trips v r t * RouteSBQ m r ->
  (rule_holds (Constraints.safety_stock_rule m v p t) ->
   rule_holds (FeasibleConstraints.safety_stock_rule m v p t))
  /\ (rule_holds (Constraints.max_inventory_rule m v p t) ->
      rule_holds (FeasibleConstraints.max_inventory_rule m v p t))
  /\ (rule_holds (Constraints.sbq_rule m v r t) ->
      rule_holds (FeasibleConstraints.sbq_rule m v r t)).
Proof.
  intros Hs Hm Hb. repeat split; simpl.
  - intros H. lra.
  - intros H. lra.
  - unfold FeasibleConstraints.sbq_rule.
    destruct (Py.gt (RouteSBQ m r) 0); simpl; [|trivial].
    set (b := Pyomo.Trips v r t * RouteSBQ m r) in *. intros H. lra.
Qed.

Lemma relaxed_rules_admit_exact_plans_witness :
  rule_holds (FeasibleConstraints.safety_stock_rule model1 values1 "B"%string "1"%string)
  /\ rule_holds (FeasibleConstraints.max_inventory_rule model1 values1 "B"%string "1"%string)
  /\ rule_holds (FeasibleConstraints.sbq_rule model1 values1 lane "1"%string).
Proof.
  destruct (relaxed_rules_admit_exact_plans model1 values1 "B"%string lane "1"%string)
    as (Hsafety & Hmax & Hsbq).
  - vm_compute. discriminate.
  - vm_compute. discriminate.
  - vm_compute. discriminate.
  - split; [apply Hsafety; vm_compute; discriminate|].
    split; [apply Hmax; vm_compute; discriminate | apply Hsbq; vm_compute; discriminate].
Defined.

(** ** The resilience score *)

Section Resilience.




End Resilience.



(** ** The solver orchestrator *)

Section Orchestrator.

Variable env : Solver.Env.

Lemma walk_factory_calls (cur : string) (chain : list string) :
  factory_calls (Solver.walk env cur chain).2 = tried (Solver.available env) chain.
Proof.
  revert cur. induction chain as [|alt rest IH]; intros cur; simpl.
  - reflexivity.
  - destruct (Solver.available env alt) eqn:Ha.
    + reflexivity.
    + specialize (IH alt). destruct (Solver.walk env alt rest) as [last evs'].
      simpl in *. rewrite IH. reflexivity.
Qed.

Lemma walk_solve_calls (cur : string) (chain : list string) :
  solve_calls (Solver.walk env cur chain).2 = [].
Proof.
  revert cur. induction chain as [|alt rest IH]; intros cur; simpl.
  - reflexivity.
  - destruct (Solver.available env alt) eqn:Ha.
    + reflexivity.
    + specialize (IH alt). destruct (Solver.walk env alt rest) as [last evs'].
      simpl in *. exact IH.
Qed.

(** The loop stops at the first available fallback; when there is none it
    ends on a backend that is not available. *)
Lemma walk_stops_at_first_available (cur : string) (chain : list string) :
  Solver.available env cur = false ->
  match find (Solver.available env) chain with
  | Some s => (Solver.walk env cur chain).1 = s /\ Solver.available env s = true
  | None => Solver.available env (Solver.walk env cur chain).1 = false
  end.
Proof.
  revert cur. induction chain as [|alt rest IH]; intros cur Hcur; simpl.
  - exact Hcur.
  - destruct (Solver.available env alt) eqn:Ha.
    + split; [reflexivity | exact Ha].
    + specialize (IH alt Ha). destruct (Solver.walk env alt rest) as [last evs'].
      simpl in *. exact IH.
Qed.

Lemma solve_calls_app (a b : list Solver.event) :
  solve_calls (a ++ b) = solve_calls a ++ solve_calls b.
Proof. apply omap_app. Qed.

Lemma factory_calls_app (a b : list Solver.event) :
  factory_calls (a ++ b) = factory_calls a ++ factory_calls b.
Proof. apply omap_app. Qed.

End Orchestrator.

(** C4: a backend name outside the enumerated set yields the [invalid]
    outcome without any backend being asked for, logged or run; for a valid
    name the factory is asked for the requested backend and then for the
    fallbacks in their fixed order, stopping at the first available one,
    which is the one that runs; when none is available nothing runs and the
    outcome is [not_available], a condition different from [infeasible]. *)
Theorem solver_selection (env : Solver.Env) (config : Solver.SolverConfig) :
  let req := Solver.requested_solver config in
  let res := Solver.solve_model env config in
  (Py.mem req Solver.valid_solvers = false ->
   res = (Solver.invalid_outcome, []))
  /\ (Py.mem req Solver.valid_solvers = true ->
      factory_calls res.2 = tried (Solver.available env) (candidates req)
      /\ match find (Solver.available env) (candidates req) with
         | Some s => res.1 = Solver.run_selected env s
                     /\ Solver.solver_used res.1 = Some s
                     /\ solve_calls res.2 = [s]
         | None => res.1 = Solver.not_available_outcome
                   /\ solve_calls res.2 = []
         end)
  /\ (Solver.fallback_chain "gurobi" = ["cbc"; "highs"; "scip"]%string
      /\ Solver.fallback_chain "cbc" = ["highs"; "scip"]%string
      /\ Solver.fallback_chain "highs" = ["scip"]%string
      /\ Solver.fallback_chain "scip" = [])
  /\ (Solver.termination_condition Solver.not_available_outcome = "not_available"%string
      /\ Solver.termination_condition Solver.not_available_outcome <> "infeasible"%string
      /\ Solver.ok Solver.not_available_outcome = false
      /\ Solver.solver_used Solver.not_available_outcome = None).
Proof.
  intros req res. split; [|split; [|split]].
  - intros Hmem. subst res req. unfold Solver.solve_model. rewrite Hmem. reflexivity.
  - intros Hmem. subst res. unfold Solver.solve_model. fold req. rewrite Hmem. simpl.
    unfold candidates. simpl.
    destruct (Solver.available env req) eqn:Hreq.
    + simpl. split; [reflexivity|]. split; [reflexivity|]. split; [|reflexivity].
      unfold Solver.run_selected.
      destruct (Solver.run env req) as [[status term]|]; [|reflexivity].
      destruct (String.eqb (Py.lower term) "infeasible"); [reflexivity|].
      destruct (negb _); reflexivity.
    + pose proof (walk_factory_calls env req (Solver.fallback_chain req)) as Hf.
      pose proof (walk_solve_calls env req (Solver.fallback_chain req)) as Hs.
      pose proof (walk_stops_at_first_available env req (Solver.fallback_chain req) Hreq) as Hw.
      destruct (Solver.walk env req (Solver.fallback_chain req)) as [last evs].
      simpl in Hf, Hs, Hw.
      destruct (find (Solver.available env) (Solver.fallback_chain req)) as [s|].
      * destruct Hw as [-> Hav]. rewrite Hav. simpl.
        rewrite factory_calls_app, solve_calls_app, Hf, Hs. simpl.
        rewrite app_nil_r. split; [reflexivity|]. split; [reflexivity|].
        split; [|reflexivity].
        unfold Solver.run_selected.
        destruct (Solver.run env s) as [[status term]|]; [|reflexivity].
        destruct (String.eqb (Py.lower term) "infeasible"); [reflexivity|].
        destruct (negb _); reflexivity.
      * rewrite Hw. simpl. rewrite Hf, Hs. repeat split.
  - repeat split.
  - repeat split. discriminate.
Qed.

Lemma solver_selection_witness :
  Solver.solve_model env_no_solver (config_of "cplex") = (Solver.invalid_outcome, [])
  /\ Solver.solver_used (Solver.solve_model env_highs_only (config_of " Gurobi ")).1
     = Some "highs"%string
  /\ (Solver.solve_model env_no_solver (config_of "cbc")).1 = Solver.not_available_outcome.
Proof.
  split; [|split].
  - apply (proj1 (solver_selection env_no_solver (config_of "cplex"))). reflexivity.
  - pose proof (proj1 (proj2 (solver_selection env_highs_only (config_of " Gurobi ")))) as H.
    specialize (H eq_refl). apply proj2 in H. apply H.
  - pose proof (proj1 (proj2 (solver_selection env_no_solver (config_of "cbc")))) as H.
    specialize (H eq_refl). apply proj2 in H. apply H.
Defined.

(** ** The stochastic model *)

Section Stochastic.

Lemma sum_list_prod {A B} (f : A * B -> Q) (l1 : list A) (l2 : list B) :
  Py.sum (map f (list_prod l1 l2))
  == Py.sum (map (fun a => Py.sum (map (fun b => f (a, b)) l2)) l1).
Proof.
  induction l1 as [|a l1 IH]; simpl.
  - reflexivity.
  - rewrite map_app, sum_app, sum_cons, IH, map_map. reflexivity.
Qed.

Variables (m : StochasticModel.SModel) (v : StochasticModel.SValues).

Lemma hold_cost_by_scenario :
  StochasticModel.hold_cost m v
  == Py.sum (map (fun s => StochasticModel.Prob m s * scenario_holding m v s)
                 (StochasticModel.S m)).
Proof.
  unfold StochasticModel.hold_cost. rewrite sum_list_prod.
  apply sum_map_ext. intros s _. unfold scenario_holding.
  rewrite <- sum_map_scale. apply sum_map_ext. intros [p t] _. ring.
Qed.

Lemma sum_map_plus {A} (f g : A -> Q) (l : list A) :
  Py.sum (map (fun x => f x + g x) l) == Py.sum (map f l) + Py.sum (map g l).
Proof.
  induction l as [|x l IH]; simpl.
  - rewrite sum_nil. ring.
  - rewrite !sum_cons, IH. ring.
Qed.

(** X15: with probabilities that sum to one and no slack, the stochastic
    objective is also the probability-weighted form: transport is shared by
    all scenarios. *)
Lemma expected_cost_weighted_form :
  Py.sum (map (StochasticModel.Prob m) (StochasticModel.S m)) == 1 ->
  StochasticModel.expected_cost_obj m v
  == spec_expected_cost m v 0 (fun _ _ _ => 0).
Proof.
  intros Hone. unfold StochasticModel.expected_cost_obj, spec_expected_cost.
  rewrite hold_cost_by_scenario.
  assert (Hsplit :
    Py.sum (map (fun s => StochasticModel.Prob m s
                          * (StochasticModel.trans_cost m v + scenario_holding m v s
                             + scenario_penalty m 0 (fun _ _ _ => 0) s))
                (StochasticModel.S m))
    == Py.sum (map (fun s => StochasticModel.trans_cost m v * StochasticModel.Prob m s)
                   (StochasticModel.S m))
       + Py.sum (map (fun s => StochasticModel.Prob m s * scenario_holding m v s)
                     (StochasticModel.S m))).
  { rewrite <- sum_map_plus. apply sum_map_ext. intros s _.
    assert (Hz : scenario_penalty m 0 (fun _ _ _ => 0) s == 0).
    { unfold scenario_penalty. apply sum_zero. intros [p t] _. ring. }
    rewrite Hz. ring. }
  rewrite Hsplit, sum_map_scale, Hone. ring.
Qed.

End Stochastic.

Lemma expected_cost_weighted_form_witness :
  StochasticModel.expected_cost_obj smodel1 svalues1
  == spec_expected_cost smodel1 svalues1 0 (fun _ _ _ => 0).
Proof.
  refine (expected_cost_weighted_form smodel1 svalues1 _).
  vm_compute. reflexivity.
Defined.

(** C3 (as amended): in the model built from a dataset and a scenario set,
    Prod, Ship, Trips and UseMode are declared over (plant or route, period)
    only, Inv is the one family declared over (scenario, plant, period), and
    no DemandSlack family is declared; the objective is production cost plus
    transport cost plus the probability-weighted sum over scenarios of that
    scenario's holding cost. *)
Theorem stochastic_model_shape
    (data : DataLoader.OptimizationData) (scen : ScenarioGenerator.ScenarioDemandData)
    (v : StochasticModel.SValues) :
  let m := StochasticModel.build_stochastic_model data scen in
  StochasticModel.find_var m "Prod"
    = Some (var_decl "Prod" [StochasticModel.SetP; StochasticModel.SetT]
                     StochasticModel.NonNegativeReals)
  /\ StochasticModel.find_var m "Ship"
     = Some (var_decl "Ship" [StochasticModel.SetR; StochasticModel.SetT]
                      StochasticModel.NonNegativeReals)
  /\ StochasticModel.find_var m "Trips"
     = Some (var_decl "Trips" [StochasticModel.SetR; StochasticModel.SetT]
                      StochasticModel.NonNegativeIntegers)
  /\ StochasticModel.find_var m "UseMode"
     = Some (var_decl "UseMode" [StochasticModel.SetR; StochasticModel.SetT]
                      StochasticModel.Binary)
  /\ StochasticModel.find_var m "Inv"
     = Some (var_decl "Inv"
                      [StochasticModel.SetS; StochasticModel.SetP; StochasticModel.SetT]
                      StochasticModel.NonNegativeReals)
  /\ StochasticModel.find_var m "DemandSlack" = None
  /\ map StochasticModel.var_name (StochasticModel.vars m)
     = ["Prod"; "Ship"; "Trips"; "UseMode"; "Inv"]%string
  /\ StochasticModel.expected_cost_obj m v
     == StochasticModel.prod_cost m v + StochasticModel.trans_cost m v
        + Py.sum (map (fun s => StochasticModel.Prob m s * scenario_holding m v s)
                      (StochasticModel.S m)).
Proof.
  intros m. repeat (split; [reflexivity|]).
  unfold StochasticModel.expected_cost_obj. rewrite hold_cost_by_scenario.
  reflexivity.
Qed.

(** C3 (as stated) fails: the built model declares no DemandSlack family, and
    its objective carries no penalty term, so with one unit of slack per
    (scenario, plant, period) at 10000 per unit it differs from the
    specification's expected cost. *)
Lemma stochastic_model_has_no_slack :
  StochasticModel.find_var smodel1 "DemandSlack" = None
  /\ ~ StochasticModel.expected_cost_obj smodel1 svalues1
       == spec_expected_cost smodel1 svalues1 10000 (fun _ _ _ => 1).
Proof.
  split.
  - reflexivity.
  - vm_compute. discriminate.
Qed.

(** ** Dataset assembly *)

Section Assembly.

Lemma for_each_app {E A S} (l1 l2 : list A) (body : S -> A -> result E S) (st : S) :
  for_each (l1 ++ l2) body st = (st' ← for_each l1 body st; for_each l2 body st').
Proof.
  revert st. induction l1 as [|x l1 IH]; intros st; simpl.
  - reflexivity.
  - destruct (body st x) as [st'|e]; simpl.
    + apply IH.
    + reflexivity.
Qed.

Variables (plant_ids : list string) (plant_names : gmap string string).

(** The loop body leaves the tables alone on an orphan record, whatever its
    cost, capacity and SBQ fields hold. *)
Lemma route_step_orphan (st : DataLoader.RouteTables) (r : DataLoader.RouteDoc) :
  orphan plant_ids r ->
  DataLoader.route_step plant_ids plant_names st r = Ok st.
Proof.
  intros [H|H]; unfold DataLoader.route_step; rewrite H; simpl.
  - reflexivity.
  - rewrite orb_true_r. reflexivity.
Qed.

Lemma load_routes_drop_orphan (rs1 rs2 : list DataLoader.RouteDoc) (r : DataLoader.RouteDoc) :
  orphan plant_ids r ->
  DataLoader.load_routes plant_ids plant_names (rs1 ++ r :: rs2)
  = DataLoader.load_routes plant_ids plant_names (rs1 ++ rs2).
Proof.
  intros Ho. unfold DataLoader.load_routes. rewrite !for_each_app.
  destruct (for_each rs1 _ _) as [st|e]; simpl; [|reflexivity].
  rewrite (route_step_orphan st r Ho). reflexivity.
Qed.

End Assembly.

(** C9: a route record whose origin or destination is not an active plant
    leaves the route tables untouched without any of its numeric fields being
    converted or checked, and assembling with such a record among the routes
    gives the very result (dataset or error) of assembling without it. *)
Theorem orphan_routes_are_dropped
    (db : DataLoader.MasterData) (selected_months : list string)
    (demand_type_filter : string)
    (rs1 rs2 : list DataLoader.RouteDoc) (r : DataLoader.RouteDoc) :
  orphan (map DataLoader.plant__id (DataLoader.db_plants db)) r ->
  rs1 ++ rs2 <> [] ->
  (forall names st,
      DataLoader.route_step (map DataLoader.plant__id (DataLoader.db_plants db)) names st r
      = Ok st)
  /\ DataLoader.assemble_optimization_data
       (with_routes db (rs1 ++ r :: rs2)) selected_months demand_type_filter
     = DataLoader.assemble_optimization_data
         (with_routes db (rs1 ++ rs2)) selected_months demand_type_filter.
Proof.
  intros Ho Hne. split.
  - intros names st. apply route_step_orphan. exact Ho.
  - unfold DataLoader.assemble_optimization_data.
    cbn [with_routes DataLoader.db_plants DataLoader.db_policies
         DataLoader.db_demands DataLoader.db_routes].
    destruct (decide (_ = [])) as [|_]; [reflexivity|].
    destruct (decide (DataLoader.db_plants db = [])) as [|_]; [reflexivity|].
    destruct (DataLoader.dict_of_floats _ _ _) as [storage_capacity|e]; simpl; [|reflexivity].
    destruct (DataLoader.dict_of_floats _ _ _) as [initial_inventory|e]; simpl; [|reflexivity].
    destruct (for_each (DataLoader.db_plants db) (DataLoader.inventory_step _ _) _)
      as [inv|e]; simpl; [|reflexivity].
    destruct (for_each (DataLoader.db_plants db) (DataLoader.production_step _ _) _)
      as [[production_capacity production_cost]|e]; simpl; [|reflexivity].
    destruct (for_each (DataLoader.db_demands db) _ _) as [demand|e]; simpl; [|reflexivity].
    destruct (decide (rs1 ++ r :: rs2 = [])) as [Hnil|_].
    { destruct rs1; discriminate Hnil. }
    destruct (decide (rs1 ++ rs2 = [])) as [Hnil|_]; [contradiction|].
    rewrite (load_routes_drop_orphan _ _ rs1 rs2 r Ho). reflexivity.
Qed.

Lemma orphan_routes_are_dropped_witness :
  DataLoader.assemble_optimization_data db1 ["1"%string] "Fixed"
  = DataLoader.assemble_optimization_data (with_routes db1 [lane_doc]) ["1"%string] "Fixed"
  /\ is_ok (DataLoader.assemble_optimization_data db1 ["1"%string] "Fixed") = true.
Proof.
  split.
  - refine (proj2 (orphan_routes_are_dropped db1 ["1"%string] "Fixed" [] [lane_doc]
                     orphan_doc _ _)).
    + left. reflexivity.
    + discriminate.
  - vm_compute. reflexivity.
Defined.

(** The same record on a lane between active plants does fail assembly. *)
Example invalid_route_between_active_plants_fails :
  DataLoader.route_step ["A"; "B"]%string ∅ DataLoader.empty_route_tables
    {| DataLoader.rt_from_plant_id := "A"; DataLoader.rt_to_plant_id := "B";
       DataLoader.rt_transport_mode := Some "rail"%string;
       DataLoader.rt_cost_per_trip := DataLoader.Num (-5);
       DataLoader.rt_capacity_per_trip := DataLoader.Num 10;
       DataLoader.rt_sbq := DataLoader.Num 99;
       DataLoader.rt_is_enabled := Some true |}
  = Err DataLoader.NegativeTransport.
Proof. reflexivity. Qed.

(** ** The scenario generator *)

Section Generator.

Import ScenarioGenerator.

Lemma distinct_count_cons_in (x : string) (l : list string) :
  x ∈ l -> distinct_count (x :: l) = distinct_count l.
Proof.
  intros Hin. unfold distinct_count. rewrite list_to_set_cons.
  f_equal. apply subseteq_union_1_L, singleton_subseteq_l, elem_of_list_to_set. exact Hin.
Qed.

Lemma distinct_count_cons_notin (x : string) (l : list string) :
  x ∉ l -> distinct_count (x :: l) = Datatypes.S (distinct_count l).
Proof.
  intros Hin. unfold distinct_count. rewrite list_to_set_cons.
  rewrite size_union.
  - rewrite size_singleton. reflexivity.
  - apply disjoint_singleton_l. rewrite elem_of_list_to_set. exact Hin.
Qed.

Lemma distinct_count_le (l : list string) : (distinct_count l <= length l)%nat.
Proof.
  induction l as [|x l IH]; simpl.
  - unfold distinct_count. rewrite list_to_set_nil, size_empty. lia.
  - destruct (decide (x ∈ l)) as [Hin|Hin].
    + rewrite distinct_count_cons_in by exact Hin. lia.
    + rewrite distinct_count_cons_notin by exact Hin. lia.
Qed.

Lemma distinct_count_NoDup (l : list string) :
  length l = distinct_count l <-> NoDup l.
Proof.
  split.
  - induction l as [|x l IH]; intros H.
    + constructor.
    + destruct (decide (x ∈ l)) as [Hin|Hin].
      * rewrite distinct_count_cons_in in H by exact Hin.
        pose proof (distinct_count_le l). simpl in H. lia.
      * rewrite distinct_count_cons_notin in H by exact Hin.
        constructor; [exact Hin|]. apply IH. simpl in H. lia.
  - intros H. unfold distinct_count. symmetry. apply size_list_to_set. exact H.
Qed.

Lemma sum_Permutation (l1 l2 : list Q) : l1 ≡ₚ l2 -> Py.sum l1 == Py.sum l2.
Proof.
  induction 1 as [|x l1 l2 _ IH|x y l|l1 l2 l3 _ IH1 _ IH2].
  - reflexivity.
  - rewrite !sum_cons, IH. reflexivity.
  - rewrite !sum_cons. ring.
  - rewrite IH1. exact IH2.
Qed.

Lemma dict_total_insert (d : gmap string Q) (k : string) (p : Q) :
  d !! k = None -> dict_total (<[k := p]> d) == p + dict_total d.
Proof.
  intros Hk. unfold dict_total.
  rewrite (sum_Permutation _ (map snd ((k, p) :: map_to_list d))).
  - simpl. apply sum_cons.
  - apply Permutation_map. apply map_to_list_insert. exact Hk.
Qed.

Lemma lt_false_iff (x y : Q) : Py.lt x y = false <-> y <= x.
Proof.
  unfold Py.lt. rewrite negb_false_iff. apply Qle_bool_iff.
Qed.

Lemma gt_false_iff (x y : Q) : Py.gt x y = false <-> x <= y.
Proof.
  unfold Py.gt. rewrite negb_false_iff. apply Qle_bool_iff.
Qed.

Lemma prob_loop (l : list DemandScenario) (d : gmap string Q) :
  for_each l prob_step d
  = if forallb (fun s => negb (Py.lt (probability s) 0)) l
    then Ok (fold_left set_probability l d)
    else Err NegativeProbability.
Proof.
  revert d. induction l as [|s l IH]; intros d; simpl.
  - reflexivity.
  - assert (Hstep : prob_step d s
                    = if Py.lt (probability s) 0 then Err NegativeProbability
                      else Ok (set_probability d s)) by reflexivity.
    rewrite Hstep. destruct (Py.lt (probability s) 0); simpl.
    + reflexivity.
    + apply IH.
Qed.

Lemma demand_loop (base : DataLoader.OptimizationData) (l : list DemandScenario)
    (d : gmap (string * string * string) Q) :
  for_each l (demand_step base) d
  = if forallb (fun s => negb (Py.lt (demand_multiplier s) 0)) l
    then Ok (fold_left (fill_demand base) l d)
    else Err NegativeMultiplier.
Proof.
  revert d. induction l as [|s l IH]; intros d; simpl.
  - reflexivity.
  - assert (Hstep : demand_step base d s
                    = if Py.lt (demand_multiplier s) 0 then Err NegativeMultiplier
                      else Ok (fill_demand base d s)) by reflexivity.
    rewrite Hstep. destruct (Py.lt (demand_multiplier s) 0); simpl.
    + reflexivity.
    + apply IH.
Qed.

Lemma dict_total_fold (l : list DemandScenario) (d : gmap string Q) :
  NoDup (map name l) ->
  (forall s, s ∈ l -> d !! name s = None) ->
  dict_total (fold_left set_probability l d)
  == dict_total d + Py.sum (map probability l).
Proof.
  revert d. induction l as [|s l IH]; intros d Hnd Hfresh; simpl.
  - rewrite sum_nil. ring.
  - inversion Hnd as [|x l' Hnotin Hnd']; subst.
    rewrite IH.
    + unfold set_probability at 1. rewrite dict_total_insert, sum_cons.
      * ring.
      * apply Hfresh. left.
    + exact Hnd'.
    + intros s' Hs'. unfold set_probability. rewrite lookup_insert_ne.
      * apply Hfresh. right. exact Hs'.
      * intros Heq. apply Hnotin. rewrite Heq. apply list_elem_of_fmap_2. exact Hs'.
Qed.

Variable base : DataLoader.OptimizationData.

Lemma fill_pairs_other (s : DemandScenario) (pairs : list (string * string))
    (d : gmap (string * string * string) Q) (n p t : string) :
  n <> name s ->
  fold_left (fun d '(p, t) => <[(name s, p, t) := scenario_demand base s p t]> d) pairs d
    !! (n, p, t) = d !! (n, p, t).
Proof.
  intros Hn. revert d. induction pairs as [|[p' t'] pairs IH]; intros d; simpl.
  - reflexivity.
  - rewrite IH. apply lookup_insert_ne. intros Heq. apply Hn. congruence.
Qed.

Lemma fill_pairs_keep (s : DemandScenario) (pairs : list (string * string))
    (d : gmap (string * string * string) Q) (p t : string) :
  d !! (name s, p, t) = Some (scenario_demand base s p t) ->
  fold_left (fun d '(p, t) => <[(name s, p, t) := scenario_demand base s p t]> d) pairs d
    !! (name s, p, t) = Some (scenario_demand base s p t).
Proof.
  revert d. induction pairs as [|[p' t'] pairs IH]; intros d Hd; simpl.
  - exact Hd.
  - apply IH. destruct (decide ((name s, p', t') = (name s, p, t))) as [Heq|Hne].
    + inversion Heq; subst. apply lookup_insert_eq.
    + rewrite lookup_insert_ne by exact Hne. exact Hd.
Qed.

Lemma fill_pairs_in (s : DemandScenario) (pairs : list (string * string))
    (d : gmap (string * string * string) Q) (p t : string) :
  (p, t) ∈ pairs ->
  fold_left (fun d '(p, t) => <[(name s, p, t) := scenario_demand base s p t]> d) pairs d
    !! (name s, p, t) = Some (scenario_demand base s p t).
Proof.
  revert d. induction pairs as [|[p' t'] pairs IH]; intros d Hin; simpl.
  - inversion Hin.
  - apply elem_of_cons in Hin as [Heq|Hin].
    + inversion Heq; subst. apply fill_pairs_keep. apply lookup_insert_eq.
    + apply IH. exact Hin.
Qed.

Lemma fill_demand_others (l : list DemandScenario)
    (d : gmap (string * string * string) Q) (n p t : string) :
  n ∉ map name l ->
  fold_left (fill_demand base) l d !! (n, p, t) = d !! (n, p, t).
Proof.
  revert d. induction l as [|s l IH]; intros d Hn; simpl.
  - reflexivity.
  - rewrite IH by (intros H; apply Hn; right; exact H).
    apply fill_pairs_other. intros ->. apply Hn. left.
Qed.

Lemma fill_demand_lookup (l : list DemandScenario)
    (d : gmap (string * string * string) Q) (s : DemandScenario) (p t : string) :
  NoDup (map name l) -> s ∈ l ->
  p ∈ DataLoader.plant_ids base -> t ∈ DataLoader.months base ->
  fold_left (fill_demand base) l d !! (name s, p, t) = Some (scenario_demand base s p t).
Proof.
  intros Hnd Hs Hp Ht. revert d. induction l as [|s0 l IH]; intros d; simpl.
  - inversion Hs.
  - inversion Hnd as [|x l' Hnotin Hnd']; subst.
    apply elem_of_cons in Hs as [->|Hs].
    + rewrite fill_demand_others by exact Hnotin.
      apply fill_pairs_in. apply list_elem_of_In, in_prod; apply list_elem_of_In; assumption.
    + apply IH; assumption.
Qed.

Lemma names_of_well_named (l : list DemandScenario) :
  well_named l ->
  map (fun s => Py.strip (name s)) (filter (fun s => Py.truthy (Py.strip (name s))) l)
  = map name l.
Proof.
  induction 1 as [|s l [Hstrip Hne] _ IH]; simpl.
  - reflexivity.
  - rewrite filter_cons_True.
    + simpl. rewrite IH, Hstrip. reflexivity.
    + rewrite Hstrip. destruct (name s); [contradiction | exact I].
Qed.

Lemma forallb_nonneg (f : DemandScenario -> Q) (l : list DemandScenario) :
  forallb (fun s => negb (Py.lt (f s) 0)) l = true <-> Forall (fun s => 0 <= f s) l.
Proof.
  induction l as [|s l IH]; simpl.
  - split; [constructor | reflexivity].
  - rewrite andb_true_iff, IH, negb_true_iff, lt_false_iff, Forall_cons. reflexivity.
Qed.

(** The generator on named scenario sets: when it succeeds, and what it
    then returns. *)
Lemma generator_contract (l : list DemandScenario) :
  well_named l ->
  (is_ok (generate_demand_scenarios base l) = true <-> acceptable l)
  /\ (forall r, generate_demand_scenarios base l = Ok r ->
      forall s p t, s ∈ l -> p ∈ DataLoader.plant_ids base -> t ∈ DataLoader.months base ->
      sd_demand r !! (name s, p, t) = Some (scenario_demand base s p t)).
Proof.
  intros Hwn. unfold generate_demand_scenarios, acceptable.
  destruct (decide (l = [])) as [->|Hne].
  { cbn [is_ok]. split.
    - split; [intros Hf; discriminate Hf|]. intros (_ & _ & _ & Habs). exfalso.
      revert Habs. vm_compute. intros H. apply H. reflexivity.
    - discriminate. }
  rewrite (names_of_well_named l Hwn).
  destruct (length (map name l) =? distinct_count (map name l))%nat eqn:Hlen; cbn [negb].
  2:{ apply Nat.eqb_neq in Hlen. split.
      - split; [intros Hf; discriminate Hf|]. intros (Hnd & _). exfalso. apply Hlen.
        apply distinct_count_NoDup. exact Hnd.
      - discriminate. }
  apply Nat.eqb_eq, distinct_count_NoDup in Hlen.
  rewrite prob_loop.
  destruct (forallb (fun s => negb (Py.lt (probability s) 0)) l) eqn:Hp; cbn [mbind result_bind].
  2:{ split.
      - split; [intros Hf; discriminate Hf|]. intros (_ & Hpos & _). apply forallb_nonneg in Hpos. congruence.
      - discriminate. }
  assert (Htot : dict_total (fold_left set_probability l ∅) == Py.sum (map probability l)).
  { rewrite dict_total_fold.
    - unfold dict_total. rewrite map_to_list_empty. simpl. rewrite sum_nil. ring.
    - exact Hlen.
    - intros s _. apply lookup_empty. }
  destruct (Py.gt (Qabs (dict_total (fold_left set_probability l ∅) - 1)) (1 # 1000000))
    eqn:Hgt.
  { split.
    - split; [intros Hf; discriminate Hf|]. intros (_ & _ & _ & Habs). rewrite <- Htot in Habs.
      apply gt_false_iff in Habs. congruence.
    - discriminate. }
  apply gt_false_iff in Hgt. rewrite Htot in Hgt.
  rewrite demand_loop.
  destruct (forallb (fun s => negb (Py.lt (demand_multiplier s) 0)) l) eqn:Hm; cbn [mbind result_bind].
  2:{ split.
      - split; [intros Hf; discriminate Hf|]. intros (_ & _ & Hpos & _). apply forallb_nonneg in Hpos. congruence.
      - discriminate. }
  split.
  - split; [|reflexivity]. intros _.
    split; [exact Hlen|]. split; [apply forallb_nonneg; exact Hp|].
    split; [apply forallb_nonneg; exact Hm | exact Hgt].
  - intros r Hr s p t Hs Hpin Htin. inversion Hr; subst r; simpl.
    apply fill_demand_lookup; assumption.
Qed.

(** X16: on scenario sets whose names are stripped and not blank the generator
    does what its contract says: it succeeds exactly on the acceptable sets,
    and on success every (scenario, plant, period) carries the scenario's
    multiplier times the baseline demand. *)
Theorem generator_on_named_scenarios (l : list DemandScenario) :
  well_named l ->
  (is_ok (generate_demand_scenarios base l) = true <-> acceptable l)
  /\ (forall r, generate_demand_scenarios base l = Ok r ->
      forall s p t, s ∈ l -> p ∈ DataLoader.plant_ids base -> t ∈ DataLoader.months base ->
      sd_demand r !! (name s, p, t) = Some (scenario_demand base s p t)).
Proof.
  exact (generator_contract l).
Qed.

End Generator.

(** The default scenario set is accepted, and its expected demand at the
    storage plant is the baseline: 0.2 * 90 + 0.6 * 100 + 0.2 * 110 = 100. *)
Lemma three_scenarios_accepted :
  is_ok (ScenarioGenerator.generate_demand_scenarios data1 three_scenarios) = true
  /\ Py.sum (map (fun s => ScenarioGenerator.probability s * scenario_demand data1 s "B" "1")
                 three_scenarios) == 100.
Proof.
  split.
  - assert (Hwn : well_named three_scenarios) by (repeat constructor; discriminate).
    destruct (generator_on_named_scenarios data1 three_scenarios Hwn) as [[_ Hacc] _].
    apply Hacc. split; [|split; [|split]].
    + apply (bool_decide_unpack _). vm_compute. exact I.
    + repeat constructor; vm_compute; discriminate.
    + repeat constructor; vm_compute; discriminate.
    + vm_compute. discriminate.
  - vm_compute. reflexivity.
Defined.

(** C6 (the code misses a case): two scenarios that share the empty name,
    with probabilities 1/2 and 1, are accepted although the names are not
    unique and the probabilities sum to 3/2; blank names are left out of the
    uniqueness test and the probability dictionary keeps one entry per name.
    The returned demand is the last scenario's, 1.1 times the baseline, and
    the names list is empty. *)
Theorem generator_accepts_blank_duplicates :
  exists r,
    ScenarioGenerator.generate_demand_scenarios data1 blank_scenarios = Ok r
    /\ ScenarioGenerator.scenario_names r = []
    /\ ScenarioGenerator.sd_probability r !! ""%string = Some 1
    /\ ScenarioGenerator.sd_demand r !! ("", "B", "1")%string = Some (100 * 1.1)
    /\ ~ NoDup (map ScenarioGenerator.name blank_scenarios)
    /\ Py.sum (map ScenarioGenerator.probability blank_scenarios) == 3 # 2.
Proof.
  eexists. split; [vm_compute; reflexivity|].
  split; [reflexivity|]. split; [reflexivity|]. split; [reflexivity|].
  split.
  - intros H. inversion H as [|x l Hnotin _]; subst. apply Hnotin. left.
  - vm_compute. reflexivity.
Qed.

(** ** Membership and domains in the example inputs *)

(** Membership in, and distinctness of, the small index lists of the
    examples. *)
Ltac in_list :=
  repeat match goal with
         | H : _ ∈ _ :: _ |- _ =>
             apply elem_of_cons in H; destruct H as [H|H];
             [cbv [lane rail_lane] in H; simplify_eq|]
         | H : _ ∈ [] |- _ => apply elem_of_nil in H; destruct H
         end.

Ltac distinct :=
  repeat (apply NoDup_cons_2; [let H := fresh in intros H; in_list|]); apply NoDup_nil_2.

Lemma two_modes_in_domains : ModelBuilder.in_domains model_two_modes values_two_modes.
Proof.
  split.
  - intros p t Hp Ht. cbn in Hp, Ht. in_list; vm_compute; split; discriminate.
  - intros r t Hr Ht. cbn in Hr, Ht. in_list.
    + split; [vm_compute; discriminate|]. split; [vm_compute; discriminate|].
      split; [vm_compute; reflexivity|]. right. vm_compute. reflexivity.
    + split; [vm_compute; discriminate|]. split; [vm_compute; discriminate|].
      split; [vm_compute; reflexivity|]. left. vm_compute. reflexivity.
Defined.

Lemma model1_in_domains : ModelBuilder.in_domains model1 values1.
Proof.
  split.
  - intros p t Hp Ht. cbn in Hp, Ht. in_list; vm_compute; split; discriminate.
  - intros r t Hr Ht. cbn in Hr, Ht. in_list.
    split; [vm_compute; discriminate|]. split; [vm_compute; discriminate|].
    split; [vm_compute; reflexivity|]. right. vm_compute. reflexivity.
Defined.

(** ** The assembled dataset *)

Section Loops.

Lemma mem_true_iff (x : string) (l : list string) : Py.mem x l = true <-> x ∈ l.
Proof.
  unfold Py.mem. rewrite existsb_exists. split.
  - intros [y [Hin Heq]]. apply String.eqb_eq in Heq. subst y.
    apply list_elem_of_In. exact Hin.
  - intros Hin. exists x. split; [apply list_elem_of_In; exact Hin | apply String.eqb_refl].
Qed.

Lemma for_each_invariant {E A S} (Inv : S -> Prop) (body : S -> A -> result E S)
    (l : list A) (st0 st : S) :
  (forall s x s', x ∈ l -> Inv s -> body s x = Ok s' -> Inv s') ->
  Inv st0 -> for_each l body st0 = Ok st -> Inv st.
Proof.
  revert st0. induction l as [|x l IH]; intros st0 Hstep H0 Hrun; simpl in Hrun.
  - inversion Hrun; subst. exact H0.
  - destruct (body st0 x) as [s'|e] eqn:Hb; simpl in Hrun; [|discriminate].
    apply (IH s').
    + intros s y s'' Hy. apply Hstep. right. exact Hy.
    + apply (Hstep st0 x s'); [left | exact H0 | exact Hb].
    + exact Hrun.
Qed.

(** A loop of checks that passes has passed at every element. *)
Lemma for_each_checks {E A} (check : unit -> A -> result E unit) (l : list A) :
  for_each l check tt = Ok tt -> forall x, x ∈ l -> check tt x = Ok tt.
Proof.
  induction l as [|y l IH]; intros Hrun x Hx.
  - inversion Hx.
  - simpl in Hrun. destruct (check tt y) as [[]|e] eqn:Hc; simpl in Hrun; [|discriminate].
    apply elem_of_cons in Hx as [->|Hx]; [exact Hc | apply IH; assumption].
Qed.

Lemma dict_of_const_lookup `{Countable K} {V} (c : V) (l : list K) (k : K) :
  DataLoader.dict_of (map (fun k => (k, c)) l) !! k
  = if decide (k ∈ l) then Some c else None.
Proof.
  unfold DataLoader.dict_of.
  assert (Hgen : forall d : gmap K V,
             fold_left (fun d kv => <[kv.1 := kv.2]> d) (map (fun k => (k, c)) l) d !! k
             = if decide (k ∈ l) then Some c else d !! k).
  { induction l as [|x l IH]; intros d; simpl.
    - destruct (decide (k ∈ [])) as [Hin|_]; [inversion Hin | reflexivity].
    - rewrite IH. destruct (decide (k ∈ l)) as [Hin|Hnin].
      + rewrite decide_True by (right; exact Hin). reflexivity.
      + destruct (decide (k = x)) as [->|Hne].
        * rewrite decide_True by left. apply lookup_insert_eq.
        * rewrite decide_False.
          -- apply lookup_insert_ne. congruence.
          -- intros Hin. apply elem_of_cons in Hin as [?|?]; contradiction. }
  rewrite Hgen. destruct (decide (k ∈ l)); [reflexivity | apply lookup_empty].
Qed.

End Loops.

Section AssemblyStages.

Variables (db : DataLoader.MasterData) (selected_months : list string)
          (demand_type_filter : string) (data : DataLoader.OptimizationData).

Hypothesis Hok :
  DataLoader.assemble_optimization_data db selected_months demand_type_filter = Ok data.

(** A successful assembly went through every stage; the dataset is the one
    [finish] builds from the stage results. *)
Lemma assemble_ok_inv :
  months_of selected_months <> [] /\ DataLoader.db_plants db <> []
  /\ DataLoader.db_routes db <> []
  /\ exists storage init inv pc pcost demand rt,
      for_each (DataLoader.db_plants db)
        (DataLoader.production_step (types_of db) (names_of db))
        (DataLoader.dict_of (map (fun pid => (pid, 0)) (ids_of db)),
         DataLoader.dict_of (map (fun pid => (pid, 0)) (ids_of db))) = Ok (pc, pcost)
      /\ for_each (DataLoader.db_demands db)
           (DataLoader.demand_step (months_of selected_months) (ids_of db) demand_type_filter)
           (DataLoader.dict_of
              (map (fun k => (k, 0)) (list_prod (ids_of db) (months_of selected_months))))
         = Ok demand
      /\ DataLoader.load_routes (ids_of db) (names_of db) (DataLoader.db_routes db) = Ok rt
      /\ DataLoader.finish (months_of selected_months) (ids_of db) (names_of db) (types_of db)
           (clinker_of db) storage init inv pc pcost demand rt = Ok data.
Proof.
  revert Hok. unfold DataLoader.assemble_optimization_data, mbind, result_bind.
  fold (months_of selected_months). fold (ids_of db). fold (names_of db).
  fold (types_of db). fold (clinker_of db).
  destruct (decide (months_of selected_months = [])) as [|Hm]; [discriminate|].
  destruct (decide (DataLoader.db_plants db = [])) as [|Hp]; [discriminate|].
  destruct (DataLoader.dict_of_floats _ _ _) as [storage|e]; [|discriminate].
  destruct (DataLoader.dict_of_floats _ _ "Initial inventory") as [init|e]; [|discriminate].
  destruct (for_each (DataLoader.db_plants db) (DataLoader.inventory_step _ _) _)
    as [inv|e]; [|discriminate].
  destruct (for_each (DataLoader.db_plants db) (DataLoader.production_step _ _) _)
    as [[pc pcost]|e] eqn:Hprod; [|discriminate].
  destruct (for_each (DataLoader.db_demands db) _ _) as [demand|e] eqn:Hdem;
    [|discriminate].
  destruct (decide (DataLoader.db_routes db = [])) as [|Hr]; [discriminate|].
  destruct (DataLoader.load_routes _ _ _) as [rt|e] eqn:Hrt; [|discriminate].
  intros Hfin. split; [exact Hm|]. split; [exact Hp|]. split; [exact Hr|].
  exists storage, init, inv, pc, pcost, demand, rt. repeat split; assumption.
Qed.

End AssemblyStages.

Section FinishStage.

Variables (months ids : list string) (names types : gmap string string)
          (clinker : list string) (storage init : gmap string Q)
          (inv : DataLoader.InvTables) (pc pcost : gmap string Q)
          (demand : gmap (string * string) Q) (rt : DataLoader.RouteTables)
          (data : DataLoader.OptimizationData).

Lemma finish_ok_inv :
  DataLoader.finish months ids names types clinker storage init inv pc pcost demand rt
  = Ok data ->
  for_each months (DataLoader.check_month ids clinker demand init pc) tt = Ok tt
  /\ for_each ids (DataLoader.check_storage names init (DataLoader.it_max_inventory inv)) tt
     = Ok tt
  /\ for_each (list_prod ids months)
       (DataLoader.check_inflow names clinker demand
          (DataLoader.has_inflow_of ids (DataLoader.rt_routes rt) (DataLoader.rt_enabled rt)))
       tt = Ok tt
  /\ DataLoader.months data = months /\ DataLoader.plant_ids data = ids
  /\ DataLoader.clinker_plants data = clinker
  /\ DataLoader.plant_type data = types
  /\ DataLoader.initial_inventory data = init
  /\ DataLoader.max_inventory data = DataLoader.it_max_inventory inv
  /\ DataLoader.production_capacity data = pc
  /\ DataLoader.production_cost data = pcost
  /\ DataLoader.demand data = demand
  /\ DataLoader.routes data = DataLoader.rt_routes rt
  /\ DataLoader.transport_cost_per_trip data = DataLoader.rt_cost rt
  /\ DataLoader.transport_capacity_per_trip data = DataLoader.rt_cap rt
  /\ DataLoader.transport_sbq data = DataLoader.rt_sbq_of rt
  /\ DataLoader.route_enabled data = DataLoader.rt_enabled rt.
Proof.
  unfold DataLoader.finish, mbind, result_bind.
  destruct (for_each months _ tt) as [[]|e]; [|discriminate].
  destruct (for_each ids _ tt) as [[]|e]; [|discriminate].
  destruct (for_each (list_prod ids months) _ tt) as [[]|e]; [|discriminate].
  intros H. inversion H; subst data; simpl. repeat split; reflexivity.
Qed.

End FinishStage.

(** ** Invariants of the route loop *)

Section RouteLoop.

Variables (ids : list string) (names : gmap string string).

Lemma lt_false_le (x y : Q) : Py.lt x y = false -> y <= x.
Proof. unfold Py.lt. rewrite negb_false_iff. apply Qle_bool_iff. Qed.

Lemma gt_false_le (x y : Q) : Py.gt x y = false -> x <= y.
Proof. unfold Py.gt. rewrite negb_false_iff. apply Qle_bool_iff. Qed.

Lemma gt_true_lt (x y : Q) : Py.gt x y = true -> y < x.
Proof.
  unfold Py.gt. rewrite negb_true_iff. intros H. apply Qnot_le_lt. intros Hle.
  apply Qle_bool_iff in Hle. congruence.
Qed.

Lemma route_step_valid (st st' : DataLoader.RouteTables) (r : DataLoader.RouteDoc) :
  (forall key, key ∈ DataLoader.rt_routes st -> valid_route ids st key) ->
  DataLoader.route_step ids names st r = Ok st' ->
  forall key, key ∈ DataLoader.rt_routes st' -> valid_route ids st' key.
Proof.
  intros Hinv. unfold DataLoader.route_step, mbind, result_bind.
  destruct (Py.mem (DataLoader.rt_from_plant_id r) ids) eqn:Hfrom; simpl.
  2:{ intros H. inversion H; subst. exact Hinv. }
  destruct (Py.mem (DataLoader.rt_to_plant_id r) ids) eqn:Hto; simpl.
  2:{ intros H. inversion H; subst. exact Hinv. }
  destruct (DataLoader._to_float (DataLoader.get_or (DataLoader.rt_cost_per_trip r) 0) _)
    as [cost|e]; [|discriminate].
  destruct (DataLoader._to_float (DataLoader.get_or (DataLoader.rt_capacity_per_trip r) 0) _)
    as [cap|e]; [|discriminate].
  destruct (DataLoader._to_float (DataLoader.get_or (DataLoader.rt_sbq r) 0) _)
    as [sbq|e]; [|discriminate].
  destruct (Py.lt cap 0) eqn:Hcap; simpl; [discriminate|].
  destruct (Py.lt cost 0) eqn:Hcost; simpl; [discriminate|].
  destruct (Py.lt sbq 0) eqn:Hsbq; simpl; [discriminate|].
  destruct (Py.gt sbq cap) eqn:Hgt; [discriminate|].
  intros H. inversion H; subst st'; clear H. simpl.
  apply mem_true_iff in Hfrom, Hto.
  apply lt_false_le in Hcap, Hcost, Hsbq. apply gt_false_le in Hgt.
  set (k0 := (DataLoader.rt_from_plant_id r, DataLoader.rt_to_plant_id r,
              Py.strip (DataLoader.or_empty (DataLoader.rt_transport_mode r)))).
  intros key Hkey. destruct (decide (key = k0)) as [->|Hne].
  - split; [exact Hfrom|]. split; [exact Hto|].
    exists cost, cap, sbq. simpl. rewrite !lookup_insert_eq.
    repeat split; try assumption. eexists; reflexivity.
  - apply elem_of_app in Hkey as [Hkey|Hkey].
    + destruct (Hinv key Hkey) as (Hi & Hj & c & cp & s & Hc & Hcp & Hs & He & H1 & H2 & H3 & H4).
      split; [exact Hi|]. split; [exact Hj|]. exists c, cp, s. simpl.
      rewrite !lookup_insert_ne by congruence. repeat split; assumption.
    + apply list_elem_of_singleton in Hkey. contradiction.
Qed.

Lemma load_routes_valid (rs : list DataLoader.RouteDoc) (rt : DataLoader.RouteTables) :
  DataLoader.load_routes ids names rs = Ok rt ->
  forall key, key ∈ DataLoader.rt_routes rt -> valid_route ids rt key.
Proof.
  unfold DataLoader.load_routes.
  apply (for_each_invariant
           (fun st => forall key, key ∈ DataLoader.rt_routes st -> valid_route ids st key)).
  - intros s x s' _ Hs Hstep. exact (route_step_valid s s' x Hs Hstep).
  - intros key Hkey. inversion Hkey.
Qed.

End RouteLoop.

(** X1: every route of an assembled dataset joins two active plants and has
    a cost per trip, a capacity per trip and a minimum batch on record, none
    of them negative and the minimum batch at most the capacity, together
    with an enabled flag. *)
Theorem assembled_routes_are_valid
    (db : DataLoader.MasterData) (selected_months : list string)
    (demand_type_filter : string) (data : DataLoader.OptimizationData) :
  DataLoader.assemble_optimization_data db selected_months demand_type_filter = Ok data ->
  forall i j k, (i, j, k) ∈ DataLoader.routes data ->
    i ∈ DataLoader.plant_ids data /\ j ∈ DataLoader.plant_ids data
    /\ exists cost cap sbq,
        DataLoader.transport_cost_per_trip data !! (i, j, k) = Some cost
        /\ DataLoader.transport_capacity_per_trip data !! (i, j, k) = Some cap
        /\ DataLoader.transport_sbq data !! (i, j, k) = Some sbq
        /\ is_Some (DataLoader.route_enabled data !! (i, j, k))
        /\ 0 <= cost /\ 0 <= cap /\ 0 <= sbq /\ sbq <= cap.
Proof.
  intros Hok i j k Hin.
  destruct (assemble_ok_inv _ _ _ _ Hok)
    as (_ & _ & _ & storage & init & inv & pc & pcost & demand & rt & _ & _ & Hrt & Hfin).
  apply finish_ok_inv in Hfin.
  destruct Hfin as (_ & _ & _ & _ & Hids & _ & _ & _ & _ & _ & _ & _ & Hroutes
                    & Hcost & Hcap & Hsbq & Hen).
  rewrite Hids, Hcost, Hcap, Hsbq, Hen. rewrite Hroutes in Hin.
  exact (load_routes_valid _ _ _ _ Hrt (i, j, k) Hin).
Qed.

Lemma assembled_routes_are_valid_witness :
  DataLoader.assemble_optimization_data db1 ["1"%string] "Fixed" = Ok assembled1
  /\ "A"%string ∈ DataLoader.plant_ids assembled1
  /\ "B"%string ∈ DataLoader.plant_ids assembled1
  /\ exists cost cap sbq,
       DataLoader.transport_cost_per_trip assembled1 !! lane = Some cost
       /\ DataLoader.transport_capacity_per_trip assembled1 !! lane = Some cap
       /\ DataLoader.transport_sbq assembled1 !! lane = Some sbq
       /\ is_Some (DataLoader.route_enabled assembled1 !! lane)
       /\ 0 <= cost /\ 0 <= cap /\ 0 <= sbq /\ sbq <= cap.
Proof.
  assert (Hok : DataLoader.assemble_optimization_data db1 ["1"%string] "Fixed"
                = Ok assembled1) by (vm_compute; reflexivity).
  split; [exact Hok|].
  apply (assembled_routes_are_valid db1 ["1"%string] "Fixed" assembled1 Hok "A" "B" "road")%string.
  vm_compute. left.
Defined.

(** ** What a successfully assembled dataset satisfies *)

(** X3: a dataset that was assembled has passed the two sanity checks: no
    plant starts above its maximum inventory, and in every month the total
    demand is at most the total initial inventory plus the total capacity
    of the clinker plants. *)
Theorem assembled_data_passes_prechecks
    (db : DataLoader.MasterData) (selected_months : list string)
    (demand_type_filter : string) (data : DataLoader.OptimizationData) :
  DataLoader.assemble_optimization_data db selected_months demand_type_filter = Ok data ->
  (forall pid, pid ∈ DataLoader.plant_ids data ->
     Py.get (DataLoader.initial_inventory data) pid 0
     <= Py.get (DataLoader.max_inventory data) pid 0)
  /\ (forall m, m ∈ DataLoader.months data ->
        Py.sum (map (fun pid => Py.get (DataLoader.demand data) (pid, m) 0)
                    (DataLoader.plant_ids data))
        <= Py.sum (map (fun pid => Py.get (DataLoader.initial_inventory data) pid 0)
                       (DataLoader.plant_ids data))
           + Py.sum (map (fun pid => Py.get (DataLoader.production_capacity data) pid 0)
                         (DataLoader.clinker_plants data))).
Proof.
  intros Hok.
  destruct (assemble_ok_inv _ _ _ _ Hok)
    as (_ & _ & _ & storage & init & inv & pc & pcost & demand & rt & _ & _ & _ & Hfin).
  apply finish_ok_inv in Hfin.
  destruct Hfin as (Hmonth & Hstore & _ & Hm & Hids & Hcl & _ & Hinit & Hmax & Hpc & _
                    & Hdem & _).
  rewrite Hm, Hids, Hcl, Hinit, Hmax, Hpc, Hdem. split.
  - intros pid Hpid. pose proof (for_each_checks _ _ Hstore pid Hpid) as Hc.
    unfold DataLoader.check_storage in Hc.
    destruct (Py.gt _ _) eqn:Hgt; [discriminate|]. apply gt_false_le. exact Hgt.
  - intros m Hmin. pose proof (for_each_checks _ _ Hmonth m Hmin) as Hc.
    unfold DataLoader.check_month in Hc.
    destruct (Py.gt _ _) eqn:Hgt; [discriminate|]. apply gt_false_le. exact Hgt.
Qed.

Lemma assembled_data_passes_prechecks_witness :
  Py.get (DataLoader.initial_inventory assembled1) "B"%string 0
  <= Py.get (DataLoader.max_inventory assembled1) "B"%string 0.
Proof.
  refine (proj1 (assembled_data_passes_prechecks db1 ["1"%string] "Fixed" assembled1 _)
            "B"%string _).
  - vm_compute. reflexivity.
  - vm_compute. right. left.
Defined.

Section Inflow.

Lemma get_bool_true `{Countable K} (d : gmap K bool) (k : K) :
  Py.get d k false = true <-> d !! k = Some true.
Proof.
  unfold Py.get. destruct (d !! k) as [[]|]; split; congruence.
Qed.

Lemma has_inflow_true (ids : list string) (routes : list route)
    (enabled : gmap route bool) (pid : string) :
  Py.get (DataLoader.has_inflow_of ids routes enabled) pid false = true ->
  exists i mode, (i, pid, mode) ∈ routes /\ enabled !! (i, pid, mode) = Some true.
Proof.
  unfold DataLoader.has_inflow_of.
  assert (Hgen : forall h : gmap string bool,
    Py.get (fold_left (fun h '(i, j, mode) =>
                         if Py.get enabled (i, j, mode) false then <[j := true]> h else h)
                      routes h) pid false = true ->
    Py.get h pid false = true
    \/ exists i mode, (i, pid, mode) ∈ routes /\ enabled !! (i, pid, mode) = Some true).
  { induction routes as [|[[i j] mode] routes IH]; intros h Hget; simpl in Hget.
    - left. exact Hget.
    - apply IH in Hget as [Hget|(i' & mode' & Hin & Hen)].
      + destruct (Py.get enabled (i, j, mode) false) eqn:Hen.
        * destruct (decide (j = pid)) as [->|Hne].
          -- right. exists i, mode. split; [left | apply get_bool_true; exact Hen].
          -- left. unfold Py.get in *. rewrite lookup_insert_ne in Hget by exact Hne.
             exact Hget.
        * left. exact Hget.
      + right. exists i', mode'. split; [right; exact Hin | exact Hen]. }
  intros Hget. apply Hgen in Hget as [Hget|Hex]; [|exact Hex].
  unfold Py.get in Hget. rewrite dict_of_const_lookup in Hget.
  destruct (decide (pid ∈ ids)); discriminate.
Qed.

End Inflow.

(** X4: in an assembled dataset every plant with positive demand in a
    selected month either is a clinker plant or has an enabled inbound
    route. *)
Theorem assembled_demand_is_reachable
    (db : DataLoader.MasterData) (selected_months : list string)
    (demand_type_filter : string) (data : DataLoader.OptimizationData) :
  DataLoader.assemble_optimization_data db selected_months demand_type_filter = Ok data ->
  forall pid m,
    pid ∈ DataLoader.plant_ids data -> m ∈ DataLoader.months data ->
    0 < Py.get (DataLoader.demand data) (pid, m) 0 ->
    pid ∈ DataLoader.clinker_plants data
    \/ exists i mode, (i, pid, mode) ∈ DataLoader.routes data
                      /\ DataLoader.route_enabled data !! (i, pid, mode) = Some true.
Proof.
  intros Hok pid m Hpid Hm Hpos.
  destruct (assemble_ok_inv _ _ _ _ Hok)
    as (_ & _ & _ & storage & init & inv & pc & pcost & demand & rt & _ & _ & _ & Hfin).
  apply finish_ok_inv in Hfin.
  destruct Hfin as (_ & _ & Hinflow & Hmo & Hids & Hcl & _ & _ & _ & _ & _
                    & Hdem & Hroutes & _ & _ & _ & Hen).
  rewrite Hids in Hpid. rewrite Hmo in Hm. rewrite Hdem in Hpos.
  rewrite Hcl, Hroutes, Hen.
  assert (Hin : (pid, m) ∈ list_prod (DataLoader.plant_ids data) (DataLoader.months data)).
  { rewrite Hids, Hmo. apply list_elem_of_In, in_prod; apply list_elem_of_In; assumption. }
  rewrite Hids, Hmo in Hin.
  pose proof (for_each_checks _ _ Hinflow (pid, m) Hin) as Hc.
  unfold DataLoader.check_inflow in Hc.
  destruct (Py.gt (Py.get demand (pid, m) 0) 0) eqn:Hgt.
  2:{ apply gt_false_le in Hgt. lra. }
  destruct (Py.mem pid (clinker_of db)) eqn:Hmem; simpl in Hc.
  { left. apply mem_true_iff. exact Hmem. }
  destruct (Py.get _ pid false) eqn:Hget; simpl in Hc; [|discriminate].
  right. exact (has_inflow_true _ _ _ _ Hget).
Qed.

Lemma assembled_demand_is_reachable_witness :
  "B"%string ∈ DataLoader.clinker_plants assembled1
  \/ exists i mode, (i, "B", mode)%string ∈ DataLoader.routes assembled1
                    /\ DataLoader.route_enabled assembled1 !! (i, "B", mode)%string = Some true.
Proof.
  refine (assembled_demand_is_reachable db1 ["1"%string] "Fixed" assembled1 _ "B" "1" _ _ _)%string.
  - vm_compute. reflexivity.
  - vm_compute. right. left.
  - vm_compute. left.
  - vm_compute. reflexivity.
Defined.

Section ProductionLoop.

Variables (types names : gmap string string).

Lemma for_each_steps {E A S} (body : S -> A -> result E S) (l : list A) (st0 st : S) :
  for_each l body st0 = Ok st ->
  forall x, x ∈ l -> exists s s', body s x = Ok s'.
Proof.
  revert st0. induction l as [|y l IH]; intros st0 Hrun x Hx.
  - inversion Hx.
  - simpl in Hrun. destruct (body st0 y) as [s'|e] eqn:Hb; simpl in Hrun; [|discriminate].
    apply elem_of_cons in Hx as [->|Hx].
    + exists st0, s'. exact Hb.
    + exact (IH s' Hrun x Hx).
Qed.

Lemma production_step_other (st st' : gmap string Q * gmap string Q)
    (p : DataLoader.PlantDoc) (pid : string) :
  types !! pid <> Some "Clinker Plant"%string ->
  DataLoader.production_step types names st p = Ok st' ->
  st'.1 !! pid = st.1 !! pid /\ st'.2 !! pid = st.2 !! pid.
Proof.
  intros Hty. unfold DataLoader.production_step, mbind, result_bind.
  destruct (decide (types !! DataLoader.plant__id p = Some "Clinker Plant"%string)) as [Hc|Hc].
  - destruct (DataLoader.is_none (DataLoader.plant_production_capacity p)); [discriminate|].
    destruct (DataLoader.is_none (DataLoader.plant_production_cost p)); [discriminate|].
    destruct (DataLoader._to_float (DataLoader.plant_production_capacity p) _)
      as [cap|e]; [|discriminate].
    destruct (DataLoader._to_float (DataLoader.plant_production_cost p) _)
      as [cost|e]; [|discriminate].
    intros H. inversion H; subst st'; simpl.
    assert (DataLoader.plant__id p <> pid) by congruence.
    rewrite !lookup_insert_ne by assumption. split; reflexivity.
  - intros H. inversion H; subst. split; reflexivity.
Qed.

Lemma production_step_clinker (st st' : gmap string Q * gmap string Q)
    (p : DataLoader.PlantDoc) :
  types !! DataLoader.plant__id p = Some "Clinker Plant"%string ->
  DataLoader.production_step types names st p = Ok st' ->
  exists cap cost,
    DataLoader.plant_production_capacity p = DataLoader.Num cap
    /\ DataLoader.plant_production_cost p = DataLoader.Num cost.
Proof.
  intros Hty. unfold DataLoader.production_step, mbind, result_bind.
  rewrite decide_True by exact Hty.
  destruct (DataLoader.plant_production_capacity p) as [| |cap|];
    destruct (DataLoader.plant_production_cost p) as [| |cost|];
    simpl; try discriminate.
  intros _. exists cap, cost. split; reflexivity.
Qed.

End ProductionLoop.

(** X5: in an assembled dataset every plant that is not a clinker plant has
    production capacity 0 and production cost 0, and every plant record of a
    clinker plant carries a numeric production capacity and production
    cost. *)
Theorem assembled_production_tables
    (db : DataLoader.MasterData) (selected_months : list string)
    (demand_type_filter : string) (data : DataLoader.OptimizationData) :
  DataLoader.assemble_optimization_data db selected_months demand_type_filter = Ok data ->
  (forall pid, pid ∈ DataLoader.plant_ids data ->
     DataLoader.plant_type data !! pid <> Some "Clinker Plant"%string ->
     DataLoader.production_capacity data !! pid = Some 0
     /\ DataLoader.production_cost data !! pid = Some 0)
  /\ (forall p, p ∈ DataLoader.db_plants db ->
        DataLoader.plant_type data !! DataLoader.plant__id p = Some "Clinker Plant"%string ->
        exists cap cost,
          DataLoader.plant_production_capacity p = DataLoader.Num cap
          /\ DataLoader.plant_production_cost p = DataLoader.Num cost).
Proof.
  intros Hok.
  destruct (assemble_ok_inv _ _ _ _ Hok)
    as (_ & _ & _ & storage & init & inv & pc & pcost & demand & rt & Hprod & _ & _ & Hfin).
  apply finish_ok_inv in Hfin.
  destruct Hfin as (_ & _ & _ & _ & Hids & _ & Hty & _ & _ & Hpc & Hpcost & _).
  rewrite Hids, Hty, Hpc, Hpcost. split.
  - intros pid Hpid Hnc.
    refine (for_each_invariant
      (fun st : gmap string Q * gmap string Q =>
         st.1 !! pid = Some 0 /\ st.2 !! pid = Some 0)
      (DataLoader.production_step (types_of db) (names_of db))
      (DataLoader.db_plants db) _ (pc, pcost) _ _ Hprod).
    + intros s x s' _ [H1 H2] Hstep.
      destruct (production_step_other _ _ s s' x pid Hnc Hstep) as [E1 E2].
      rewrite E1, E2. split; assumption.
    + simpl. rewrite dict_of_const_lookup, decide_True by exact Hpid. split; reflexivity.
  - intros p Hp Hc.
    destruct (for_each_steps _ _ _ _ Hprod p Hp) as (s & s' & Hstep).
    exact (production_step_clinker _ _ s s' p Hc Hstep).
Qed.

Lemma assembled_production_tables_witness :
  DataLoader.production_capacity assembled1 !! "B"%string = Some 0
  /\ DataLoader.production_cost assembled1 !! "B"%string = Some 0.
Proof.
  refine (proj1 (assembled_production_tables db1 ["1"%string] "Fixed" assembled1 _)
            "B"%string _ _).
  - vm_compute. reflexivity.
  - vm_compute. right. left.
  - vm_compute. discriminate.
Defined.

Section DemandLoop.

Variables (months ids : list string) (demand_type_filter : string).

Lemma demand_loop_sum (l : list DataLoader.DemandDoc)
    (d0 d : gmap (string * string) Q) (p m : string) :
  p ∈ ids -> m ∈ months ->
  for_each l (DataLoader.demand_step months ids demand_type_filter) d0 = Ok d ->
  Py.get d (p, m) 0
  == Py.get d0 (p, m) 0
     + Py.sum (map quantity_of (filter (counts_for demand_type_filter p m) l))
  /\ (0 <= Py.get d0 (p, m) 0 -> 0 <= Py.get d (p, m) 0)
  /\ (is_Some (d0 !! (p, m)) -> is_Some (d !! (p, m))).
Proof.
  intros Hp Hm. revert d0. induction l as [|r l IH]; intros d0 Hrun.
  - simpl in Hrun. inversion Hrun; subst. rewrite filter_nil. simpl.
    rewrite sum_nil. split; [ring|]. split; auto.
  - simpl in Hrun. unfold mbind, result_bind in Hrun.
    destruct (DataLoader.demand_step months ids demand_type_filter d0 r) as [d1|e] eqn:Hstep;
      [|discriminate].
    destruct (IH d1 Hrun) as (Hsum & Hpos & Hsome). clear IH.
    unfold DataLoader.demand_step, mbind, result_bind in Hstep.
    destruct (String.eqb (DataLoader.or_empty (DataLoader.dem_demand_type r))
                         demand_type_filter) eqn:Hty; simpl in Hstep.
    2:{ inversion Hstep; subst d1. apply String.eqb_neq in Hty.
        rewrite filter_cons_False by (intros (H1 & _); contradiction).
        split; [exact Hsum|]. split; assumption. }
    apply String.eqb_eq in Hty.
    destruct (Py.mem (Py.strip (DataLoader.or_empty (DataLoader.dem_month r))) months)
      eqn:Hmm; simpl in Hstep.
    2:{ inversion Hstep; subst d1.
        rewrite filter_cons_False.
        - split; [exact Hsum|]. split; assumption.
        - intros (_ & H2 & _). rewrite H2 in Hmm. apply mem_true_iff in Hm. congruence. }
    destruct (Py.mem (DataLoader.dem_plant_id r) ids) eqn:Hpp; simpl in Hstep.
    2:{ inversion Hstep; subst d1.
        rewrite filter_cons_False.
        - split; [exact Hsum|]. split; assumption.
        - intros (_ & _ & H3). rewrite H3 in Hpp. apply mem_true_iff in Hp. congruence. }
    destruct (DataLoader._to_float (DataLoader.get_or (DataLoader.dem_demand_quantity r) 0) _)
      as [qty|e] eqn:Hq; [|discriminate].
    destruct (Py.lt qty 0) eqn:Hneg; [discriminate|].
    inversion Hstep; subst d1; clear Hstep. apply lt_false_le in Hneg.
    assert (Hqty : quantity_of r = qty).
    { unfold quantity_of. unfold DataLoader._to_float in Hq.
      destruct (DataLoader.get_or (DataLoader.dem_demand_quantity r) 0); congruence. }
    destruct (decide ((DataLoader.dem_plant_id r,
                       Py.strip (DataLoader.or_empty (DataLoader.dem_month r))) = (p, m)))
      as [Heq|Hne].
    + inversion Heq as [[H1 H2]].
      rewrite filter_cons_True by (repeat split; assumption).
      cbn [map]. rewrite sum_cons, Hqty.
      rewrite H1, H2 in Hsum, Hpos, Hsome.
      unfold Py.get at 2 in Hsum. unfold Py.get at 1 in Hpos.
      rewrite lookup_insert_eq in Hsum, Hpos, Hsome.
      rewrite ?H1, ?H2. split; [rewrite Hsum; ring|]. split.
      * intros H0. apply Hpos. lra.
      * intros _. apply Hsome. eexists; reflexivity.
    + rewrite filter_cons_False.
      2:{ intros (_ & H2 & H3). apply Hne. congruence. }
      unfold Py.get at 2 in Hsum. unfold Py.get at 1 in Hpos.
      rewrite lookup_insert_ne in Hsum, Hpos, Hsome by exact Hne.
      split; [exact Hsum|]. split; assumption.
Qed.

End DemandLoop.

(** X2: the demand of an assembled dataset at an active plant and a selected
    month is the sum of the quantities of the demand records of the chosen
    demand type for that plant and month (the month compared after
    stripping), and it is not negative; without such records it is 0. *)
Theorem assembled_demand_accumulates
    (db : DataLoader.MasterData) (selected_months : list string)
    (demand_type_filter : string) (data : DataLoader.OptimizationData) :
  DataLoader.assemble_optimization_data db selected_months demand_type_filter = Ok data ->
  forall p m, p ∈ DataLoader.plant_ids data -> m ∈ DataLoader.months data ->
    exists q,
      DataLoader.demand data !! (p, m) = Some q /\ 0 <= q
      /\ q == Py.sum (map quantity_of
                          (filter (counts_for demand_type_filter p m)
                                  (DataLoader.db_demands db))).
Proof.
  intros Hok p m Hp Hm.
  destruct (assemble_ok_inv _ _ _ _ Hok)
    as (_ & _ & _ & storage & init & inv & pc & pcost & demand & rt & _ & Hdem & _ & Hfin).
  apply finish_ok_inv in Hfin.
  destruct Hfin as (_ & _ & _ & Hmo & Hids & _ & _ & _ & _ & _ & _ & Hd & _).
  rewrite Hids in Hp. rewrite Hmo in Hm. rewrite Hd.
  destruct (demand_loop_sum _ _ _ _ _ _ p m Hp Hm Hdem) as (Hsum & Hpos & Hsome).
  assert (H0 : DataLoader.dict_of
                 (map (fun k => (k, 0)) (list_prod (ids_of db) (months_of selected_months)))
               !! (p, m) = Some 0).
  { rewrite dict_of_const_lookup, decide_True; [reflexivity|].
    apply list_elem_of_In, in_prod; apply list_elem_of_In; assumption. }
  unfold Py.get in Hsum at 2. unfold Py.get in Hpos at 1. rewrite H0 in Hsum, Hpos, Hsome.
  destruct Hsome as [q Hq]; [eexists; reflexivity|].
  exists q. unfold Py.get in Hsum, Hpos. rewrite Hq in Hsum, Hpos.
  split; [exact Hq|]. split; [apply Hpos; lra | rewrite Hsum; ring].
Qed.

Lemma assembled_demand_accumulates_witness :
  exists q, DataLoader.demand assembled1 !! ("B", "1")%string = Some q /\ 0 <= q
    /\ q == Py.sum (map quantity_of
                        (filter (counts_for "Fixed" "B" "1") (DataLoader.db_demands db1))).
Proof.
  refine (assembled_demand_accumulates db1 ["1"%string] "Fixed" assembled1 _ "B" "1" _ _)%string.
  - vm_compute. reflexivity.
  - vm_compute. right. left.
  - vm_compute. left.
Defined.

Section MoreSums.

Lemma sum_filter {A} (P : A -> Prop) `{forall x, Decision (P x)} (f : A -> Q) (l : list A) :
  Py.sum (map f (filter P l)) == Py.sum (map (fun x => if decide (P x) then f x else 0) l).
Proof.
  induction l as [|x l IH].
  - reflexivity.
  - cbn [map]. rewrite sum_cons. destruct (decide (P x)) as [Hx|Hx].
    + rewrite filter_cons_True by exact Hx. cbn [map]. rewrite sum_cons, IH. reflexivity.
    + rewrite filter_cons_False by exact Hx. rewrite IH. ring.
Qed.

Lemma sum_swap {A B} (h : A -> B -> Q) (la : list A) (lb : list B) :
  Py.sum (map (fun a => Py.sum (map (fun b => h a b) lb)) la)
  == Py.sum (map (fun b => Py.sum (map (fun a => h a b) la)) lb).
Proof.
  induction la as [|a la IH]; cbn [map].
  - rewrite sum_nil. symmetry. apply sum_zero. intros b _. reflexivity.
  - rewrite sum_cons, IH, <- sum_map_plus. apply sum_map_ext. intros b _.
    rewrite sum_cons. reflexivity.
Qed.

Lemma sum_indicator `{EqDecision A} (c : Q) (x : A) (l : list A) :
  NoDup l -> x ∈ l ->
  Py.sum (map (fun y => if decide (x = y) then c else 0) l) == c.
Proof.
  induction 1 as [|y l Hy _ IH]; intros Hx.
  - inversion Hx.
  - cbn [map]. rewrite sum_cons. destruct (decide (x = y)) as [->|Hne].
    + rewrite sum_zero; [ring|]. intros z Hz. destruct (decide (y = z)) as [->|_].
      * exfalso. apply Hy. apply list_elem_of_In. exact Hz.
      * reflexivity.
    + apply elem_of_cons in Hx as [?|Hx]; [contradiction|]. rewrite IH by exact Hx. ring.
Qed.

Lemma sum_nonneg {A} (f : A -> Q) (l : list A) :
  (forall x, x ∈ l -> 0 <= f x) -> 0 <= Py.sum (map f l).
Proof.
  induction l as [|x l IH]; intros Hf; cbn [map].
  - rewrite sum_nil. lra.
  - rewrite sum_cons. assert (0 <= f x) by (apply Hf; left).
    assert (0 <= Py.sum (map f l)) by (apply IH; intros y Hy; apply Hf; right; exact Hy).
    lra.
Qed.

Lemma sum_ge_member {A} (f : A -> Q) (l : list A) (x : A) :
  (forall y, y ∈ l -> 0 <= f y) -> x ∈ l -> f x <= Py.sum (map f l).
Proof.
  induction l as [|y l IH]; intros Hf Hx.
  - inversion Hx.
  - cbn [map]. rewrite sum_cons.
    assert (H0 : 0 <= Py.sum (map f l))
      by (apply sum_nonneg; intros z Hz; apply Hf; right; exact Hz).
    apply elem_of_cons in Hx as [->|Hx].
    + lra.
    + assert (f x <= Py.sum (map f l))
        by (apply IH; [intros z Hz; apply Hf; right; exact Hz | exact Hx]).
      assert (0 <= f y) by (apply Hf; left). lra.
Qed.

Lemma sum_ge_two_members {A} (f : A -> Q) (l : list A) (x y : A) :
  (forall z, z ∈ l -> 0 <= f z) -> x ∈ l -> y ∈ l -> x <> y ->
  f x + f y <= Py.sum (map f l).
Proof.
  induction l as [|z l IH]; intros Hf Hx Hy Hne.
  - inversion Hx.
  - cbn [map]. rewrite sum_cons.
    assert (Hl : forall w, w ∈ l -> 0 <= f w) by (intros w Hw; apply Hf; right; exact Hw).
    apply elem_of_cons in Hx as [->|Hx]; apply elem_of_cons in Hy as [->|Hy].
    + contradiction.
    + pose proof (sum_ge_member f l y Hl Hy). lra.
    + pose proof (sum_ge_member f l x Hl Hx). lra.
    + pose proof (IH Hl Hx Hy Hne). assert (0 <= f z) by (apply Hf; left). lra.
Qed.

End MoreSums.

(** ** Flow conservation *)

Section Flows.

Variables (m : Model) (v : Values).

Hypothesis HP : NoDup (Pyomo.P m).
Hypothesis HR : forall i j k, (i, j, k) ∈ Pyomo.R m -> i ∈ Pyomo.P m /\ j ∈ Pyomo.P m.

Lemma total_inflow (t : period) :
  Py.sum (map (fun p => FlowConstraints.inflow m v p t) (Pyomo.P m))
  == Py.sum (map (fun r => Pyomo.Ship v r t) (Pyomo.R m)).
Proof.
  transitivity
    (Py.sum (map (fun p =>
       Py.sum (map (fun r : route => if decide (r.1.2 = p) then Pyomo.Ship v r t else 0)
                   (Pyomo.R m))) (Pyomo.P m))).
  - apply sum_map_ext. intros p _. unfold FlowConstraints.inflow.
    rewrite sum_filter. apply sum_map_ext. intros [[i j] k] _. simpl.
    repeat case_decide; simplify_eq; try reflexivity; contradiction.
  - rewrite sum_swap. apply sum_map_ext. intros [[i j] k] Hr. simpl.
    apply sum_indicator; [exact HP|]. apply list_elem_of_In in Hr.
    exact (proj2 (HR i j k Hr)).
Qed.

Lemma total_outflow (t : period) :
  Py.sum (map (fun p => FlowConstraints.outflow m v p t) (Pyomo.P m))
  == Py.sum (map (fun r => Pyomo.Ship v r t) (Pyomo.R m)).
Proof.
  transitivity
    (Py.sum (map (fun p =>
       Py.sum (map (fun r : route => if decide (r.1.1 = p) then Pyomo.Ship v r t else 0)
                   (Pyomo.R m))) (Pyomo.P m))).
  - apply sum_map_ext. intros p _. unfold FlowConstraints.outflow.
    rewrite sum_filter. apply sum_map_ext. intros [[i j] k] _. simpl.
    repeat case_decide; simplify_eq; try reflexivity; contradiction.
  - rewrite sum_swap. apply sum_map_ext. intros [[i j] k] Hr. simpl.
    apply sum_indicator; [exact HP|]. apply list_elem_of_In in Hr.
    exact (proj1 (HR i j k Hr)).
Qed.

End Flows.

(** X6: shipments only move stock between plants.  When every route joins two
    plants of the model, a plan that satisfies the inventory balance at every
    plant in a period has total closing stock equal to total opening stock
    plus total production minus total demand (plus total slack under the
    repair balance). *)
Theorem network_stock_is_conserved
    (m : Model) (v : Values) (PREV_T : gmap period (option period)) (t : period) :
  NoDup (Pyomo.P m) ->
  (forall i j k, (i, j, k) ∈ Pyomo.R m -> i ∈ Pyomo.P m /\ j ∈ Pyomo.P m) ->
  ((forall p, p ∈ Pyomo.P m ->
      rule_holds (FlowConstraints.inventory_balance_rule PREV_T m v p t)) ->
   Py.sum (map (fun p => Pyomo.Inv v p t) (Pyomo.P m))
   == Py.sum (map (fun p => opening_stock PREV_T m v p t) (Pyomo.P m))
      + Py.sum (map (fun p => Pyomo.Prod v p t) (Pyomo.P m))
      - Py.sum (map (fun p => Pyomo.Demand m p t) (Pyomo.P m)))
  /\ ((forall p, p ∈ Pyomo.P m ->
         rule_holds (FeasibleFlow.inventory_balance_rule PREV_T m v p t)) ->
      Py.sum (map (fun p => Pyomo.Inv v p t) (Pyomo.P m))
      == Py.sum (map (fun p => opening_stock PREV_T m v p t) (Pyomo.P m))
         + Py.sum (map (fun p => Pyomo.Prod v p t) (Pyomo.P m))
         - Py.sum (map (fun p => Pyomo.Demand m p t) (Pyomo.P m))
         + Py.sum (map (fun p => DemandSlack v p t) (Pyomo.P m))).
Proof.
  intros HP HR.
  pose proof (total_inflow m v HP HR t) as Hin.
  pose proof (total_outflow m v HP HR t) as Hout.
  split; intros Hbal.
  - assert (Hsum :
      Py.sum (map (fun p => Pyomo.Inv v p t) (Pyomo.P m))
      == Py.sum (map (fun p => opening_stock PREV_T m v p t + Pyomo.Prod v p t
                               + FlowConstraints.inflow m v p t
                               + (- FlowConstraints.outflow m v p t)
                               + (- Pyomo.Demand m p t)) (Pyomo.P m))).
    { apply sum_map_ext. intros p Hp. apply list_elem_of_In in Hp.
      specialize (Hbal p Hp). unfold FlowConstraints.inventory_balance_rule in Hbal.
      unfold opening_stock. destruct (FlowConstraints.prev_of PREV_T t);
        simpl in Hbal; rewrite Hbal; ring. }
    rewrite Hsum, !sum_map_plus.
    rewrite (sum_map_ext (fun p => - FlowConstraints.outflow m v p t)
                         (fun p => (-1) * FlowConstraints.outflow m v p t))
      by (intros; ring).
    rewrite (sum_map_ext (fun p => - Pyomo.Demand m p t)
                         (fun p => (-1) * Pyomo.Demand m p t))
      by (intros; ring).
    rewrite !sum_map_scale, Hin, Hout. ring.
  - assert (Hsum :
      Py.sum (map (fun p => Pyomo.Inv v p t) (Pyomo.P m))
      == Py.sum (map (fun p => opening_stock PREV_T m v p t + Pyomo.Prod v p t
                               + FlowConstraints.inflow m v p t
                               + (- FlowConstraints.outflow m v p t)
                               + (- Pyomo.Demand m p t)
                               + DemandSlack v p t) (Pyomo.P m))).
    { apply sum_map_ext. intros p Hp. apply list_elem_of_In in Hp.
      specialize (Hbal p Hp). unfold FeasibleFlow.inventory_balance_rule in Hbal.
      unfold opening_stock. destruct (FlowConstraints.prev_of PREV_T t);
        simpl in Hbal; rewrite Hbal; ring. }
    rewrite Hsum, !sum_map_plus.
    rewrite (sum_map_ext (fun p => - FlowConstraints.outflow m v p t)
                         (fun p => (-1) * FlowConstraints.outflow m v p t))
      by (intros; ring).
    rewrite (sum_map_ext (fun p => - Pyomo.Demand m p t)
                         (fun p => (-1) * Pyomo.Demand m p t))
      by (intros; ring).
    rewrite !sum_map_scale, Hin, Hout. ring.
Qed.

Lemma network_stock_is_conserved_witness :
  Py.sum (map (fun p => Pyomo.Inv values1 p "1"%string) (Pyomo.P model1))
  == Py.sum (map (fun p => opening_stock (ModelBuilder.prev_map (Pyomo.T model1))
                             model1 values1 p "1"%string) (Pyomo.P model1))
     + Py.sum (map (fun p => Pyomo.Prod values1 p "1"%string) (Pyomo.P model1))
     - Py.sum (map (fun p => Pyomo.Demand model1 p "1"%string) (Pyomo.P model1)).
Proof.
  refine (proj1 (network_stock_is_conserved model1 values1
                   (ModelBuilder.prev_map (Pyomo.T model1)) "1"%string _ _) _).
  - cbn. distinct.
  - intros i j k H. cbn in H. in_list. vm_compute. split; [left | right; left].
  - intros p Hp. cbn in Hp. in_list; vm_compute; reflexivity.
Defined.

(** ** The previous-period chain *)

Section PrevMap.

Lemma prev_map_from_other (prev : option period) (months : list period)
    (d : gmap period (option period)) (t : period) :
  t ∉ months -> ModelBuilder.prev_map_from prev months d !! t = d !! t.
Proof.
  revert prev d. induction months as [|x months IH]; intros prev d Ht; simpl.
  - reflexivity.
  - rewrite IH by (intros H; apply Ht; right; exact H).
    apply lookup_insert_ne. intros ->. apply Ht. left.
Qed.

Lemma prev_map_from_lookup (prev : option period) (pre post : list period)
    (d : gmap period (option period)) (t : period) :
  t ∉ post ->
  ModelBuilder.prev_map_from prev (pre ++ t :: post) d !! t
  = Some (match last pre with Some x => Some x | None => prev end).
Proof.
  revert prev d. induction pre as [|x pre IH]; intros prev d Ht; simpl.
  - rewrite prev_map_from_other by exact Ht. apply lookup_insert_eq.
  - rewrite IH by exact Ht. destruct pre as [|y pre]; [reflexivity|].
    simpl. destruct (last (y :: pre)) eqn:Hl; [reflexivity|].
    apply last_None in Hl. discriminate.
Qed.

(** In a list of distinct months the first has no predecessor and every
    other month has the month just before it. *)
Lemma prev_of_prev_map (pre post : list period) (t : period) :
  NoDup (pre ++ t :: post) ->
  FlowConstraints.prev_of (ModelBuilder.prev_map (pre ++ t :: post)) t = last pre.
Proof.
  intros Hnd. unfold FlowConstraints.prev_of, ModelBuilder.prev_map.
  rewrite prev_map_from_lookup.
  - destruct (last pre); reflexivity.
  - apply NoDup_app in Hnd as (_ & _ & Hnd). apply NoDup_cons in Hnd as [Ht _]. exact Ht.
Qed.

(** The recurrence every balance rule instantiates: a quantity that in each
    period is its predecessor's value (the start value in the first period)
    plus that period's increment. *)
Lemma balance_chain (inv net : period -> Q) (inv0 : Q) (pre post : list period) (t : period) :
  NoDup (pre ++ t :: post) ->
  (forall t', t' ∈ pre ++ [t] ->
     inv t' == match FlowConstraints.prev_of (ModelBuilder.prev_map (pre ++ t :: post)) t' with
               | None => inv0
               | Some prev_t => inv prev_t
               end + net t') ->
  inv t == inv0 + Py.sum (map net (pre ++ [t])).
Proof.
  revert t post. induction pre as [|t0 pre IH] using rev_ind; intros t post Hnd Hbal.
  - specialize (Hbal t (list_elem_of_here _ _)).
    rewrite (prev_of_prev_map [] post t Hnd) in Hbal. cbn [last] in Hbal.
    cbn [app map]. rewrite sum_cons, sum_nil, Hbal. ring.
  - assert (Hnd' : NoDup (pre ++ t0 :: t :: post)) by (rewrite <- app_assoc in Hnd; exact Hnd).
    assert (Hprev : inv t0 == inv0 + Py.sum (map net (pre ++ [t0]))).
    { apply (IH t0 (t :: post) Hnd'). intros t' Ht'.
      replace (pre ++ t0 :: t :: post) with ((pre ++ [t0]) ++ t :: post)
        by (rewrite <- app_assoc; reflexivity).
      apply Hbal. apply elem_of_app. left. exact Ht'. }
    specialize (Hbal t).
    rewrite (prev_of_prev_map (pre ++ [t0]) post t Hnd), last_snoc in Hbal.
    rewrite (map_app net (pre ++ [t0]) [t]), sum_app. cbn [map]. rewrite sum_cons, sum_nil.
    rewrite Hbal by (apply elem_of_app; right; left).
    rewrite Hprev. ring.
Qed.

End PrevMap.

(** X7: over distinct periods the balance chains period to period, so the
    closing stock of a plant in any period is its initial inventory plus the
    net receipts (production plus inbound minus outbound minus demand; plus
    slack under the repair balance) of all periods up to that one. *)
Theorem closing_stock_accumulates
    (m : Model) (v : Values) (p : plant) (pre post : list period) (t : period) :
  Pyomo.T m = pre ++ t :: post ->
  NoDup (Pyomo.T m) ->
  ((forall t', t' ∈ pre ++ [t] ->
      rule_holds (FlowConstraints.inventory_balance_rule
                    (ModelBuilder.prev_map (Pyomo.T m)) m v p t')) ->
   Pyomo.Inv v p t
   == Inv0 m p
      + Py.sum (map (fun t' => net_receipts m v p t' - DemandSlack v p t') (pre ++ [t])))
  /\ ((forall t', t' ∈ pre ++ [t] ->
         rule_holds (FeasibleFlow.inventory_balance_rule
                       (ModelBuilder.prev_map (Pyomo.T m)) m v p t')) ->
      Pyomo.Inv v p t == Inv0 m p + Py.sum (map (net_receipts m v p) (pre ++ [t]))).
Proof.
  intros HT Hnd. rewrite HT in *. clear HT. split; intros Hbal.
  - apply (balance_chain (fun t' => Pyomo.Inv v p t')
             (fun t' => net_receipts m v p t' - DemandSlack v p t')
             (Inv0 m p) pre post t Hnd).
    intros t' Ht'. specialize (Hbal t' Ht').
    unfold FlowConstraints.inventory_balance_rule in Hbal. unfold net_receipts.
    destruct (FlowConstraints.prev_of _ t'); cbn in Hbal; rewrite Hbal; ring.
  - apply (balance_chain (fun t' => Pyomo.Inv v p t') (net_receipts m v p)
             (Inv0 m p) pre post t Hnd).
    intros t' Ht'. specialize (Hbal t' Ht').
    unfold FeasibleFlow.inventory_balance_rule in Hbal. unfold net_receipts.
    destruct (FlowConstraints.prev_of _ t'); cbn in Hbal; rewrite Hbal; ring.
Qed.

Lemma closing_stock_accumulates_witness :
  Pyomo.Inv values_two_periods "B"%string "2"%string
  == Inv0 model_two_periods "B"%string
     + Py.sum (map (fun t' => net_receipts model_two_periods values_two_periods "B"%string t'
                              - DemandSlack values_two_periods "B"%string t')
                   (["1"%string] ++ ["2"%string]))
  /\ Pyomo.Inv values_two_periods "B"%string "2"%string
     == Inv0 model_two_periods "B"%string
        + Py.sum (map (net_receipts model_two_periods values_two_periods "B"%string)
                      (["1"%string] ++ ["2"%string])).
Proof.
  destruct (closing_stock_accumulates model_two_periods values_two_periods "B"%string
              ["1"%string] [] "2"%string) as [Hexact Hrepair].
  - reflexivity.
  - cbn. distinct.
  - split; [apply Hexact | apply Hrepair];
      intros t Ht; cbn in Ht; in_list; vm_compute; reflexivity.
Defined.

(** ** Mode selection *)

(** X8: on a lane, two different modes cannot both carry trips in the same
    period: the linking rule turns positive trips into a selected mode and
    the one-mode rule admits a single selected mode. *)
Theorem at_most_one_mode_carries_trips
    (m : Model) (v : Values) (i j k1 k2 : string) (t : period) :
  ModelBuilder.in_domains m v -> t ∈ Pyomo.T m ->
  (i, j, k1) ∈ Pyomo.R m -> (i, j, k2) ∈ Pyomo.R m -> k1 <> k2 ->
  rule_holds (FlowConstraints.one_mode_rule m v i j t) ->
  rule_holds (FlowConstraints.link_use_trips_rule m v (i, j, k1) t) ->
  rule_holds (FlowConstraints.link_use_trips_rule m v (i, j, k2) t) ->
  ~ (0 < Pyomo.Trips v (i, j, k1) t /\ 0 < Pyomo.Trips v (i, j, k2) t).
Proof.
  intros [_ Hdom] Ht Hr1 Hr2 Hne Hone Hl1 Hl2 [Hp1 Hp2].
  destruct (Hdom _ _ Hr1 Ht) as (_ & _ & _ & Hu1).
  destruct (Hdom _ _ Hr2 Ht) as (_ & _ & _ & Hu2).
  simpl in Hl1, Hl2. unfold FlowConstraints.big_m_trips in Hl1, Hl2.
  assert (Hone1 : Use v (i, j, k1) t == 1) by (destruct Hu1 as [H0|H1]; [lra | exact H1]).
  assert (Hone2 : Use v (i, j, k2) t == 1) by (destruct Hu2 as [H0|H1]; [lra | exact H1]).
  assert (Hm1 : k1 ∈ FlowConstraints.modes_of m i j).
  { unfold FlowConstraints.modes_of. apply list_elem_of_fmap.
    exists (i, j, k1). split; [reflexivity|]. apply list_elem_of_filter. split; [split; reflexivity | exact Hr1]. }
  assert (Hm2 : k2 ∈ FlowConstraints.modes_of m i j).
  { unfold FlowConstraints.modes_of. apply list_elem_of_fmap.
    exists (i, j, k2). split; [reflexivity|]. apply list_elem_of_filter. split; [split; reflexivity | exact Hr2]. }
  assert (Hnn : forall k, k ∈ FlowConstraints.modes_of m i j -> 0 <= Use v (i, j, k) t).
  { intros k Hk. unfold FlowConstraints.modes_of in Hk.
    apply list_elem_of_fmap in Hk as ([[ii jj] kk] & -> & Hk).
    apply list_elem_of_filter in Hk as [[-> ->] Hk].
    destruct (Hdom _ _ Hk Ht) as (_ & _ & _ & [H0|H1]); lra. }
  pose proof (sum_ge_two_members (fun k => Use v (i, j, k) t) _ k1 k2 Hnn Hm1 Hm2 Hne) as Hsum.
  unfold FlowConstraints.one_mode_rule in Hone.
  destruct (FlowConstraints.modes_of m i j) as [|k0 ks] eqn:Hmodes.
  - inversion Hm1.
  - simpl in Hone. simpl in Hsum. lra.
Qed.

Lemma at_most_one_mode_carries_trips_witness :
  ~ (0 < Pyomo.Trips values_two_modes lane "1"%string
     /\ 0 < Pyomo.Trips values_two_modes rail_lane "1"%string).
Proof.
  refine (at_most_one_mode_carries_trips model_two_modes values_two_modes
            "A" "B" "road" "rail" "1" two_modes_in_domains _ _ _ _ _ _ _)%string.
  - left.
  - left.
  - right. left.
  - discriminate.
  - vm_compute. discriminate.
  - vm_compute. discriminate.
  - vm_compute. discriminate.
Defined.

(** X9: a mode that is not selected carries nothing: with [Use] at zero the
    linking rule leaves no trips and the trip-capacity rule no shipment. *)
Theorem unselected_mode_ships_nothing
    (m : Model) (v : Values) (r : route) (t : period) :
  ModelBuilder.in_domains m v -> r ∈ Pyomo.R m -> t ∈ Pyomo.T m ->
  rule_holds (FlowConstraints.link_use_trips_rule m v r t) ->
  rule_holds (Constraints.trip_capacity_rule m v r t) ->
  Use v r t == 0 ->
  Pyomo.Trips v r t == 0 /\ Pyomo.Ship v r t == 0.
Proof.
  intros [_ Hdom] Hr Ht Hlink Hcap Huse.
  destruct (Hdom r t Hr Ht) as (Hs & Htr & _ & _).
  simpl in Hlink, Hcap. rewrite Huse in Hlink.
  assert (H0 : Pyomo.Trips v r t == 0) by lra.
  split; [exact H0|]. rewrite H0 in Hcap. lra.
Qed.

Lemma unselected_mode_ships_nothing_witness :
  Pyomo.Trips values_two_modes rail_lane "1"%string == 0
  /\ Pyomo.Ship values_two_modes rail_lane "1"%string == 0.
Proof.
  refine (unselected_mode_ships_nothing model_two_modes values_two_modes rail_lane
            "1"%string two_modes_in_domains _ _ _ _ _).
  - right. left.
  - left.
  - vm_compute. discriminate.
  - vm_compute. discriminate.
  - vm_compute. reflexivity.
Defined.

(** ** More on the solver orchestrator *)

Section OrchestratorRuns.

Variable env : Solver.Env.

Lemma walk_warning_calls (cur : string) (chain : list string) :
  warning_calls (Solver.walk env cur chain).2
  = substitutions (cur :: tried (Solver.available env) chain).
Proof.
  revert cur. induction chain as [|alt rest IH]; intros cur; simpl.
  - reflexivity.
  - destruct (Solver.available env alt) eqn:Ha.
    + reflexivity.
    + specialize (IH alt). destruct (Solver.walk env alt rest) as [last evs'].
      simpl in *. rewrite IH. reflexivity.
Qed.

Lemma warning_calls_app (a b : list Solver.event) :
  warning_calls (a ++ b) = warning_calls a ++ warning_calls b.
Proof. apply omap_app. Qed.

Lemma valid_request_cases (req : string) :
  Py.mem req Solver.valid_solvers = true ->
  req = "gurobi"%string \/ req = "cbc"%string \/ req = "highs"%string \/ req = "scip"%string.
Proof.
  unfold Py.mem, Solver.valid_solvers. simpl. rewrite !orb_true_iff, !String.eqb_eq.
  intros [H|[H|[H|[H|H]]]]; [auto | auto | auto | auto | discriminate].
Qed.

Lemma candidates_are_valid (req s : string) :
  Py.mem req Solver.valid_solvers = true -> s ∈ candidates req ->
  Py.mem s Solver.valid_solvers = true.
Proof.
  intros Hreq Hs. apply valid_request_cases in Hreq.
  destruct Hreq as [-> | [-> | [-> | ->]]]; unfold candidates in Hs; simpl in Hs;
    repeat (apply elem_of_cons in Hs as [->|Hs]; [reflexivity|]); inversion Hs.
Qed.

Lemma find_available (l : list string) (s : string) :
  find (Solver.available env) l = Some s -> s ∈ l /\ Solver.available env s = true.
Proof.
  induction l as [|x l IH]; simpl; [discriminate|].
  destruct (Solver.available env x) eqn:Hx.
  - intros H. inversion H; subst. split; [left | exact Hx].
  - intros H. destruct (IH H) as [Hin Hav]. split; [right; exact Hin | exact Hav].
Qed.

(** What [solve_model] returns for a valid request, by the first available
    candidate. *)
Lemma solve_model_valid (config : Solver.SolverConfig) :
  Py.mem (Solver.requested_solver config) Solver.valid_solvers = true ->
  let req := Solver.requested_solver config in
  let res := Solver.solve_model env config in
  factory_calls res.2 = tried (Solver.available env) (candidates req)
  /\ warning_calls res.2 = substitutions (factory_calls res.2)
  /\ match find (Solver.available env) (candidates req) with
     | Some s => res.1 = Solver.run_selected env s /\ solve_calls res.2 = [s]
     | None => res.1 = Solver.not_available_outcome /\ solve_calls res.2 = []
     end.
Proof.
  intros Hmem req res. subst res. unfold Solver.solve_model. rewrite Hmem. fold req. simpl.
  unfold candidates. simpl.
  destruct (Solver.available env req) eqn:Hreq.
  - simpl. repeat split; reflexivity.
  - pose proof (walk_factory_calls env req (Solver.fallback_chain req)) as Hf.
    pose proof (walk_solve_calls env req (Solver.fallback_chain req)) as Hs.
    pose proof (walk_warning_calls req (Solver.fallback_chain req)) as Hw.
    pose proof (walk_stops_at_first_available env req (Solver.fallback_chain req) Hreq) as Hst.
    destruct (Solver.walk env req (Solver.fallback_chain req)) as [last evs].
    simpl in Hf, Hs, Hw, Hst.
    destruct (find (Solver.available env) (Solver.fallback_chain req)) as [s|].
    + destruct Hst as [-> Hav]. rewrite Hav. simpl.
      rewrite factory_calls_app, solve_calls_app, warning_calls_app, Hf, Hs, Hw. simpl.
      rewrite !app_nil_r. repeat split; reflexivity.
    + rewrite Hst. simpl. rewrite Hf, Hs, Hw. repeat split; reflexivity.
Qed.

End OrchestratorRuns.

(** X11: the orchestrator runs at most one backend; a backend it runs is one
    of the four known names and was reported available; and a successful
    outcome names the backend that ran and carries the optimal or feasible
    verdict that backend reported. *)
Theorem solver_runs_one_available_backend
    (env : Solver.Env) (config : Solver.SolverConfig) :
  let res := Solver.solve_model env config in
  (length (solve_calls res.2) <= 1)%nat
  /\ (forall s, s ∈ solve_calls res.2 ->
        Py.mem s Solver.valid_solvers = true /\ Solver.available env s = true)
  /\ (Solver.ok res.1 = true ->
      exists s status term,
        solve_calls res.2 = [s]
        /\ Solver.run env s = Some (status, term)
        /\ Py.mem (Py.lower term) ["optimal"; "feasible"]%string = true
        /\ Solver.solver_used res.1 = Some s
        /\ Solver.termination_condition res.1 = term
        /\ Solver.solver_status res.1 = status).
Proof.
  intros res. subst res.
  destruct (Py.mem (Solver.requested_solver config) Solver.valid_solvers) eqn:Hmem.
  2:{ unfold Solver.solve_model. rewrite Hmem. simpl.
      split; [lia|]. split; [intros s Hs; inversion Hs | discriminate]. }
  destruct (solve_model_valid env config Hmem) as (_ & _ & Hres).
  destruct (find (Solver.available env) (candidates (Solver.requested_solver config)))
    as [s|] eqn:Hfind.
  - destruct Hres as [Hout Hcalls]. apply find_available in Hfind as [Hin Hav].
    rewrite Hcalls, Hout. split; [simpl; lia|]. split.
    + intros s' Hs'. apply list_elem_of_singleton in Hs'. subst s'.
      split; [exact (candidates_are_valid _ _ Hmem Hin) | exact Hav].
    + unfold Solver.run_selected.
      destruct (Solver.run env s) as [[status term]|] eqn:Hrun; [|discriminate].
      destruct (String.eqb (Py.lower term) "infeasible"); [discriminate|].
      destruct (Py.mem (Py.lower term) ["optimal"; "feasible"]%string) eqn:Hterm;
        simpl; [|discriminate].
      intros _. exists s, status, term. repeat split; first [reflexivity | assumption].
  - destruct Hres as [Hout Hcalls]. rewrite Hcalls, Hout.
    split; [simpl; lia|]. split; [intros s Hs; inversion Hs | discriminate].
Qed.

(** X12: every substitution is logged: for a valid request the warnings are
    exactly one per step from a backend that was not available to the next
    one tried, each naming both, in the order the factory was asked. *)
Theorem every_fallback_is_logged
    (env : Solver.Env) (config : Solver.SolverConfig) :
  Py.mem (Solver.requested_solver config) Solver.valid_solvers = true ->
  let res := Solver.solve_model env config in
  warning_calls res.2 = substitutions (factory_calls res.2)
  /\ length (warning_calls res.2) = Nat.pred (length (factory_calls res.2)).
Proof.
  intros Hmem res. destruct (solve_model_valid env config Hmem) as (_ & Hw & _).
  fold res in Hw. split; [exact Hw|]. rewrite Hw.
  generalize (factory_calls res.2). intros l.
  induction l as [|a [|b l] IH]; simpl in *; [reflexivity | reflexivity |].
  rewrite IH. reflexivity.
Qed.

Lemma every_fallback_is_logged_witness :
  warning_calls (Solver.solve_model env_highs_only (config_of "gurobi")).2
  = substitutions (factory_calls (Solver.solve_model env_highs_only (config_of "gurobi")).2)
  /\ length (warning_calls (Solver.solve_model env_highs_only (config_of "gurobi")).2)
     = Nat.pred (length (factory_calls
                           (Solver.solve_model env_highs_only (config_of "gurobi")).2)).
Proof.
  refine (every_fallback_is_logged env_highs_only (config_of "gurobi") _).
  vm_compute. reflexivity.
Defined.

(** ** Strings *)

Section Strip.

Lemma rstrip_idempotent (s : string) : Py.rstrip (Py.rstrip s) = Py.rstrip s.
Proof.
  induction s as [|c s IH]; simpl.
  - reflexivity.
  - destruct (Py.rstrip s) as [|c' r] eqn:Hr.
    + destruct (Py.is_space c) eqn:Hc; simpl.
      * reflexivity.
      * rewrite Hc. reflexivity.
    + simpl. simpl in IH. rewrite IH. reflexivity.
Qed.

Lemma lstrip_head (s : string) :
  match Py.lstrip s with
  | EmptyString => True
  | String c _ => Py.is_space c = false
  end.
Proof.
  induction s as [|c s IH]; simpl.
  - exact I.
  - destruct (Py.is_space c) eqn:Hc; [exact IH | simpl; exact Hc].
Qed.

Lemma lstrip_rstrip_fixed (s : string) :
  match s with EmptyString => True | String c _ => Py.is_space c = false end ->
  Py.lstrip (Py.rstrip s) = Py.rstrip s.
Proof.
  destruct s as [|c s]; simpl.
  - reflexivity.
  - intros Hc. destruct (Py.rstrip s); rewrite ?Hc; simpl; rewrite Hc; reflexivity.
Qed.

Lemma strip_idempotent (s : string) : Py.strip (Py.strip s) = Py.strip s.
Proof.
  unfold Py.strip. rewrite (lstrip_rstrip_fixed _ (lstrip_head s)).
  apply rstrip_idempotent.
Qed.

Lemma truthy_iff (s : string) : Py.truthy s = true <-> s <> EmptyString.
Proof. destruct s; simpl; split; congruence. Qed.

End Strip.

(** ** The settings validator *)

Section Validator.

Import UncertaintyService.

Lemma validate_step_ok (st st' : list string * Q) (s : ScenarioDoc) :
  validate_step st s = Ok st' <->
  well_formed_doc s
  /\ st' = (st.1 ++ [ScenarioGenerator.name (normalize s)],
            st.2 + ScenarioGenerator.probability (normalize s)).
Proof.
  destruct st as [names total_p]. unfold validate_step, well_formed_doc, normalize. simpl.
  destruct (Py.strip (DataLoader.or_empty (sc_name s))) as [|c nm] eqn:Hname; simpl.
  { split; [discriminate|]. intros [[H _] _]. contradiction. }
  destruct (sc_probability s) as [| |p|]; simpl;
    try (split; [discriminate | intros [(_ & (p' & Hp & _) & _) _]; discriminate]).
  destruct (Py.lt p 0) eqn:Hp0.
  { split; [discriminate|]. intros [(_ & (p' & Hp & Hpos) & _) _].
    inversion Hp; subst p'. apply Qle_bool_iff in Hpos. unfold Py.lt in Hp0.
    rewrite Hpos in Hp0. discriminate. }
  destruct (sc_demand_multiplier s) as [| |x|]; simpl;
    try (split; [discriminate | intros [(_ & _ & (x' & Hx & _)) _]; discriminate]).
  destruct (Py.lt x 0) eqn:Hx0.
  { split; [discriminate|]. intros [(_ & _ & (x' & Hx & Hpos)) _].
    inversion Hx; subst x'. apply Qle_bool_iff in Hpos. unfold Py.lt in Hx0.
    rewrite Hpos in Hx0. discriminate. }
  apply lt_false_le in Hp0, Hx0. split.
  - intros H. inversion H; subst. split; [|reflexivity].
    split; [discriminate|]. split; eexists; split; try reflexivity; assumption.
  - intros [_ ->]. reflexivity.
Qed.

Lemma validate_loop_ok (l : list ScenarioDoc) (st st' : list string * Q) :
  for_each l validate_step st = Ok st' <->
  Forall well_formed_doc l
  /\ st' = (st.1 ++ map (fun s => ScenarioGenerator.name (normalize s)) l,
            fold_left Qplus (map (fun s => ScenarioGenerator.probability (normalize s)) l) st.2).
Proof.
  revert st. induction l as [|s l IH]; intros st; simpl.
  - rewrite app_nil_r. destruct st. split.
    + intros H. inversion H. split; [constructor | reflexivity].
    + intros [_ ->]. reflexivity.
  - unfold mbind, result_bind.
    destruct (validate_step st s) as [st1|e] eqn:Hstep.
    + apply validate_step_ok in Hstep as [Hwf ->]. rewrite IH. simpl.
      rewrite <- app_assoc. simpl. split.
      * intros [Hall ->]. split; [constructor; assumption | reflexivity].
      * intros [Hall ->]. split; [inversion Hall; assumption | reflexivity].
    + split; [discriminate|]. intros [Hall _]. inversion Hall as [|? ? Hwf _]; subst.
      assert (Hok : validate_step st s
                    = Ok (st.1 ++ [ScenarioGenerator.name (normalize s)],
                          st.2 + ScenarioGenerator.probability (normalize s)))
        by (apply validate_step_ok; split; [exact Hwf | reflexivity]).
      congruence.
Qed.

End Validator.

(** When the validator answers [True]. *)
Lemma validate_settings_true_iff (docs : list UncertaintyService.ScenarioDoc) :
  (UncertaintyService._validate_settings docs).1 = true <->
  docs <> []
  /\ Forall well_formed_doc docs
  /\ NoDup (map (fun s => ScenarioGenerator.name (UncertaintyService.normalize s)) docs)
  /\ Qabs (Py.sum (map (fun s => ScenarioGenerator.probability
                                   (UncertaintyService.normalize s)) docs) - 1)
     <= 1 # 1000000.
Proof.
  unfold UncertaintyService._validate_settings.
  destruct docs as [|d docs]; [simpl; split; [discriminate | intros [H _]; contradiction]|].
  set (l := d :: docs).
  destruct (for_each l UncertaintyService.validate_step ([], 0)) as [st|e] eqn:Hrun.
  - apply validate_loop_ok in Hrun as [Hall ->]. cbn [fst snd app]. cbv beta iota.
    fold (Py.sum (map (fun s => ScenarioGenerator.probability
                                  (UncertaintyService.normalize s)) l)).
    destruct (ScenarioGenerator.distinct_count _ =? length _)%nat eqn:Hlen; cbn [negb fst].
    + apply Nat.eqb_eq in Hlen. symmetry in Hlen. apply distinct_count_NoDup in Hlen.
      destruct (Py.gt _ _) eqn:Hgt; cbn [fst].
      * split; [discriminate|]. intros (_ & _ & _ & Habs).
        apply gt_false_iff in Habs. congruence.
      * apply gt_false_iff in Hgt. split; [|reflexivity]. intros _.
        split; [discriminate|]. split; [exact Hall|]. split; [exact Hlen | exact Hgt].
    + apply Nat.eqb_neq in Hlen. split; [discriminate|]. intros (_ & _ & Hnd & _).
      apply distinct_count_NoDup in Hnd. congruence.
  - simpl. split; [discriminate|]. intros (_ & Hall & _).
    assert (Hok : for_each l UncertaintyService.validate_step ([], 0)
                  = Ok ([] ++ map (fun s => ScenarioGenerator.name
                                              (UncertaintyService.normalize s)) l,
                        fold_left Qplus
                          (map (fun s => ScenarioGenerator.probability
                                           (UncertaintyService.normalize s)) l) 0))
      by (apply validate_loop_ok; split; [exact Hall | reflexivity]).
    congruence.
Qed.

(** X17: the validator accepts a scenario list exactly when it is not empty,
    every scenario has a non-blank name and a non-negative numeric
    probability and multiplier, the stripped names are pairwise different,
    and all the probabilities together sum to 1 within 1e-6. *)
Theorem validator_accepts_exactly (docs : list UncertaintyService.ScenarioDoc) :
  (UncertaintyService._validate_settings docs).1 = true <->
  docs <> []
  /\ Forall well_formed_doc docs
  /\ NoDup (map (fun s => ScenarioGenerator.name (UncertaintyService.normalize s)) docs)
  /\ Qabs (Py.sum (map (fun s => ScenarioGenerator.probability
                                   (UncertaintyService.normalize s)) docs) - 1)
     <= 1 # 1000000.
Proof.
  exact (validate_settings_true_iff docs).
Qed.

Lemma normalized_well_named (docs : list UncertaintyService.ScenarioDoc) :
  Forall well_formed_doc docs -> well_named (map UncertaintyService.normalize docs).
Proof.
  intros Hall. unfold well_named. rewrite Forall_map.
  eapply Forall_impl; [exact Hall|]. intros s (Hname & _). cbn.
  split; [apply strip_idempotent | exact Hname].
Qed.

Lemma normalized_acceptable (docs : list UncertaintyService.ScenarioDoc) :
  Forall well_formed_doc docs ->
  NoDup (map (fun s => ScenarioGenerator.name (UncertaintyService.normalize s)) docs) ->
  Qabs (Py.sum (map (fun s => ScenarioGenerator.probability
                                (UncertaintyService.normalize s)) docs) - 1)
    <= 1 # 1000000 ->
  acceptable (map UncertaintyService.normalize docs).
Proof.
  intros Hall Hnd Hsum. unfold acceptable. rewrite !map_map, !Forall_map.
  split; [exact Hnd|]. split; [|split; [|exact Hsum]].
  - eapply Forall_impl; [exact Hall|]. intros s (_ & (p & Hp & Hpos) & _).
    cbn. rewrite Hp. exact Hpos.
  - eapply Forall_impl; [exact Hall|]. intros s (_ & _ & (x & Hx & Hpos)).
    cbn. rewrite Hx. exact Hpos.
Qed.

(** X18: whatever scenario list [get_scenarios_for_optimization] hands to the
    optimizer is one the scenario generator accepts, on any base dataset;
    the generated demand of a scenario is its multiplier times the baseline
    demand. *)
Theorem validated_scenarios_are_generated (base : DataLoader.OptimizationData)
    (settings : UncertaintyService.Settings) (msg : string) (enabled : bool)
    (scs : list ScenarioGenerator.DemandScenario) :
  UncertaintyService.get_scenarios_for_optimization settings = (true, msg, enabled, scs) ->
  exists r,
    ScenarioGenerator.generate_demand_scenarios base scs = Ok r
    /\ ScenarioGenerator.scenario_names r = map ScenarioGenerator.name scs
    /\ forall s p t, s ∈ scs -> p ∈ DataLoader.plant_ids base ->
         t ∈ DataLoader.months base ->
         ScenarioGenerator.sd_demand r !! (ScenarioGenerator.name s, p, t)
         = Some (scenario_demand base s p t).
Proof.
  unfold UncertaintyService.get_scenarios_for_optimization.
  destruct (UncertaintyService._validate_settings (UncertaintyService.scenarios settings))
    as [ok m] eqn:Hval.
  destruct ok; cbn [negb]; [|discriminate].
  intros Heq. inversion Heq; subst msg enabled scs; clear Heq.
  assert (Hok : (UncertaintyService._validate_settings
                   (UncertaintyService.scenarios settings)).1 = true)
    by (rewrite Hval; reflexivity).
  apply validate_settings_true_iff in Hok as (_ & Hall & Hnd & Hsum).
  set (l := map UncertaintyService.normalize (UncertaintyService.scenarios settings)).
  pose proof (normalized_well_named _ Hall) as Hwn. fold l in Hwn.
  pose proof (normalized_acceptable _ Hall Hnd Hsum) as Hacc. fold l in Hacc.
  destruct (generator_contract base l Hwn) as [Hiff Hdem].
  apply Hiff in Hacc.
  destruct (ScenarioGenerator.generate_demand_scenarios base l) as [r|e] eqn:Hgen;
    [|discriminate Hacc].
  exists r. split; [reflexivity|]. split; [|exact (Hdem r eq_refl)].
  revert Hgen. unfold ScenarioGenerator.generate_demand_scenarios.
  rewrite (names_of_well_named l Hwn).
  destruct (decide (l = [])); [discriminate|].
  destruct (negb _); [discriminate|]. unfold mbind, result_bind.
  destruct (for_each l ScenarioGenerator.prob_step ∅); [|discriminate].
  destruct (Py.gt _ _); [discriminate|].
  destruct (for_each l (ScenarioGenerator.demand_step base) ∅); [|discriminate].
  intros H. inversion H. reflexivity.
Qed.

Lemma validated_scenarios_are_generated_witness :
  exists r,
    ScenarioGenerator.generate_demand_scenarios data1 three_scenarios = Ok r
    /\ ScenarioGenerator.scenario_names r = map ScenarioGenerator.name three_scenarios
    /\ forall s p t, s ∈ three_scenarios -> p ∈ DataLoader.plant_ids data1 ->
         t ∈ DataLoader.months data1 ->
         ScenarioGenerator.sd_demand r !! (ScenarioGenerator.name s, p, t)
         = Some (scenario_demand data1 s p t).
Proof.
  refine (validated_scenarios_are_generated data1 default_settings EmptyString false
            three_scenarios _).
  vm_compute. reflexivity.
Defined.

(** ** Integral trip counts *)

Section Rounding.

Lemma round_integer (x : Q) : ModelBuilder.is_integer x -> inject_Z (Py.round x) == x.
Proof.
  unfold ModelBuilder.is_integer, Py.round. intros Hx.
  assert (Hd : x - inject_Z (Qfloor x) == 0) by (rewrite Hx; ring).
  assert (Hlt : Py.lt (x - inject_Z (Qfloor x)) (1 # 2) = true).
  { unfold Py.lt. apply negb_true_iff. destruct (Qle_bool _ _) eqn:Hle; [|reflexivity].
    apply Qle_bool_iff in Hle. rewrite Hd in Hle. exfalso. revert Hle. apply Qlt_not_le.
    reflexivity. }
  rewrite Hlt. exact Hx.
Qed.

End Rounding.

(** X14: when the solved trip counts are whole numbers, as their domain
    requires, the transport component can be audited from the emitted rows
    alone: trips times cost per trip over the transport rows is the
    transport cost of the breakdown. *)
Theorem transport_cost_from_rows
    (TotalCost : Model -> Values -> Q)
    (m : Model) (v : Values) (plant_names : gmap string string) :
  (forall r t, In (r, t) (list_prod (Pyomo.R m) (Pyomo.T m)) ->
     ModelBuilder.is_integer (Pyomo.Trips v r t)) ->
  Py.sum (map (fun row => inject_Z (ResultParser.sr_trips row)
                          * Pyomo.RouteCost m (ResultParser.sr_from_id row,
                                               ResultParser.sr_to_id row,
                                               ResultParser.sr_mode row))
              (ResultParser.transport_df
                 (ResultParser.parse_results TotalCost m v plant_names)))
  == ResultParser.transport (ResultParser.cost_breakdown
                               (ResultParser.parse_results TotalCost m v plant_names)).
Proof.
  cbn [ResultParser.parse_results ResultParser.transport_df ResultParser.cost_breakdown
       ResultParser.transport].
  unfold ResultParser.ship_rows, ResultParser.trans_cost, ResultParser._safe_value.
  induction (list_prod (Pyomo.R m) (Pyomo.T m)) as [|[[[i j] k] t] l IH]; intros Hint.
  - reflexivity.
  - cbn [flat_map map]. rewrite map_app, sum_app, sum_cons, IH
      by (intros r' t' Hin; apply Hint; right; exact Hin).
    destruct (Py.ne (Pyomo.Ship v (i, j, k) t) 0 || Py.ne (Pyomo.Trips v (i, j, k) t) 0)
      eqn:Hne.
    + cbn [map ResultParser.sr_trips ResultParser.sr_from_id ResultParser.sr_to_id
           ResultParser.sr_mode].
      rewrite sum_cons, sum_nil, round_integer by (apply Hint; left; reflexivity).
      unfold plant. ring.
    + apply orb_false_iff in Hne as [_ Hne]. unfold Py.ne in Hne.
      apply negb_false_iff, Qeq_bool_iff in Hne. cbn [map]. rewrite sum_nil, Hne. ring.
Qed.

Lemma transport_cost_from_rows_witness :
  Py.sum (map (fun row => inject_Z (ResultParser.sr_trips row)
                          * Pyomo.RouteCost model1 (ResultParser.sr_from_id row,
                                                    ResultParser.sr_to_id row,
                                                    ResultParser.sr_mode row))
              (ResultParser.transport_df
                 (ResultParser.parse_results Objective.total_cost_rule model1 values1 ∅)))
  == ResultParser.transport
       (ResultParser.cost_breakdown
          (ResultParser.parse_results Objective.total_cost_rule model1 values1 ∅)).
Proof.
  refine (transport_cost_from_rows Objective.total_cost_rule model1 values1 ∅ _).
  intros r t _. vm_compute. reflexivity.
Defined.

(** ** Utilization of the trips made *)

Section Percentages.

Lemma percent_of_part (a b : Q) : 0 <= a -> a <= b -> 0 < b ->
  0 <= a / b * 100 /\ a / b * 100 <= 100.
Proof.
  intros Ha Hab Hb.
  assert (Hq0 : 0 <= a / b) by (apply Qle_shift_div_l; lra).
  assert (Hq1 : a / b <= 1) by (apply Qle_shift_div_r; lra).
  split; lra.
Qed.

End Percentages.

(** X19: for a plan that meets the trip-capacity constraint with whole,
    non-negative trip counts and non-negative shipments, every transport
    utilization computed from the stored transport rows lies between 0 and
    100 percent. *)
Theorem transport_utilization_within_bounds
    (TotalCost : Model -> Values -> Q)
    (m : Model) (v : Values) (plant_names : gmap string string)
    (route_capacity_per_trip : gmap route Q) :
  ModelBuilder.in_domains m v ->
  (forall r t, r ∈ Pyomo.R m -> t ∈ Pyomo.T m ->
     rule_holds (Constraints.trip_capacity_rule m v r t)) ->
  (forall r, r ∈ Pyomo.R m -> Py.get route_capacity_per_trip r 0 == Pyomo.RouteCap m r) ->
  Forall (fun u => 0 <= Utilization.tu_utilization_percent u
                   /\ Utilization.tu_utilization_percent u <= 100)
    (Utilization.transport_utilization_rows
       (ResultParser.transport_df (ResultParser.parse_results TotalCost m v plant_names))
       plant_names route_capacity_per_trip).
Proof.
  intros [_ Hdom] Hcap Hget. unfold Utilization.transport_utilization_rows.
  rewrite Forall_map. apply Forall_forall. intros row Hin.
  cbn [ResultParser.parse_results ResultParser.transport_df] in Hin.
  apply list_elem_of_In, in_ship_rows in Hin as ([[i j] k] & t & Hrt & _ & ->).
  apply in_prod_iff in Hrt as [Hr Ht]. apply list_elem_of_In in Hr, Ht.
  destruct (Hdom _ _ Hr Ht) as (Hship & Htrips & Hint & _).
  specialize (Hcap _ _ Hr Ht). cbn in Hcap. specialize (Hget _ Hr).
  cbn [ship_row_of ResultParser.sr_trips ResultParser.sr_from_id ResultParser.sr_to_id
       ResultParser.sr_mode ResultParser.sr_shipment Utilization.tu_utilization_percent].
  match goal with |- context [Py.gt ?d 0] => set (denom := d) end.
  assert (Hden : denom == Pyomo.Trips v (i, j, k) t * Pyomo.RouteCap m (i, j, k)).
  { unfold denom. rewrite (round_integer _ Hint), Hget. reflexivity. }
  destruct (Py.gt denom 0) eqn:Hgt.
  - apply gt_true_lt in Hgt. apply percent_of_part; [exact Hship | rewrite Hden; exact Hcap | exact Hgt].
  - split; lra.
Qed.

Lemma transport_utilization_within_bounds_witness :
  Forall (fun u => 0 <= Utilization.tu_utilization_percent u
                   /\ Utilization.tu_utilization_percent u <= 100)
    (Utilization.transport_utilization_rows
       (ResultParser.transport_df
          (ResultParser.parse_results Objective.total_cost_rule model1 values1 ∅))
       ∅ (DataLoader.transport_capacity_per_trip data1)).
Proof.
  refine (transport_utilization_within_bounds Objective.total_cost_rule model1 values1 ∅
            (DataLoader.transport_capacity_per_trip data1) model1_in_domains _ _).
  - intros r t Hr Ht. vm_compute. discriminate.
  - intros r Hr. cbn in Hr. in_list. vm_compute. reflexivity.
Defined.

(** ** The resilience score as a percentage *)

Section Means.

Lemma sum_bounds (a b : Q) (l : list Q) :
  Forall (fun x => a <= x /\ x <= b) l ->
  inject_Z (Z.of_nat (length l)) * a <= Py.sum l
  /\ Py.sum l <= inject_Z (Z.of_nat (length l)) * b.
Proof.
  induction 1 as [|x l [Hax Hxb] _ [IHa IHb]].
  - rewrite sum_nil. change (inject_Z (Z.of_nat (@length Q []))) with 0. split; lra.
  - rewrite sum_cons. cbn [length]. rewrite Nat2Z.inj_succ. unfold Z.succ.
    rewrite inject_Z_plus. change (inject_Z 1) with 1. split; lra.
Qed.

Lemma mean_bounds (a b : Q) (l : list Q) :
  l <> [] -> Forall (fun x => a <= x /\ x <= b) l ->
  a <= Analytics.mean l /\ Analytics.mean l <= b.
Proof.
  intros Hne Hall. unfold Analytics.mean.
  assert (Hn : 0 < inject_Z (Z.of_nat (length l))).
  { destruct l; [contradiction|]. cbn [length]. rewrite Nat2Z.inj_succ.
    change 0 with (inject_Z 0). rewrite <- Zlt_Qlt. lia. }
  destruct (sum_bounds a b l Hall) as [Ha Hb]. split.
  - apply Qle_shift_div_l; [exact Hn|]. lra.
  - apply Qle_shift_div_r; [exact Hn|]. lra.
Qed.

Lemma mean_nonneg (l : list Q) :
  l <> [] -> Forall (fun x => 0 <= x) l -> 0 <= Analytics.mean l.
Proof.
  intros Hne Hall. unfold Analytics.mean.
  assert (Hn : 0 < inject_Z (Z.of_nat (length l))).
  { destruct l; [contradiction|]. cbn [length]. rewrite Nat2Z.inj_succ.
    change 0 with (inject_Z 0). rewrite <- Zlt_Qlt. lia. }
  apply Qle_shift_div_l; [exact Hn|]. rewrite Qmult_0_l.
  clear Hne Hn. induction Hall as [|x l Hx _ IH].
  - rewrite sum_nil. lra.
  - rewrite sum_cons. lra.
Qed.

Lemma headroom_bounds (df : list Q) (h : Q) :
  Forall (fun x => 0 <= x) df ->
  (Analytics._avg_headroom df).2 = Some h -> 0 <= h /\ h <= 100.
Proof.
  intros Hall. destruct df as [|x df]; [discriminate|].
  cbn [Analytics._avg_headroom snd]. intros H. inversion H; subst h; clear H.
  pose proof (mean_nonneg (x :: df) ltac:(discriminate) Hall) as Hm.
  unfold Py.max. destruct (Py.gt _ _) eqn:Hgt.
  - apply gt_true_lt in Hgt. split; lra.
  - split; lra.
Qed.

End Means.

(** X20: with a service level between 0 and 100 and utilization tables without
    negative entries, the resilience score lies between 0 and 100, whichever
    of the three utilization tables are empty. *)
Theorem resilience_score_within_bounds
    (service_level : Q) (prod_df storage_df trans_df : list Q) :
  0 <= service_level -> service_level <= 100 ->
  Forall (fun x => 0 <= x) prod_df ->
  Forall (fun x => 0 <= x) storage_df ->
  Forall (fun x => 0 <= x) trans_df ->
  0 <= (Analytics.resilience service_level prod_df storage_df trans_df).1
  /\ (Analytics.resilience service_level prod_df storage_df trans_df).1 <= 100.
Proof.
  intros Hs0 Hs1 Hp Hst Ht. unfold Analytics.resilience. cbn [fst].
  unfold Analytics.resilience_score, Analytics.resilience_components,
    Analytics.component_values.
  pose proof (headroom_bounds prod_df) as Bp.
  pose proof (headroom_bounds storage_df) as Bs.
  pose proof (headroom_bounds trans_df) as Bt.
  set (vals := omap id _).
  assert (Hall : Forall (fun x => 0 <= x /\ x <= 100) vals).
  { unfold vals. cbn [omap list_omap id mbind option_bind].
    apply Forall_cons; split; [split; assumption|].
    destruct ((Analytics._avg_headroom prod_df).2) as [hp|];
    destruct ((Analytics._avg_headroom storage_df).2) as [hs|];
    destruct ((Analytics._avg_headroom trans_df).2) as [ht|]; cbn;
    repeat (apply Forall_cons; split;
            [solve [apply Bp; auto | apply Bs; auto | apply Bt; auto]|]);
    constructor. }
  assert (Hne : vals <> []) by (unfold vals; cbn; discriminate).
  destruct vals as [|x vals'] eqn:Hv; [contradiction|].
  exact (mean_bounds 0 100 (x :: vals') Hne Hall).
Qed.

Lemma resilience_score_within_bounds_witness :
  0 <= (Analytics.resilience 90 [50] [] [120; 80]).1
  /\ (Analytics.resilience 90 [50] [] [120; 80]).1 <= 100.
Proof.
  refine (resilience_score_within_bounds 90 [50] [] [120; 80] _ _ _ _ _).
  - vm_compute. discriminate.
  - vm_compute. discriminate.
  - repeat constructor; vm_compute; discriminate.
  - constructor.
  - repeat constructor; vm_compute; discriminate.
Defined.

(** ** Inventory across scenarios *)

Section ScenarioBalance.

Lemma index_middle (pre post : list period) (t : period) :
  t ∉ pre -> StochasticFlow.index t (pre ++ t :: post) = Some (length pre).
Proof.
  induction pre as [|x pre IH]; intros Ht; simpl.
  - rewrite String.eqb_refl. reflexivity.
  - destruct (String.eqb x t) eqn:Hx.
    + apply String.eqb_eq in Hx. subst x. exfalso. apply Ht. left.
    + rewrite IH by (intros H; apply Ht; right; exact H). reflexivity.
Qed.

(** The period at position [idx - 1] is the one just before. *)
Lemma index_prev_is_last (pre post : list period) (t : period) :
  pre <> [] -> (pre ++ t :: post) !! (length pre - 1)%nat = last pre.
Proof.
  intros Hne. destruct pre as [|x pre _] using rev_ind; [contradiction|].
  rewrite last_snoc, length_app. simpl.
  replace (length pre + 1 - 1)%nat with (length pre) by lia.
  rewrite <- app_assoc. simpl. apply list_lookup_middle. reflexivity.
Qed.

Lemma stochastic_balance_step (InitialInv : plant -> Q) (m : StochasticModel.SModel)
    (v : StochasticModel.SValues) (s : string) (p : plant)
    (pre post : list period) (t : period) :
  StochasticModel.T m = pre ++ t :: post -> NoDup (StochasticModel.T m) ->
  rule_holds (StochasticFlow.inv_balance_rule InitialInv m v s p t) ->
  StochasticModel.Inv v s p t
  == match last pre with
     | None => InitialInv p
     | Some t0 => StochasticModel.Inv v s p t0
     end
     + StochasticModel.Prod v p t + StochasticFlow.inbound m v p t
     - StochasticFlow.outbound m v p t - StochasticModel.Demand m s p t.
Proof.
  intros HT Hnd. unfold StochasticFlow.inv_balance_rule. rewrite HT in *.
  assert (Ht : t ∉ pre).
  { apply NoDup_app in Hnd as (_ & Hd & _). intros Hin. apply (Hd t Hin). left. }
  rewrite (index_middle pre post t Ht).
  destruct pre as [|x pre].
  - simpl. intros H. exact H.
  - replace (length (x :: pre) =? 0)%nat with false by reflexivity.
    rewrite (index_prev_is_last (x :: pre) post t) by discriminate.
    destruct (last (x :: pre)) as [t0|] eqn:Hl.
    + simpl. intros H. exact H.
    + apply last_None in Hl. discriminate.
Qed.

End ScenarioBalance.

(** The balances of two scenarios subtracted: the shared terms cancel. *)
Lemma scenario_gap_chain
    (InitialInv : plant -> Q) (m : StochasticModel.SModel) (v : StochasticModel.SValues)
    (s1 s2 : string) (p : plant) (pre post : list period) (t : period) :
  StochasticModel.T m = pre ++ t :: post ->
  NoDup (StochasticModel.T m) ->
  (forall s t', s ∈ [s1; s2] -> t' ∈ pre ++ [t] ->
     rule_holds (StochasticFlow.inv_balance_rule InitialInv m v s p t')) ->
  StochasticModel.Inv v s1 p t - StochasticModel.Inv v s2 p t
  == Py.sum (map (fun t' => StochasticModel.Demand m s2 p t'
                            - StochasticModel.Demand m s1 p t') (pre ++ [t])).
Proof.
  intros HT Hnd Hbal.
  assert (Hgap : forall pre' post' t', StochasticModel.T m = pre' ++ t' :: post' ->
            t' ∈ pre ++ [t] ->
            StochasticModel.Inv v s1 p t' - StochasticModel.Inv v s2 p t'
            == match last pre' with
               | None => 0
               | Some t0 => StochasticModel.Inv v s1 p t0 - StochasticModel.Inv v s2 p t0
               end + (StochasticModel.Demand m s2 p t' - StochasticModel.Demand m s1 p t')).
  { intros pre' post' t' HT' Hin.
    pose proof (stochastic_balance_step InitialInv m v s1 p pre' post' t' HT' Hnd
                  (Hbal s1 t' ltac:(left) Hin)) as H1.
    pose proof (stochastic_balance_step InitialInv m v s2 p pre' post' t' HT' Hnd
                  (Hbal s2 t' ltac:(right; left) Hin)) as H2.
    rewrite H1, H2. destruct (last pre'); ring. }
  clear Hbal. rewrite HT in *. clear HT.
  revert t post Hnd Hgap. induction pre as [|t0 pre IH] using rev_ind; intros t post Hnd Hgap.
  - rewrite (Hgap [] post t eq_refl (list_elem_of_here _ _)). cbn [last app map].
    rewrite sum_cons, sum_nil. ring.
  - assert (Hnd' : NoDup (pre ++ t0 :: t :: post)) by (rewrite <- app_assoc in Hnd; exact Hnd).
    assert (Hprev : StochasticModel.Inv v s1 p t0 - StochasticModel.Inv v s2 p t0
                    == Py.sum (map (fun t' => StochasticModel.Demand m s2 p t'
                                              - StochasticModel.Demand m s1 p t')
                                   (pre ++ [t0]))).
    { apply (IH t0 (t :: post) Hnd'). intros pre' post' t' HT' Hin.
      apply (Hgap pre' post' t').
      - rewrite <- app_assoc. exact HT'.
      - apply elem_of_app. left. exact Hin. }
    rewrite (Hgap (pre ++ [t0]) post t eq_refl) by (apply elem_of_app; right; left).
    rewrite last_snoc, Hprev.
    rewrite (map_app _ (pre ++ [t0]) [t]), sum_app. cbn [map]. rewrite sum_cons, sum_nil. ring.
Qed.


(** X21: production and shipments are shared by all scenarios, so on
    distinct periods two scenarios can only differ in stock by what they
    differ in demand: the gap between their closing stocks at a plant is
    the accumulated gap between their demands there, the other way round. *)
Theorem scenario_stock_gap_is_demand_gap
    (InitialInv : plant -> Q) (m : StochasticModel.SModel) (v : StochasticModel.SValues)
    (s1 s2 : string) (p : plant) (pre post : list period) (t : period) :
  StochasticModel.T m = pre ++ t :: post ->
  NoDup (StochasticModel.T m) ->
  (forall s t', s ∈ [s1; s2] -> t' ∈ pre ++ [t] ->
     rule_holds (StochasticFlow.inv_balance_rule InitialInv m v s p t')) ->
  StochasticModel.Inv v s1 p t - StochasticModel.Inv v s2 p t
  == Py.sum (map (fun t' => StochasticModel.Demand m s2 p t'
                            - StochasticModel.Demand m s1 p t') (pre ++ [t])).
Proof.
  exact (scenario_gap_chain InitialInv m v s1 s2 p pre post t).
Qed.

Lemma scenario_stock_gap_is_demand_gap_witness :
  StochasticModel.Inv svalues1 "Low" "B" "1" - StochasticModel.Inv svalues1 "Normal" "B" "1"
  == Py.sum (map (fun t' => StochasticModel.Demand smodel1 "Normal" "B" t'
                            - StochasticModel.Demand smodel1 "Low" "B" t')
                 ([] ++ ["1"%string])).
Proof.
  refine (scenario_stock_gap_is_demand_gap
            (fun p => Py.get (DataLoader.initial_inventory data1) p 0)
            smodel1 svalues1 "Low" "Normal" "B" [] [] "1" _ _ _)%string.
  - reflexivity.
  - cbn. distinct.
  - intros s t' Hs Ht'. cbn in Ht'. in_list; vm_compute; reflexivity.
Defined.

(** X22: for the stochastic model built from generated scenarios, the gap
    between the closing stocks of two scenarios at a plant is the gap
    between their demand multipliers, the other way round, times the
    baseline demand of that plant accumulated up to the period. *)
Theorem generated_scenarios_stock_gap
    (base : DataLoader.OptimizationData) (l : list ScenarioGenerator.DemandScenario)
    (scen : ScenarioGenerator.ScenarioDemandData)
    (InitialInv : plant -> Q) (v : StochasticModel.SValues)
    (s1 s2 : ScenarioGenerator.DemandScenario) (p : plant)
    (pre post : list period) (t : period) :
  well_named l ->
  ScenarioGenerator.generate_demand_scenarios base l = Ok scen ->
  s1 ∈ l -> s2 ∈ l -> p ∈ DataLoader.plant_ids base ->
  DataLoader.months base = pre ++ t :: post -> NoDup (DataLoader.months base) ->
  (forall s t', s ∈ [ScenarioGenerator.name s1; ScenarioGenerator.name s2] ->
     t' ∈ pre ++ [t] ->
     rule_holds (StochasticFlow.inv_balance_rule InitialInv
                   (StochasticModel.build_stochastic_model base scen) v s p t')) ->
  StochasticModel.Inv v (ScenarioGenerator.name s1) p t
  - StochasticModel.Inv v (ScenarioGenerator.name s2) p t
  == (ScenarioGenerator.demand_multiplier s2 - ScenarioGenerator.demand_multiplier s1)
     * Py.sum (map (fun t' => Py.get (DataLoader.demand base) (p, t') 0) (pre ++ [t])).
Proof.
  intros Hwn Hgen Hs1 Hs2 Hp HT Hnd Hbal.
  rewrite (scenario_gap_chain InitialInv (StochasticModel.build_stochastic_model base scen)
             v _ _ p pre post t HT Hnd Hbal).
  rewrite <- sum_map_scale. apply sum_map_ext. intros t' Ht'.
  assert (Hin : t' ∈ DataLoader.months base).
  { rewrite HT. apply list_elem_of_In in Ht'. apply elem_of_app in Ht' as [H|H].
    - apply elem_of_app. left. exact H.
    - apply elem_of_app. right. apply list_elem_of_singleton in H. subst t'. left. }
  destruct (generator_contract base l Hwn) as [_ Hdem].
  pose proof (Hdem scen Hgen s1 p t' Hs1 Hp Hin) as H1.
  pose proof (Hdem scen Hgen s2 p t' Hs2 Hp Hin) as H2.
  cbn [StochasticModel.build_stochastic_model StochasticModel.Demand].
  unfold scenario_demand, Py.get, plant, period in *. rewrite H1, H2. ring.
Qed.

Lemma generated_scenarios_stock_gap_witness :
  StochasticModel.Inv svalues1 "Low" "B" "1" - StochasticModel.Inv svalues1 "Normal" "B" "1"
  == (1 - 0.9) * Py.sum (map (fun t' => Py.get (DataLoader.demand data1) ("B"%string, t') 0)
                             ([] ++ ["1"%string])).
Proof.
  refine (generated_scenarios_stock_gap data1 three_scenarios generated1
            (fun p => Py.get (DataLoader.initial_inventory data1) p 0) svalues1
            {| ScenarioGenerator.name := "Low"; ScenarioGenerator.probability := 0.2;
               ScenarioGenerator.demand_multiplier := 0.9 |}
            {| ScenarioGenerator.name := "Normal"; ScenarioGenerator.probability := 0.6;
               ScenarioGenerator.demand_multiplier := 1 |}
            "B" [] [] "1" _ _ _ _ _ _ _ _)%string.
  - repeat constructor; discriminate.
  - vm_compute. reflexivity.
  - left.
  - right. left.
  - right. left.
  - reflexivity.
  - cbn. distinct.
  - intros s t' Hs Ht'. cbn in Hs, Ht'. in_list; vm_compute; reflexivity.
Defined.

(** ** The simple feasible model and its parser *)

(** X23: for a run of the simple feasible model, the objective value read
    back is the production, transport and demand-penalty components of the
    breakdown, transport being cost per trip times the shipped quantity; the
    holding component, 50 per unit of closing stock, is not part of that
    objective, so the four components add up to the objective value plus the
    holding component. *)
Theorem simple_breakdown_counts_holding_on_top
    (data : SimpleFeasible.SimpleFeasibleData) (v : SimpleFeasible.SimpleValues)
    (plant_names : gmap string string) :
  let m := SimpleFeasible.build_simple_feasible_model data in
  let r := SimpleFeasible.parse_simple_results SimpleFeasible.total_cost_rule
             m v plant_names in
  let cb := SimpleFeasible.cost_breakdown r in
  SimpleFeasible.objective_value r == SimpleFeasible.total_cost_rule m v
  /\ SimpleFeasible.production cb + SimpleFeasible.transport cb
     + SimpleFeasible.demand_penalty cb
     == SimpleFeasible.objective_value r
  /\ SimpleFeasible.transport cb
     == Py.sum (map (fun '(r, t) => Py.get (SimpleFeasible.transport_cost_per_trip data) r 0
                                    * SimpleFeasible.Ship v r t)
                    (list_prod (SimpleFeasible.routes data) (SimpleFeasible.months data)))
  /\ SimpleFeasible.holding cb
     == 50 * Py.sum (map (fun '(p, t) => SimpleFeasible.Inv v p t)
                         (list_prod (SimpleFeasible.plant_ids data)
                                    (SimpleFeasible.months data)))
  /\ SimpleFeasible.production cb + SimpleFeasible.transport cb
     + SimpleFeasible.holding cb + SimpleFeasible.demand_penalty cb
     == SimpleFeasible.objective_value r + SimpleFeasible.holding cb.
Proof.
  cbn zeta.
  cbn [SimpleFeasible.parse_simple_results SimpleFeasible.cost_breakdown
       SimpleFeasible.objective_value SimpleFeasible.production SimpleFeasible.transport
       SimpleFeasible.holding SimpleFeasible.demand_penalty].
  unfold SimpleFeasible._safe_value.
  set (m := SimpleFeasible.build_simple_feasible_model data).
  assert (Hp : Py.sum (map (fun '(p, t) => SimpleFeasible.Prod v p t
                                           * SimpleFeasible.ProdCost m p)
                           (list_prod (SimpleFeasible.P m) (SimpleFeasible.T m)))
               == Py.sum (map (fun '(p, t) => SimpleFeasible.ProdCost m p
                                              * SimpleFeasible.Prod v p t)
                              (list_prod (SimpleFeasible.P m) (SimpleFeasible.T m)))).
  { apply sum_map_ext. intros [p t] _. ring. }
  assert (Hobj : Py.sum (map (fun '(p, t) => SimpleFeasible.Prod v p t
                                             * SimpleFeasible.ProdCost m p)
                             (list_prod (SimpleFeasible.P m) (SimpleFeasible.T m)))
                 + Py.sum (map (fun '(r, t) => SimpleFeasible.RouteCost m r
                                               * SimpleFeasible.Ship v r t)
                               (list_prod (SimpleFeasible.R m) (SimpleFeasible.T m)))
                 + Py.sum (map (fun '(p, t) => SimpleFeasible.DemandPenalty m
                                               * SimpleFeasible.DemandSlack v p t)
                               (list_prod (SimpleFeasible.P m) (SimpleFeasible.T m)))
                 == SimpleFeasible.total_cost_rule m v).
  { unfold SimpleFeasible.total_cost_rule. cbn zeta. rewrite Hp. reflexivity. }
  split; [reflexivity|]. split; [exact Hobj|]. split; [reflexivity|]. split.
  - rewrite <- sum_map_scale. apply sum_map_ext. intros [p t] _. cbn. ring.
  - rewrite <- Hobj. ring.
Qed.

(** With 10 units in stock and nothing to make or to ship, the plan that
    leaves the stock in place satisfies every constraint and costs nothing,
    and no plan costs less; its breakdown adds up to 500. *)
Example simple_run_breakdown_exceeds_objective :
  let m := SimpleFeasible.build_simple_feasible_model simple_data1 in
  let r := SimpleFeasible.parse_simple_results SimpleFeasible.total_cost_rule
             m simple_values1 ∅ in
  let cb := SimpleFeasible.cost_breakdown r in
  Forall rule_holds (SimpleFeasible.constraints m simple_values1)
  /\ SimpleFeasible.objective_value r == 0
  /\ (forall v, 0 <= SimpleFeasible.Prod v "A"%string "1"%string ->
                0 <= SimpleFeasible.DemandSlack v "A"%string "1"%string ->
                SimpleFeasible.objective_value r <= SimpleFeasible.total_cost_rule m v)
  /\ SimpleFeasible.production cb + SimpleFeasible.transport cb
     + SimpleFeasible.holding cb + SimpleFeasible.demand_penalty cb == 500.
Proof.
  cbn zeta. split.
  { repeat constructor; vm_compute; first [reflexivity | discriminate]. }
  split; [vm_compute; reflexivity|]. split; [|vm_compute; reflexivity].
  intros v Hprod Hslack.
  assert (Hobj : SimpleFeasible.total_cost_rule
                   (SimpleFeasible.build_simple_feasible_model simple_data1) v
                 == 1800 * SimpleFeasible.Prod v "A"%string "1"%string
                    + 10000 * SimpleFeasible.DemandSlack v "A"%string "1"%string).
  { unfold SimpleFeasible.total_cost_rule.
    change (SimpleFeasible.P (SimpleFeasible.build_simple_feasible_model simple_data1))
      with ["A"%string].
    change (SimpleFeasible.T (SimpleFeasible.build_simple_feasible_model simple_data1))
      with ["1"%string].
    change (SimpleFeasible.R (SimpleFeasible.build_simple_feasible_model simple_data1))
      with (@nil route).
    cbn [list_prod map app]. rewrite !sum_cons, !sum_nil.
    change (SimpleFeasible.ProdCost
              (SimpleFeasible.build_simple_feasible_model simple_data1) "A"%string)
      with 1800.
    change (SimpleFeasible.DemandPenalty
              (SimpleFeasible.build_simple_feasible_model simple_data1))
      with 10000.
    ring. }
  rewrite Hobj.
  change (SimpleFeasible.objective_value _) with 0. lra.
Qed.
